(** * vSphere provider of EKS Anywhere: template decisions and validation

    Shallow embedding of [pkg/providers/vsphere/vsphere.go].

    Conventions of the embedding:
    - Go [string] is [string]; Go [int] is [Z]; [[]byte] is [list byte];
      [map[string]T] is [gmap string T].
    - A slice that [reflect.DeepEqual] looks into (the users of a machine
      config and their SSH keys) is a [slice]: nil, or a list of elements,
      for [DeepEqual] tells a nil slice from an empty one.  On the records
      built from strings, integers, booleans and such slices, equality is
      what [reflect.DeepEqual] decides.  The annotations of a machine
      config, which the code tests for nil, are an [option] of a map.  A
      slice that the code only ranges over or hands to a helper is a [list].
    - A pointer that the code can visibly make nil (the result of indexing
      [map[string]*VSphereMachineConfig] with an absent key, the explicit
      [nil, nil] of [getWorkerNodeMachineConfigs], the optional
      [ExternalEtcdConfiguration]) is an [option]; dereferencing [None]
      is a panic.  Every other pointer is the record it points to.
    - Calls on the cluster client, the clock and the key generator are
      effects on an explicit [World], threaded by a small state-and-error
      monad; each mutating call is also appended to a chronological log. *)

From Stdlib Require Import ZArith String Ascii.
From Stdlib.Strings Require Import Byte.
From stdpp Require Import base decidable option list strings pretty gmap fin_maps.



(** ** API types ([pkg/api/v1alpha1], [pkg/cluster], [pkg/types])

    The declarations of these types are not among the sources at hand.  The
    records follow section 3 of the specification (data model) and carry the
    members that [vsphere.go] reads or writes, under their Go names. *)

(** A Go slice: nil, or its elements (none, for an empty slice that is not
    nil).  [len], [range] and indexing see the elements only. *)
Inductive slice (A : Type) : Type :=
| nilSlice
| Slice (elements : list A).
Arguments nilSlice {A}.
Arguments Slice {A} elements.

Definition elems {A} (s : slice A) : list A :=
  match s with
  | nilSlice => []
  | Slice elements => elements
  end.

#[global] Instance slice_eq_dec {A} `{EqDecision A} : EqDecision (slice A).
Proof. solve_decision. Defined.

Module v1alpha1.

Record Ref := mkRef {
  ref_Kind : string;
  ref_Name : string }.

Record Taint := mkTaint {
  taint_Key : string;
  taint_Value : string;
  taint_Effect : string }.

Record UserConfiguration := mkUser {
  user_Name : string;
  SshAuthorizedKeys : slice string }.

(** Modelled from the spec: the declaration of [VSphereMachineConfigSpec] is
    missing.  Section 3 gives the VM shape: CPU, memory, disk size,
    datastore, resource pool, folder, template reference, OS family, storage
    policy and the list of users with their SSH keys. *)
Record VSphereMachineConfigSpec := mkVmcSpec {
  DiskGiB : Z;
  Datastore : string;
  Folder : string;
  NumCPUs : Z;
  MemoryMiB : Z;
  OSFamily : string;
  ResourcePool : string;
  StoragePolicyName : string;
  Template : string;
  Users : slice UserConfiguration }.

Record VSphereMachineConfig := mkVmc {
  vmc_Name : string;
  vmc_Namespace : string;
  vmc_Annotations : option (gmap string string);   (* [None]: the nil map *)
  vmc_Spec : VSphereMachineConfigSpec }.

(** Modelled from the spec: the declaration of [VSphereDatacenterConfigSpec]
    is missing.  Section 3 gives server address, datacenter name, network
    name and TLS thumbprint; [DisableCSI] is read by [NewProviderCustomNet]. *)
Record VSphereDatacenterConfigSpec := mkVdcSpec {
  Datacenter : string;
  DisableCSI : bool;
  Network : string;
  Server : string;
  Thumbprint : string }.

Record VSphereDatacenterConfig := mkVdc {
  vdc_Name : string;
  vdc_Namespace : string;
  vdc_Spec : VSphereDatacenterConfigSpec }.

Record Endpoint := mkEndpoint { Host : string }.

Record ControlPlaneConfiguration := mkCPConf {
  cp_Count : Z;
  cp_Endpoint : Endpoint;
  cp_MachineGroupRef : Ref }.

Record ExternalEtcdConfiguration := mkEtcdConf {
  etcd_Count : Z;
  etcd_MachineGroupRef : Ref }.

(** Modelled from the spec: the declaration of [WorkerNodeGroupConfiguration]
    is missing.  Section 3: a named group of workers with its own machine
    group reference, taint list and label map. *)
Record WorkerNodeGroupConfiguration := mkWng {
  wng_Name : string;
  wng_Count : Z;
  wng_MachineGroupRef : Ref;
  wng_Taints : list Taint;
  wng_Labels : gmap string string }.

(** Modelled from the spec: the declaration of [ClusterSpec] is missing.
    Section 3: the topology (control plane, worker node groups, optional
    external etcd), the Kubernetes version and the datacenter reference. *)
Record ClusterSpec := mkClusterSpec {
  KubernetesVersion : string;
  ControlPlaneConfiguration_ : ControlPlaneConfiguration;
  WorkerNodeGroupConfigurations : list WorkerNodeGroupConfiguration;
  ExternalEtcdConfiguration_ : option ExternalEtcdConfiguration;
  DatacenterRef : Ref }.

Record Cluster := mkCluster {
  cluster_Name : string;
  cluster_Namespace : string;
  cluster_Spec : ClusterSpec }.

#[global] Instance Ref_eq_dec : EqDecision Ref.
Proof. solve_decision. Defined.
#[global] Instance Taint_eq_dec : EqDecision Taint.
Proof. solve_decision. Defined.
#[global] Instance UserConfiguration_eq_dec : EqDecision UserConfiguration.
Proof. solve_decision. Defined.
#[global] Instance VSphereMachineConfigSpec_eq_dec : EqDecision VSphereMachineConfigSpec.
Proof. solve_decision. Defined.
#[global] Instance VSphereDatacenterConfigSpec_eq_dec : EqDecision VSphereDatacenterConfigSpec.
Proof. solve_decision. Defined.

End v1alpha1.

Module types.

(** [types.Cluster]: the handle of a running cluster. *)
Record Cluster := mkCluster {
  Name : string;
  KubeconfigFile : string }.

#[global] Instance Cluster_eq_dec : EqDecision Cluster.
Proof. solve_decision. Defined.

End types.

Module releasev1alpha1.

Record Image := mkImage {
  URI : string;
  ImageDigest : string }.

(** Modelled from the spec: the declaration of [VSphereBundle] is missing.
    Section 3: a versions bundle pins a version and image digests per
    component; the images are the four that [vsphere.go] names. *)
Record VSphereBundle := mkVSphereBundle {
  Version : string;
  Driver : Image;
  Syncer : Image;
  Manager : Image;
  KubeVip : Image }.

(** Modelled from the spec: the declaration of [CiliumBundle] is missing.
    The versions bundle pins the components of Cilium as well; the members
    are those that [pkg/networking/cilium/templater_test.go] sets. *)
Record CiliumBundle := mkCiliumBundle {
  cilium_Version : string;
  cilium_Cilium : Image;
  cilium_Operator : Image;
  cilium_HelmChart : Image }.

Record VersionsBundle := mkVersionsBundle {
  VSphere : VSphereBundle;
  Cilium : CiliumBundle }.

(** The component images that a versions bundle pins. *)
Definition pinnedImages (b : VersionsBundle) : list Image :=
  [Driver (VSphere b); Syncer (VSphere b); Manager (VSphere b); KubeVip (VSphere b);
   cilium_Cilium (Cilium b); cilium_Operator (Cilium b); cilium_HelmChart (Cilium b)].

Record BundlesSpec := mkBundlesSpec { Number : Z }.

End releasev1alpha1.

Module cluster.

(** Modelled from the spec: the declaration of [cluster.Spec] is missing.
    Section 3: the resolved desired state, with the cluster, the bundles,
    the versions bundle, the datacenter config and the machine configs by
    name. *)
Record Spec := mkSpec {
  Cluster : v1alpha1.Cluster;
  Bundles : releasev1alpha1.BundlesSpec;
  VersionsBundle : releasev1alpha1.VersionsBundle;
  VSphereDatacenter : v1alpha1.VSphereDatacenterConfig;
  VSphereMachineConfigs : gmap string v1alpha1.VSphereMachineConfig;
  ManagementCluster : types.Cluster }.

Definition kubernetesVersion (s : Spec) : string :=
  v1alpha1.KubernetesVersion (v1alpha1.cluster_Spec (Cluster s)).

Definition endpointHost (s : Spec) : string :=
  v1alpha1.Host (v1alpha1.cp_Endpoint
    (v1alpha1.ControlPlaneConfiguration_ (v1alpha1.cluster_Spec (Cluster s)))).

Definition bundleNumber (s : Spec) : Z := releasev1alpha1.Number (Bundles s).

Definition workerNodeGroups (s : Spec) : list v1alpha1.WorkerNodeGroupConfiguration :=
  v1alpha1.WorkerNodeGroupConfigurations (v1alpha1.cluster_Spec (Cluster s)).

(** Modelled from the spec: the body of [BuildMapForWorkerNodeGroupsByName]
    is missing.  Section 4.2 calls its result the group-by-name index of the
    worker node groups; a later group of the same name replaces an earlier
    one, as a Go map assignment in a loop does. *)
Definition BuildMapForWorkerNodeGroupsByName
    (groups : list v1alpha1.WorkerNodeGroupConfiguration)
  : gmap string v1alpha1.WorkerNodeGroupConfiguration :=
  fold_left (fun m g => <[v1alpha1.wng_Name g := g]> m) groups ∅.

End cluster.

Import v1alpha1.

(** ** Spec differ: pure decisions *)

Section Differ.

(** Comparison helpers of [pkg/api/v1alpha1] whose bodies are not at hand. *)
Variable WorkerNodeGroupConfigurationSliceTaintsEqual :
  list WorkerNodeGroupConfiguration -> list WorkerNodeGroupConfiguration -> bool.
Variable WorkerNodeGroupConfigurationsLabelsMapEqual :
  list WorkerNodeGroupConfiguration -> list WorkerNodeGroupConfiguration -> bool.
Variable TaintsSliceEqual : list Taint -> list Taint -> bool.
Variable MapEqual : gmap string string -> gmap string string -> bool.
Variable UsersSliceEqual : slice UserConfiguration -> slice UserConfiguration -> bool.

(** Go's [a != b] on strings and integers. *)
Definition neq {A} `{EqDecision A} (a b : A) : bool := bool_decide (a ≠ b).

(** [AnyImmutableFieldChanged].  Both machine-config pointers are
    dereferenced by the first comparison, so a nil one panics ([None]). *)
Definition AnyImmutableFieldChanged
    (oldVdc newVdc : VSphereDatacenterConfig)
    (oldVmc newVmc : option VSphereMachineConfig) : option bool :=
  o ← oldVmc;
  n ← newVmc;
  let oldS := vmc_Spec o in
  let newS := vmc_Spec n in
  Some
   (if neq (NumCPUs oldS) (NumCPUs newS) then true
    else if neq (MemoryMiB oldS) (MemoryMiB newS) then true
    else if neq (DiskGiB oldS) (DiskGiB newS) then true
    else if neq (Datastore oldS) (Datastore newS) then true
    else if neq (Folder oldS) (Folder newS) then true
    else if neq (Network (vdc_Spec oldVdc)) (Network (vdc_Spec newVdc)) then true
    else if neq (ResourcePool oldS) (ResourcePool newS) then true
    else if neq (Thumbprint (vdc_Spec oldVdc)) (Thumbprint (vdc_Spec newVdc)) then true
    else if neq (Template oldS) (Template newS) then true
    else false).

Definition NeedsNewControlPlaneTemplate
    (oldSpec newSpec : cluster.Spec)
    (oldVdc newVdc : VSphereDatacenterConfig)
    (oldVmc newVmc : option VSphereMachineConfig) : option bool :=
  if neq (cluster.kubernetesVersion oldSpec) (cluster.kubernetesVersion newSpec)
  then Some true
  else if neq (cluster.endpointHost oldSpec) (cluster.endpointHost newSpec)
  then Some true
  else if neq (cluster.bundleNumber oldSpec) (cluster.bundleNumber newSpec)
  then Some true
  else AnyImmutableFieldChanged oldVdc newVdc oldVmc newVmc.

Definition NeedsNewWorkloadTemplate
    (oldSpec newSpec : cluster.Spec)
    (oldVdc newVdc : VSphereDatacenterConfig)
    (oldVmc newVmc : option VSphereMachineConfig) : option bool :=
  if neq (cluster.kubernetesVersion oldSpec) (cluster.kubernetesVersion newSpec)
  then Some true
  else if neq (cluster.bundleNumber oldSpec) (cluster.bundleNumber newSpec)
  then Some true
  else if negb (WorkerNodeGroupConfigurationSliceTaintsEqual
                  (cluster.workerNodeGroups oldSpec) (cluster.workerNodeGroups newSpec))
          || negb (WorkerNodeGroupConfigurationsLabelsMapEqual
                  (cluster.workerNodeGroups oldSpec) (cluster.workerNodeGroups newSpec))
  then Some true
  else AnyImmutableFieldChanged oldVdc newVdc oldVmc newVmc.

(** [NeedsNewKubeadmConfigTemplate]: the machine configs are dereferenced
    only when taints and labels are equal ([||] short-circuits), the old
    one first. *)
Definition NeedsNewKubeadmConfigTemplate
    (newWorkerNodeGroup oldWorkerNodeGroup : WorkerNodeGroupConfiguration)
    (oldWorkerNodeVmc newWorkerNodeVmc : option VSphereMachineConfig) : option bool :=
  if negb (TaintsSliceEqual (wng_Taints newWorkerNodeGroup) (wng_Taints oldWorkerNodeGroup))
  then Some true
  else if negb (MapEqual (wng_Labels newWorkerNodeGroup) (wng_Labels oldWorkerNodeGroup))
  then Some true
  else
    o ← oldWorkerNodeVmc;
    n ← newWorkerNodeVmc;
    Some (negb (UsersSliceEqual (Users (vmc_Spec o)) (Users (vmc_Spec n)))).

Definition NeedsNewEtcdTemplate
    (oldSpec newSpec : cluster.Spec)
    (oldVdc newVdc : VSphereDatacenterConfig)
    (oldVmc newVmc : option VSphereMachineConfig) : option bool :=
  if neq (cluster.kubernetesVersion oldSpec) (cluster.kubernetesVersion newSpec)
  then Some true
  else if neq (cluster.bundleNumber oldSpec) (cluster.bundleNumber newSpec)
  then Some true
  else AnyImmutableFieldChanged oldVdc newVdc oldVmc newVmc.

End Differ.

(** ** Effects: outcomes, the world and the monad *)

(** What a Go call that returns [(T, error)] can do. *)
Inductive outcome (A : Type) : Type :=
| Ok (a : A)        (* the error is nil *)
| Err (e : string)  (* a non-nil error with message [e] *)
| Panic.            (* run-time panic: nil dereference, index out of range *)
Arguments Ok {A} a.
Arguments Err {A} e.
Arguments Panic {A}.

Module executables.

(** [executables.KubectlOpt], with the two options [vsphere.go] builds. *)
Inductive KubectlOpt :=
| WithCluster (c : types.Cluster)
| WithNamespace (ns : string).

End executables.

(** Resources of Cluster API and of core Kubernetes, reduced to the
    members [vsphere.go] reads. *)
Record MachineDeployment := mkMachineDeployment {
  md_BootstrapConfigRefName : string;    (* Spec.Template.Spec.Bootstrap.ConfigRef.Name *)
  md_InfrastructureRefName : string }.   (* Spec.Template.Spec.InfrastructureRef.Name *)

Record KubeadmControlPlane := mkKubeadmControlPlane {
  kcp_InfrastructureRefName : string }.  (* Spec.MachineTemplate.InfrastructureRef.Name *)

Record EtcdadmCluster := mkEtcdadmCluster {
  etcdadm_InfrastructureTemplateName : string }. (* Spec.InfrastructureTemplate.Name *)

Record Secret := mkSecret { Data : gmap string (list byte) }.

(** [ProviderKubectlClient], the methods used below.  [K] is the state of
    whatever stands behind the client; the [Get] methods read it, the
    other two may change it. *)
Record ProviderKubectlClient (K : Type) := mkProviderKubectlClient {
  ApplyKubeSpecFromBytes : types.Cluster -> list byte -> K -> outcome unit * K;
  GetEksaCluster : types.Cluster -> string -> K -> outcome v1alpha1.Cluster;
  GetEksaVSphereDatacenterConfig :
    string -> string -> string -> K -> outcome VSphereDatacenterConfig;
  GetEksaVSphereMachineConfig :
    string -> string -> string -> K -> outcome VSphereMachineConfig;
  GetMachineDeployment :
    string -> list executables.KubectlOpt -> K -> outcome MachineDeployment;
  GetKubeadmControlPlane :
    types.Cluster -> string -> list executables.KubectlOpt -> K -> outcome KubeadmControlPlane;
  GetEtcdadmCluster :
    types.Cluster -> string -> list executables.KubectlOpt -> K -> outcome EtcdadmCluster;
  GetSecretFromNamespace : string -> string -> string -> K -> outcome Secret;
  UpdateAnnotation :
    string -> string -> gmap string string -> list executables.KubectlOpt ->
    K -> outcome unit * K }.
Arguments ApplyKubeSpecFromBytes {K}.
Arguments GetEksaCluster {K}.
Arguments GetEksaVSphereDatacenterConfig {K}.
Arguments GetEksaVSphereMachineConfig {K}.
Arguments GetMachineDeployment {K}.
Arguments GetKubeadmControlPlane {K}.
Arguments GetEtcdadmCluster {K}.
Arguments GetSecretFromNamespace {K}.
Arguments UpdateAnnotation {K}.

(** Everything [vsphere.go] takes from outside this file: the collaborators
    handed to [NewProviderCustomNet], helpers of sibling packages, embedded
    files and constants of other modules. *)
Class Collaborators := mkCollaborators {
  K : Type;                      (* state behind [providerKubectlClient] *)
  F : Type;                      (* state behind [writer] *)
  Time : Type;                   (* [time.Time] *)
  providerKubectlClient : ProviderKubectlClient K;
  (* [common.GenerateSSHAuthKey(p.writer)] *)
  GenerateSSHAuthKey : F -> outcome string * F;
  (* [p.templateBuilder.now]: the n-th reading of the clock *)
  now : nat -> Time;
  (* [common.*TemplateName] *)
  CPMachineTemplateName : string -> Time -> string;
  EtcdMachineTemplateName : string -> Time -> string;
  WorkerMachineTemplateName : string -> string -> Time -> string;
  KubeadmConfigTemplateName : string -> string -> Time -> string;
  (* [p.templateBuilder.GenerateCAPISpecControlPlane(spec, cpOpt)], where
     [cpOpt] sets [controlPlaneTemplateName] and [etcdTemplateName] *)
  GenerateCAPISpecControlPlane : cluster.Spec -> string -> string -> outcome (list byte);
  GenerateCAPISpecWorkers :
    cluster.Spec -> gmap string string -> gmap string string -> outcome (list byte);
  (* the method [MachineConfigRefs] of [v1alpha1.Cluster] *)
  MachineConfigRefs : v1alpha1.Cluster -> list Ref;
  (* comparison helpers of [v1alpha1] *)
  WorkerNodeGroupConfigurationSliceTaintsEqual :
    list WorkerNodeGroupConfiguration -> list WorkerNodeGroupConfiguration -> bool;
  WorkerNodeGroupConfigurationsLabelsMapEqual :
    list WorkerNodeGroupConfiguration -> list WorkerNodeGroupConfiguration -> bool;
  TaintsSliceEqual : list Taint -> list Taint -> bool;
  MapEqual : gmap string string -> gmap string string -> bool;
  UsersSliceEqual : slice UserConfiguration -> slice UserConfiguration -> bool;
  (* [//go:embed config/defaultStorageClass.yaml] *)
  defaultStorageClass : list byte;
  (* [constants.EksaSystemNamespace], [etcdv1.UpgradeInProgressAnnotation] *)
  EksaSystemNamespace : string;
  UpgradeInProgressAnnotation : string }.

Definition CredentialsObjectName : string := "vsphere-credentials".
Definition vSphereUsernameKey : string := "VSPHERE_USERNAME".
Definition vSpherePasswordKey : string := "VSPHERE_PASSWORD".

Inductive TemplateKind :=
| CPMachineTemplate
| EtcdMachineTemplate
| WorkerMachineTemplate (nodeGroup : string)
| KubeadmConfigTemplate (nodeGroup : string).

(** The chronological record of what a run did to its surroundings. *)
Inductive Event :=
| EvUpdateAnnotation (resourceType objectName : string)
    (annotations : gmap string string) (opts : list executables.KubectlOpt)
    (r : outcome unit)
| EvApplyKubeSpecFromBytes (c : types.Cluster) (data : list byte) (r : outcome unit)
| EvMintTemplateName (kind : TemplateKind) (name : string)
| EvGenerateSSHAuthKey (r : outcome string).

Section Provider.

Context `{C : Collaborators}.

Record World := mkWorld {
  kube : K;                       (* the clusters behind the client *)
  writer : F;                     (* the files behind the writer *)
  environ : gmap string string;   (* the process environment *)
  ticks : nat;                    (* readings of the clock so far *)
  log : list Event }.

Definition M (A : Type) : Type := World -> outcome A * World.

Definition ret {A} (a : A) : M A := fun w => (Ok a, w).

Definition bind {A B} (m : M A) (k : A -> M B) : M B := fun w =>
  match m w with
  | (Ok a, w') => k a w'
  | (Err e, w') => (Err e, w')
  | (Panic, w') => (Panic, w')
  end.

(** [return fmt.Errorf(...)] and a panic. *)
Definition fail {A} (e : string) : M A := fun w => (Err e, w).
Definition panic {A} : M A := fun w => (Panic, w).

(** [if err != nil { return fmt.Errorf(prefix + "%v", err) }]. *)
Definition wrapErr {A} (prefix : string) (m : M A) : M A := fun w =>
  match m w with
  | (Err e, w') => (Err (prefix +:+ e), w')
  | rw => rw
  end.

End Provider.

Declare Scope go_scope.
Delimit Scope go_scope with go.
Notation "x <- m ;; k" := (bind m (fun x => k))
  (at level 100, m at next level, right associativity) : go_scope.
Local Open Scope go_scope.

(** ** The provider *)

Section ProviderCode.

Context `{C : Collaborators}.

(** A [Get] call on the client: reads the state, leaves the world as it is. *)
Definition kubectlGet {A} (f : K -> outcome A) : M A := fun w => (f (kube w), w).

(** Dereference of a pointer that may be nil. *)
Definition deref {A} (p : option A) : M A :=
  match p with
  | Some a => ret a
  | None => panic
  end.

(** [os.Getenv]: the empty string when the variable is not set. *)
Definition Getenv (key : string) : M string := fun w =>
  (Ok (default "" (environ w !! key)), w).

Definition callUpdateAnnotation (resourceType objectName : string)
    (annotations : gmap string string) (opts : list executables.KubectlOpt) : M unit :=
  fun w =>
    let '(r, k') := UpdateAnnotation providerKubectlClient
                      resourceType objectName annotations opts (kube w) in
    (r, mkWorld k' (writer w) (environ w) (ticks w)
          (log w ++ [EvUpdateAnnotation resourceType objectName annotations opts r])).

Definition callApplyKubeSpecFromBytes (c : types.Cluster) (data : list byte) : M unit :=
  fun w =>
    let '(r, k') := ApplyKubeSpecFromBytes providerKubectlClient c data (kube w) in
    (r, mkWorld k' (writer w) (environ w) (ticks w)
          (log w ++ [EvApplyKubeSpecFromBytes c data r])).


(** A template name is minted from one reading of the clock. *)
Definition mint (kind : TemplateKind) (name : Time -> string) : M string := fun w =>
  let n := name (now (ticks w)) in
  (Ok n, mkWorld (kube w) (writer w) (environ w) (S (ticks w))
           (log w ++ [EvMintTemplateName kind n])).

(** [vsphereProvider]: the members that are plain data; the collaborators
    are those of the context. *)
Record vsphereProvider := mkProvider {
  clusterConfig : v1alpha1.Cluster;
  skipIPCheck : bool;
  csiEnabled : bool }.

Definition NewProviderCustomNet (datacenterConfig : VSphereDatacenterConfig)
    (clusterConfig : v1alpha1.Cluster) (skipIpCheck : bool) : vsphereProvider :=
  {| clusterConfig := clusterConfig;
     skipIPCheck := skipIpCheck;
     csiEnabled := negb (DisableCSI (vdc_Spec datacenterConfig)) |}.

(** [machineConfigsSpecChanged].  [reflect.DeepEqual] on two machine config
    specs is equality of the records: their members are strings, integers
    and the slice of users, whose members are a string and the slice of
    keys, and a [slice] keeps nil apart from empty as [DeepEqual] does. *)
Fixpoint machineConfigsSpecChanged_loop (refs : list Ref) (cluster : types.Cluster)
    (newClusterSpec : cluster.Spec) : M bool :=
  match refs with
  | [] => ret false
  | oldMcRef :: refs' =>
    existingVmc <- kubectlGet (GetEksaVSphereMachineConfig providerKubectlClient
                     (ref_Name oldMcRef) (types.KubeconfigFile cluster)
                     (cluster_Namespace (cluster.Cluster newClusterSpec))) ;;
    match cluster.VSphereMachineConfigs newClusterSpec !! ref_Name oldMcRef with
    | None => ret true
    | Some csmc =>
      if negb (bool_decide (vmc_Spec existingVmc = vmc_Spec csmc)) then ret true
      else machineConfigsSpecChanged_loop refs' cluster newClusterSpec
    end
  end.

Definition machineConfigsSpecChanged (cc : v1alpha1.Cluster) (cluster : types.Cluster)
    (newClusterSpec : cluster.Spec) : M bool :=
  machineConfigsSpecChanged_loop (MachineConfigRefs cc) cluster newClusterSpec.

(** [generateSSHKeysIfNotSet], which [SetupAndValidateCreateCluster] calls
    once, on the machine configs of the cluster spec.  Go ranges over the
    map in an unspecified order: [order] is the order of one run.  [user] is a copy of the first
    user, but its key slice shares the backing array of the original, so
    the assignment to [user.SshAuthorizedKeys[0]] changes the machine config
    held by the map; the changed map is part of the result, also when the
    call fails. *)
Definition setFirstKey (key : string) (mc : VSphereMachineConfig) : VSphereMachineConfig :=
  let s := vmc_Spec mc in
  match Users s with
  | Slice (user :: users) =>
    match SshAuthorizedKeys user with
    | Slice keys =>
      mkVmc (vmc_Name mc) (vmc_Namespace mc) (vmc_Annotations mc)
        (mkVmcSpec (DiskGiB s) (Datastore s) (Folder s) (NumCPUs s) (MemoryMiB s)
           (OSFamily s) (ResourcePool s) (StoragePolicyName s) (Template s)
           (Slice (mkUser (user_Name user) (Slice (<[0%nat := key]> keys)) :: users)))
    | nilSlice => mc
    end
  | _ => mc
  end.



Definition InstallStorageClass (p : vsphereProvider) (cluster : types.Cluster) : M unit :=
  if negb (csiEnabled p) then ret tt
  else callApplyKubeSpecFromBytes cluster defaultStorageClass.

Definition machineRefSliceToMap (machineRefs : list Ref) : gmap string Ref :=
  fold_left (fun refMap ref => <[ref_Name ref := ref]> refMap) machineRefs ∅.

Definition machineDeploymentName (clusterName nodeGroupName : string) : string :=
  clusterName +:+ "-" +:+ nodeGroupName.

(** *** Spec generation for an upgrade *)

Definition getWorkerNodeMachineConfigs (workloadCluster : types.Cluster)
    (newClusterSpec : cluster.Spec)
    (workerNodeGroupConfiguration : WorkerNodeGroupConfiguration)
    (prevWorkerNodeGroupConfigs : gmap string WorkerNodeGroupConfiguration)
  : M (option VSphereMachineConfig * option VSphereMachineConfig) :=
  match prevWorkerNodeGroupConfigs !! wng_Name workerNodeGroupConfiguration with
  | Some _ =>
    let oldWorkerMachineConfig :=
      cluster.VSphereMachineConfigs newClusterSpec
        !! ref_Name (wng_MachineGroupRef workerNodeGroupConfiguration) in
    newWorkerMachineConfig <- kubectlGet (GetEksaVSphereMachineConfig providerKubectlClient
        (ref_Name (wng_MachineGroupRef workerNodeGroupConfiguration))
        (types.KubeconfigFile workloadCluster)
        (cluster_Namespace (cluster.Cluster newClusterSpec))) ;;
    ret (oldWorkerMachineConfig, Some newWorkerMachineConfig)
  | None => ret (None, None)
  end.

Definition needsNewMachineTemplate (currentSpec newClusterSpec : cluster.Spec)
    (workerNodeGroupConfiguration : WorkerNodeGroupConfiguration)
    (vdc : VSphereDatacenterConfig)
    (prevWorkerNodeGroupConfigs : gmap string WorkerNodeGroupConfiguration)
    (oldWorkerMachineConfig newWorkerMachineConfig : option VSphereMachineConfig)
  : M bool :=
  match prevWorkerNodeGroupConfigs !! wng_Name workerNodeGroupConfiguration with
  | Some _ =>
    deref (NeedsNewWorkloadTemplate
             WorkerNodeGroupConfigurationSliceTaintsEqual
             WorkerNodeGroupConfigurationsLabelsMapEqual
             currentSpec newClusterSpec vdc (cluster.VSphereDatacenter newClusterSpec)
             oldWorkerMachineConfig newWorkerMachineConfig)
  | None => ret true
  end.

Definition needsNewKubeadmConfigTemplate
    (workerNodeGroupConfiguration : WorkerNodeGroupConfiguration)
    (prevWorkerNodeGroupConfigs : gmap string WorkerNodeGroupConfiguration)
    (oldWorkerNodeVmc newWorkerNodeVmc : option VSphereMachineConfig) : M bool :=
  match prevWorkerNodeGroupConfigs !! wng_Name workerNodeGroupConfiguration with
  | Some existingWorkerNodeGroupConfig =>
    deref (NeedsNewKubeadmConfigTemplate TaintsSliceEqual MapEqual UsersSliceEqual
             workerNodeGroupConfiguration existingWorkerNodeGroupConfig
             oldWorkerNodeVmc newWorkerNodeVmc)
  | None => ret true
  end.

(** The [for ... range newClusterSpec...WorkerNodeGroupConfigurations] loop of
    [generateCAPISpecForUpgrade]; the accumulator is the pair of name maps. *)
Fixpoint workerTemplateNames_loop (groups : list WorkerNodeGroupConfiguration)
    (bootstrapCluster workloadCluster : types.Cluster)
    (currentSpec newClusterSpec : cluster.Spec) (vdc : VSphereDatacenterConfig)
    (previousWorkerNodeGroupConfigs : gmap string WorkerNodeGroupConfiguration)
    (names : gmap string string * gmap string string)
  : M (gmap string string * gmap string string) :=
  match groups with
  | [] => ret names
  | workerNodeGroupConfiguration :: groups' =>
    let clusterName := cluster_Name (cluster.Cluster newClusterSpec) in
    let opts := [executables.WithCluster bootstrapCluster;
                 executables.WithNamespace EksaSystemNamespace] in
    vmcs <- getWorkerNodeMachineConfigs workloadCluster newClusterSpec
              workerNodeGroupConfiguration previousWorkerNodeGroupConfigs ;;
    let oldWorkerNodeVmc := fst vmcs in
    let newWorkerNodeVmc := snd vmcs in
    needsNewWorkloadTemplate <- needsNewMachineTemplate currentSpec newClusterSpec
        workerNodeGroupConfiguration vdc previousWorkerNodeGroupConfigs
        oldWorkerNodeVmc newWorkerNodeVmc ;;
    needsNewKubeadmConfigTemplate_ <- needsNewKubeadmConfigTemplate
        workerNodeGroupConfiguration previousWorkerNodeGroupConfigs
        oldWorkerNodeVmc newWorkerNodeVmc ;;
    kubeadmconfigTemplateName <-
      (if negb needsNewKubeadmConfigTemplate_ then
         md <- kubectlGet (GetMachineDeployment providerKubectlClient
                 (machineDeploymentName clusterName (wng_Name workerNodeGroupConfiguration))
                 opts) ;;
         ret (md_BootstrapConfigRefName md)
       else
         mint (KubeadmConfigTemplate (wng_Name workerNodeGroupConfiguration))
           (KubeadmConfigTemplateName clusterName (wng_Name workerNodeGroupConfiguration))) ;;
    workloadTemplateName <-
      (if negb needsNewWorkloadTemplate then
         md <- kubectlGet (GetMachineDeployment providerKubectlClient
                 (machineDeploymentName clusterName (wng_Name workerNodeGroupConfiguration))
                 opts) ;;
         ret (md_InfrastructureRefName md)
       else
         mint (WorkerMachineTemplate (wng_Name workerNodeGroupConfiguration))
           (WorkerMachineTemplateName clusterName (wng_Name workerNodeGroupConfiguration))) ;;
    workerTemplateNames_loop groups' bootstrapCluster workloadCluster
      currentSpec newClusterSpec vdc previousWorkerNodeGroupConfigs
      (<[wng_Name workerNodeGroupConfiguration := workloadTemplateName]> (fst names),
       <[wng_Name workerNodeGroupConfiguration := kubeadmconfigTemplateName]> (snd names))
  end.

(** The [if newClusterSpec.Cluster.Spec.ExternalEtcdConfiguration != nil]
    block of [generateCAPISpecForUpgrade]; [etcdTemplateName] stays the
    empty string when there is no external etcd. *)
Definition etcdTemplateName_block (bootstrapCluster workloadCluster : types.Cluster)
    (currentSpec newClusterSpec : cluster.Spec) (c : v1alpha1.Cluster)
    (vdc : VSphereDatacenterConfig) : M string :=
  let clusterName := cluster_Name (cluster.Cluster newClusterSpec) in
  let opts := [executables.WithCluster bootstrapCluster;
               executables.WithNamespace EksaSystemNamespace] in
  match ExternalEtcdConfiguration_ (cluster_Spec (cluster.Cluster newClusterSpec)) with
  | None => ret ""
  | Some newEtcd =>
    let etcdMachineConfig :=
      cluster.VSphereMachineConfigs newClusterSpec
        !! ref_Name (etcd_MachineGroupRef newEtcd) in
    prevEtcd <- deref (ExternalEtcdConfiguration_ (cluster_Spec c)) ;;
    etcdMachineVmc <- kubectlGet (GetEksaVSphereMachineConfig providerKubectlClient
        (ref_Name (etcd_MachineGroupRef prevEtcd))
        (types.KubeconfigFile workloadCluster)
        (cluster_Namespace (cluster.Cluster newClusterSpec))) ;;
    needsNewEtcdTemplate <- deref (NeedsNewEtcdTemplate currentSpec newClusterSpec
        vdc (cluster.VSphereDatacenter newClusterSpec)
        (Some etcdMachineVmc) etcdMachineConfig) ;;
    if negb needsNewEtcdTemplate then
      etcdadmCluster <- kubectlGet (GetEtcdadmCluster providerKubectlClient
          workloadCluster clusterName opts) ;;
      ret (etcdadm_InfrastructureTemplateName etcdadmCluster)
    else
      _ <- callUpdateAnnotation "etcdadmcluster" (clusterName +:+ "-etcd")
             {[UpgradeInProgressAnnotation := "true"]} opts ;;
      mint EtcdMachineTemplate (EtcdMachineTemplateName clusterName)
  end.

Definition generateCAPISpecForUpgrade (p : vsphereProvider)
    (bootstrapCluster workloadCluster : types.Cluster)
    (currentSpec newClusterSpec : cluster.Spec) : M (list byte * list byte) :=
  let clusterName := cluster_Name (cluster.Cluster newClusterSpec) in
  let newCluster := cluster.Cluster newClusterSpec in
  c <- kubectlGet (GetEksaCluster providerKubectlClient workloadCluster
         (cluster_Name newCluster)) ;;
  vdc <- kubectlGet (GetEksaVSphereDatacenterConfig providerKubectlClient
         (vdc_Name (cluster.VSphereDatacenter newClusterSpec))
         (types.KubeconfigFile workloadCluster) (cluster_Namespace newCluster)) ;;
  let controlPlaneMachineConfig :=
    cluster.VSphereMachineConfigs newClusterSpec
      !! ref_Name (cp_MachineGroupRef (ControlPlaneConfiguration_ (cluster_Spec newCluster))) in
  controlPlaneVmc <- kubectlGet (GetEksaVSphereMachineConfig providerKubectlClient
         (ref_Name (cp_MachineGroupRef (ControlPlaneConfiguration_ (cluster_Spec c))))
         (types.KubeconfigFile workloadCluster) (cluster_Namespace newCluster)) ;;
  needsNewControlPlaneTemplate <- deref (NeedsNewControlPlaneTemplate
         currentSpec newClusterSpec vdc (cluster.VSphereDatacenter newClusterSpec)
         (Some controlPlaneVmc) controlPlaneMachineConfig) ;;
  controlPlaneTemplateName <-
    (if negb needsNewControlPlaneTemplate then
       cp <- kubectlGet (GetKubeadmControlPlane providerKubectlClient workloadCluster
               (cluster_Name c)
               [executables.WithCluster bootstrapCluster;
                executables.WithNamespace EksaSystemNamespace]) ;;
       ret (kcp_InfrastructureRefName cp)
     else mint CPMachineTemplate (CPMachineTemplateName clusterName)) ;;
  let previousWorkerNodeGroupConfigs :=
    cluster.BuildMapForWorkerNodeGroupsByName (cluster.workerNodeGroups currentSpec) in
  names <- workerTemplateNames_loop (cluster.workerNodeGroups newClusterSpec)
             bootstrapCluster workloadCluster currentSpec newClusterSpec vdc
             previousWorkerNodeGroupConfigs (∅, ∅) ;;
  etcdTemplateName <- etcdTemplateName_block bootstrapCluster workloadCluster
             currentSpec newClusterSpec c vdc ;;
  controlPlaneSpec <- (fun w => (GenerateCAPISpecControlPlane newClusterSpec
             controlPlaneTemplateName etcdTemplateName, w)) ;;
  workersSpec <- (fun w => (GenerateCAPISpecWorkers newClusterSpec
             (fst names) (snd names), w)) ;;
  ret (controlPlaneSpec, workersSpec).

Definition GenerateCAPISpecForUpgrade (p : vsphereProvider)
    (bootstrapCluster workloadCluster : types.Cluster)
    (currentSpec clusterSpec : cluster.Spec) : M (list byte * list byte) :=
  wrapErr "generating cluster api spec contents: "
    (generateCAPISpecForUpgrade p bootstrapCluster workloadCluster currentSpec clusterSpec).

(** *** Validation of a new spec *)

Definition validateMachineConfigImmutability (cluster : types.Cluster)
    (newConfig : VSphereMachineConfig) (clusterSpec : cluster.Spec) : M unit :=
  prevMachineConfig <- kubectlGet (GetEksaVSphereMachineConfig providerKubectlClient
      (vmc_Name newConfig) (types.KubeconfigFile cluster)
      (cluster_Namespace (cluster.Cluster clusterSpec))) ;;
  if neq (StoragePolicyName (vmc_Spec newConfig))
         (StoragePolicyName (vmc_Spec prevMachineConfig)) then
    fail ("spec.storagePolicyName is immutable. Previous value "
          +:+ StoragePolicyName (vmc_Spec prevMachineConfig)
          +:+ ", new value " +:+ StoragePolicyName (vmc_Spec newConfig))
  else if neq (OSFamily (vmc_Spec newConfig)) (OSFamily (vmc_Spec prevMachineConfig)) then
    fail ("spec.osFamily is immutable. Previous value "
          +:+ OSFamily (vmc_Spec prevMachineConfig)
          +:+ ", new value " +:+ OSFamily (vmc_Spec newConfig))
  else ret tt.

Definition secretContentsChanged (workloadCluster : types.Cluster) : M bool :=
  nPassword <- Getenv vSpherePasswordKey ;;
  oSecret <- wrapErr ("obtaining VSphere secret " +:+ CredentialsObjectName
                      +:+ " from workload cluster: ")
               (kubectlGet (GetSecretFromNamespace providerKubectlClient
                  (types.KubeconfigFile workloadCluster) CredentialsObjectName
                  EksaSystemNamespace)) ;;
  if neq (string_of_list_byte (default [] (Data oSecret !! "password"))) nPassword
  then ret true
  else
    nUser <- Getenv vSphereUsernameKey ;;
    if neq (string_of_list_byte (default [] (Data oSecret !! "username"))) nUser
    then ret true
    else ret false.

(** The loop of [ValidateNewSpec] over the machine config references of the
    new cluster. *)
Fixpoint validateMachineConfigs_loop (refs : list Ref) (cluster : types.Cluster)
    (clusterSpec : cluster.Spec) (prevMachineConfigRefs : gmap string Ref) : M unit :=
  match refs with
  | [] => ret tt
  | machineConfigRef :: refs' =>
    match cluster.VSphereMachineConfigs clusterSpec !! ref_Name machineConfigRef with
    | None =>
      fail ("cannot find machine config " +:+ ref_Name machineConfigRef
            +:+ " in vsphere provider machine configs")
    | Some machineConfig =>
      _ <- match prevMachineConfigRefs !! vmc_Name machineConfig with
           | Some _ => validateMachineConfigImmutability cluster machineConfig clusterSpec
           | None => ret tt
           end ;;
      validateMachineConfigs_loop refs' cluster clusterSpec prevMachineConfigRefs
    end
  end.

Definition ValidateNewSpec (p : vsphereProvider) (cluster : types.Cluster)
    (clusterSpec : cluster.Spec) : M unit :=
  prevSpec <- kubectlGet (GetEksaCluster providerKubectlClient cluster
                (cluster_Name (cluster.Cluster clusterSpec))) ;;
  prevDatacenter <- kubectlGet (GetEksaVSphereDatacenterConfig providerKubectlClient
                (ref_Name (DatacenterRef (cluster_Spec prevSpec)))
                (types.KubeconfigFile cluster) (cluster_Namespace prevSpec)) ;;
  let datacenter := cluster.VSphereDatacenter clusterSpec in
  let oSpec := vdc_Spec prevDatacenter in
  let nSpec := vdc_Spec datacenter in
  let prevMachineConfigRefs := machineRefSliceToMap (MachineConfigRefs prevSpec) in
  _ <- validateMachineConfigs_loop (MachineConfigRefs (cluster.Cluster clusterSpec))
         cluster clusterSpec prevMachineConfigRefs ;;
  if neq (Server nSpec) (Server oSpec) then
    fail ("spec.server is immutable. Previous value " +:+ Server oSpec
          +:+ ", new value " +:+ Server nSpec)
  else if neq (Datacenter nSpec) (Datacenter oSpec) then
    fail ("spec.datacenter is immutable. Previous value " +:+ Datacenter oSpec
          +:+ ", new value " +:+ Datacenter nSpec)
  else if neq (Network nSpec) (Network oSpec) then
    fail ("spec.network is immutable. Previous value " +:+ Network oSpec
          +:+ ", new value " +:+ Network nSpec)
  else
    secretChanged <- secretContentsChanged cluster ;;
    if (secretChanged : bool) then
      fail ("the VSphere credentials derived from " +:+ vSpherePasswordKey +:+ " and "
            +:+ vSphereUsernameKey
            +:+ " are immutable; please use the same credentials for the upgraded cluster")
    else ret tt.

(** *** Is an upgrade needed *)

(** [UpgradeNeeded].  Of the images that the versions bundle pins, the four
    of the vSphere bundle are compared; [reflect.DeepEqual] on the two
    datacenter config specs, whose members are strings and a boolean, is
    equality of the records. *)
Definition UpgradeNeeded (p : vsphereProvider) (newSpec currentSpec : cluster.Spec)
    (cluster : types.Cluster) : M bool :=
  let newV := releasev1alpha1.VSphere (cluster.VersionsBundle newSpec) in
  let oldV := releasev1alpha1.VSphere (cluster.VersionsBundle currentSpec) in
  let digest := releasev1alpha1.ImageDigest in
  if neq (digest (releasev1alpha1.Driver newV)) (digest (releasev1alpha1.Driver oldV))
     || neq (digest (releasev1alpha1.Syncer newV)) (digest (releasev1alpha1.Syncer oldV))
     || neq (digest (releasev1alpha1.Manager newV)) (digest (releasev1alpha1.Manager oldV))
     || neq (digest (releasev1alpha1.KubeVip newV)) (digest (releasev1alpha1.KubeVip oldV))
  then ret true
  else
    let cc := cluster.Cluster currentSpec in
    existingVdc <- kubectlGet (GetEksaVSphereDatacenterConfig providerKubectlClient
        (ref_Name (DatacenterRef (cluster_Spec cc))) (types.KubeconfigFile cluster)
        (cluster_Namespace (cluster.Cluster newSpec))) ;;
    if negb (bool_decide (vdc_Spec existingVdc = vdc_Spec (cluster.VSphereDatacenter newSpec)))
    then ret true
    else machineConfigsSpecChanged cc cluster newSpec.

End ProviderCode.

(** ** More of the provider

    The other methods of [vsphere.go] that stand on their own. *)

(** What these methods take from outside this file, besides the
    collaborators above: one more method of the cluster client and the
    management methods of [v1alpha1.Cluster] and [VSphereMachineConfig]. *)
Class MoreCollaborators `{C : Collaborators} := mkMoreCollaborators {
  (* [ProviderKubectlClient.SearchVsphereMachineConfig(name, kubeconfig, namespace)] *)
  SearchVsphereMachineConfig :
    string -> string -> string -> K -> outcome (list VSphereMachineConfig);
  (* [Cluster.ControlPlaneAnnotation], [Cluster.EtcdAnnotation] *)
  ControlPlaneAnnotation : v1alpha1.Cluster -> string;
  EtcdAnnotation : v1alpha1.Cluster -> string;
  (* [Cluster.IsManaged], [Cluster.ManagedBy] *)
  IsManaged : v1alpha1.Cluster -> bool;
  ManagedBy : v1alpha1.Cluster -> string;
  (* [VSphereMachineConfig.SetManagedBy] *)
  SetManagedBy : VSphereMachineConfig -> string -> VSphereMachineConfig }.

Definition expClusterResourceSetKey : string := "EXP_CLUSTER_RESOURCE_SET".

Definition requiredEnvs : list string :=
  [vSphereUsernameKey; vSpherePasswordKey; expClusterResourceSetKey].

Section ProviderCodeMore.

Context `{MC : MoreCollaborators}.

(** *** The environment *)

(** The loop of [EnvMap].  [os.LookupEnv] is the lookup in the environment;
    the map built so far is returned together with the error. *)
Fixpoint EnvMap_loop (keys : list string) (envMap : gmap string string)
    (env : gmap string string) : gmap string string * outcome unit :=
  match keys with
  | [] => (envMap, Ok tt)
  | key :: keys' =>
    match env !! key with
    | Some value =>
      if bool_decide (0 < String.length value)%nat
      then EnvMap_loop keys' (<[key := value]> envMap) env
      else (envMap, Err ("warning required env not set " +:+ key))
    | None => (envMap, Err ("warning required env not set " +:+ key))
    end
  end.

Definition EnvMap (p : vsphereProvider) (w : World) : gmap string string * outcome unit :=
  EnvMap_loop requiredEnvs ∅ (environ w).

(** *** Names of machine configs on upgrade *)

Definition validateMachineConfigsNameUniqueness (p : vsphereProvider)
    (cluster : types.Cluster) (clusterSpec : cluster.Spec) : M unit :=
  let newCluster := cluster.Cluster clusterSpec in
  prevSpec <- kubectlGet (GetEksaCluster providerKubectlClient cluster
                (cluster_Name newCluster)) ;;
  let cpMachineConfigName :=
    ref_Name (cp_MachineGroupRef (ControlPlaneConfiguration_ (cluster_Spec newCluster))) in
  _ <- (if neq (ref_Name (cp_MachineGroupRef
                  (ControlPlaneConfiguration_ (cluster_Spec prevSpec))))
               cpMachineConfigName
        then
          em <- kubectlGet (SearchVsphereMachineConfig cpMachineConfigName
                  (types.KubeconfigFile cluster) (cluster_Namespace newCluster)) ;;
          if bool_decide (0 < length em)%nat then
            fail ("control plane VSphereMachineConfig " +:+ cpMachineConfigName
                  +:+ " already exists")
          else ret tt
        else ret tt) ;;
  match ExternalEtcdConfiguration_ (cluster_Spec newCluster),
        ExternalEtcdConfiguration_ (cluster_Spec prevSpec) with
  | Some newEtcd, Some prevEtcd =>
    let etcdMachineConfigName := ref_Name (etcd_MachineGroupRef newEtcd) in
    if neq (ref_Name (etcd_MachineGroupRef prevEtcd)) etcdMachineConfigName then
      em <- kubectlGet (SearchVsphereMachineConfig etcdMachineConfigName
              (types.KubeconfigFile (cluster.ManagementCluster clusterSpec))
              (cluster_Namespace newCluster)) ;;
      if bool_decide (0 < length em)%nat then
        fail ("external etcd machineconfig " +:+ etcdMachineConfigName
              +:+ " already exists")
      else ret tt
    else ret tt
  | _, _ => ret tt
  end.

(** *** Spec generation for a create *)

(** The loop of [generateCAPISpecForCreate] over the worker node groups. *)
Fixpoint createTemplateNames_loop (groups : list WorkerNodeGroupConfiguration)
    (clusterName : string) (names : gmap string string * gmap string string)
  : M (gmap string string * gmap string string) :=
  match groups with
  | [] => ret names
  | workerNodeGroupConfiguration :: groups' =>
    let name := wng_Name workerNodeGroupConfiguration in
    workloadTemplateName <-
      mint (WorkerMachineTemplate name) (WorkerMachineTemplateName clusterName name) ;;
    kubeadmconfigTemplateName <-
      mint (KubeadmConfigTemplate name) (KubeadmConfigTemplateName clusterName name) ;;
    createTemplateNames_loop groups' clusterName
      (<[name := workloadTemplateName]> (fst names),
       <[name := kubeadmconfigTemplateName]> (snd names))
  end.

(** [generateCAPISpecForCreate].  Modelled from the spec: the template
    builder, which is not at hand, is taken to apply [cpOpt] once, before
    it renders; [cpOpt] mints the control plane template name and then the
    etcd template name. *)
Definition generateCAPISpecForCreate (p : vsphereProvider) (clusterSpec : cluster.Spec)
  : M (list byte * list byte) :=
  let clusterName := cluster_Name (cluster.Cluster clusterSpec) in
  controlPlaneTemplateName <-
    mint CPMachineTemplate (CPMachineTemplateName clusterName) ;;
  etcdTemplateName <-
    mint EtcdMachineTemplate (EtcdMachineTemplateName clusterName) ;;
  controlPlaneSpec <- (fun w => (GenerateCAPISpecControlPlane clusterSpec
             controlPlaneTemplateName etcdTemplateName, w)) ;;
  names <- createTemplateNames_loop (cluster.workerNodeGroups clusterSpec)
             clusterName (∅, ∅) ;;
  workersSpec <- (fun w => (GenerateCAPISpecWorkers clusterSpec
             (fst names) (snd names), w)) ;;
  ret (controlPlaneSpec, workersSpec).

Definition GenerateCAPISpecForCreate (p : vsphereProvider) (clusterSpec : cluster.Spec)
  : M (list byte * list byte) :=
  wrapErr "generating cluster api spec contents: "
    (generateCAPISpecForCreate p clusterSpec).

(** *** The machine configs of a spec *)

(** The spec with its machine configs replaced: what a caller sees after
    the machine configs, which the spec holds by pointer, were changed. *)
Definition withVSphereMachineConfigs (spec : cluster.Spec)
    (machineConfigs : gmap string VSphereMachineConfig) : cluster.Spec :=
  cluster.mkSpec (cluster.Cluster spec) (cluster.Bundles spec) (cluster.VersionsBundle spec)
    (cluster.VSphereDatacenter spec) machineConfigs (cluster.ManagementCluster spec).

(** [if machineConfig.Annotations == nil { machineConfig.Annotations =
    make(map[string]string, 1) }]. *)
Definition makeAnnotations (mc : VSphereMachineConfig) : VSphereMachineConfig :=
  match vmc_Annotations mc with
  | None => mkVmc (vmc_Name mc) (vmc_Namespace mc) (Some ∅) (vmc_Spec mc)
  | Some _ => mc
  end.

(** [machineConfig.Annotations[key] = value], on a map that is made when it
    is nil. *)
Definition setAnnotation (key value : string) (mc : VSphereMachineConfig)
  : VSphereMachineConfig :=
  mkVmc (vmc_Name mc) (vmc_Namespace mc)
    (Some (<[key := value]> (default ∅ (vmc_Annotations (makeAnnotations mc)))))
    (vmc_Spec mc).

(** [setMachineConfigManagedBy]; [None] is the panic of reading the
    annotations of a machine config that the map does not have.  The
    annotations are made when nil, whether the cluster is managed or not. *)
Definition setMachineConfigManagedBy (spec : cluster.Spec) (machineConfigName : string)
  : option cluster.Spec :=
  machineConfig ← cluster.VSphereMachineConfigs spec !! machineConfigName;
  let machineConfig := makeAnnotations machineConfig in
  Some (withVSphereMachineConfigs spec
          (<[machineConfigName :=
               if IsManaged (cluster.Cluster spec)
               then SetManagedBy machineConfig (ManagedBy (cluster.Cluster spec))
               else machineConfig]>
             (cluster.VSphereMachineConfigs spec))).

Definition annotateMachineConfig (spec : cluster.Spec)
    (machineConfigName annotationKey annotationValue : string) : option cluster.Spec :=
  machineConfig ← cluster.VSphereMachineConfigs spec !! machineConfigName;
  setMachineConfigManagedBy
    (withVSphereMachineConfigs spec
       (<[machineConfigName := setAnnotation annotationKey annotationValue machineConfig]>
          (cluster.VSphereMachineConfigs spec)))
    machineConfigName.

(** [MachineConfigs]: the machine configs in the order [order] in which the
    final loop ranges over the map, together with the spec as it is left. *)
Definition MachineConfigs (p : vsphereProvider) (order : list string) (spec : cluster.Spec)
  : option (list VSphereMachineConfig * cluster.Spec) :=
  let c := cluster_Spec (cluster.Cluster spec) in
  spec1 ← annotateMachineConfig spec
             (ref_Name (cp_MachineGroupRef (ControlPlaneConfiguration_ c)))
             (ControlPlaneAnnotation (cluster.Cluster spec)) "true";
  spec2 ← match ExternalEtcdConfiguration_ c with
           | Some etcd =>
             annotateMachineConfig spec1 (ref_Name (etcd_MachineGroupRef etcd))
               (EtcdAnnotation (cluster.Cluster spec)) "true"
           | None => Some spec1
           end;
  spec3 ← foldl (λ acc workerNodeGroupConfiguration,
                   spec' ← acc;
                   setMachineConfigManagedBy spec'
                     (ref_Name (wng_MachineGroupRef workerNodeGroupConfiguration)))
                (Some spec2)
                (WorkerNodeGroupConfigurations (cluster_Spec (clusterConfig p)));
  Some (omap (λ name, cluster.VSphereMachineConfigs spec3 !! name) order, spec3).

End ProviderCodeMore.

(** ** Vocabulary of the statements *)

(** The nine fields that [AnyImmutableFieldChanged] compares: seven of the
    machine config, two of the datacenter config. *)
Definition templateAffectingFieldsEqual (oldVdc newVdc : VSphereDatacenterConfig)
    (oldVmc newVmc : VSphereMachineConfig) : Prop :=
  NumCPUs (vmc_Spec oldVmc) = NumCPUs (vmc_Spec newVmc) ∧
  MemoryMiB (vmc_Spec oldVmc) = MemoryMiB (vmc_Spec newVmc) ∧
  DiskGiB (vmc_Spec oldVmc) = DiskGiB (vmc_Spec newVmc) ∧
  Datastore (vmc_Spec oldVmc) = Datastore (vmc_Spec newVmc) ∧
  Folder (vmc_Spec oldVmc) = Folder (vmc_Spec newVmc) ∧
  ResourcePool (vmc_Spec oldVmc) = ResourcePool (vmc_Spec newVmc) ∧
  Template (vmc_Spec oldVmc) = Template (vmc_Spec newVmc) ∧
  Network (vdc_Spec oldVdc) = Network (vdc_Spec newVdc) ∧
  Thumbprint (vdc_Spec oldVdc) = Thumbprint (vdc_Spec newVdc).

Definition someTemplateAffectingFieldDiffers (oldVdc newVdc : VSphereDatacenterConfig)
    (oldVmc newVmc : VSphereMachineConfig) : Prop :=
  NumCPUs (vmc_Spec oldVmc) ≠ NumCPUs (vmc_Spec newVmc) ∨
  MemoryMiB (vmc_Spec oldVmc) ≠ MemoryMiB (vmc_Spec newVmc) ∨
  DiskGiB (vmc_Spec oldVmc) ≠ DiskGiB (vmc_Spec newVmc) ∨
  Datastore (vmc_Spec oldVmc) ≠ Datastore (vmc_Spec newVmc) ∨
  Folder (vmc_Spec oldVmc) ≠ Folder (vmc_Spec newVmc) ∨
  ResourcePool (vmc_Spec oldVmc) ≠ ResourcePool (vmc_Spec newVmc) ∨
  Template (vmc_Spec oldVmc) ≠ Template (vmc_Spec newVmc) ∨
  Network (vdc_Spec oldVdc) ≠ Network (vdc_Spec newVdc) ∨
  Thumbprint (vdc_Spec oldVdc) ≠ Thumbprint (vdc_Spec newVdc).

(** [sub] occurs in [s]. *)
Definition contains (s sub : string) : Prop :=
  ∃ pre post : string, s = pre +:+ sub +:+ post.

(** The same as a test that computes. *)
Fixpoint containsb (s sub : string) : bool :=
  String.prefix sub s
  || match s with
     | EmptyString => false
     | String _ s' => containsb s' sub
     end.

Section Vocabulary.

Context `{C : Collaborators}.

(** The machine config checks of [ValidateNewSpec] pass: every machine
    config the new cluster refers to is in the provider's machine configs,
    and one that the running cluster refers to as well can be read from
    it, with the same storage policy and OS family. *)
Definition machineConfigChecksPass (cluster : types.Cluster) (clusterSpec : cluster.Spec)
    (prevSpec : v1alpha1.Cluster) (k : K) : Prop :=
  ∀ ref, ref ∈ MachineConfigRefs (cluster.Cluster clusterSpec) →
    ∃ mc, cluster.VSphereMachineConfigs clusterSpec !! ref_Name ref = Some mc ∧
      (is_Some (machineRefSliceToMap (MachineConfigRefs prevSpec) !! vmc_Name mc) →
       ∃ prev,
         GetEksaVSphereMachineConfig providerKubectlClient (vmc_Name mc)
           (types.KubeconfigFile cluster)
           (cluster_Namespace (cluster.Cluster clusterSpec)) k = Ok prev ∧
         StoragePolicyName (vmc_Spec mc) = StoragePolicyName (vmc_Spec prev) ∧
         OSFamily (vmc_Spec mc) = OSFamily (vmc_Spec prev)).

(** One of the four image digests that [UpgradeNeeded] compares changed. *)
Definition digestChanged (newSpec currentSpec : cluster.Spec) : Prop :=
  let newV := releasev1alpha1.VSphere (cluster.VersionsBundle newSpec) in
  let oldV := releasev1alpha1.VSphere (cluster.VersionsBundle currentSpec) in
  let digest := releasev1alpha1.ImageDigest in
  digest (releasev1alpha1.Driver newV) ≠ digest (releasev1alpha1.Driver oldV) ∨
  digest (releasev1alpha1.Syncer newV) ≠ digest (releasev1alpha1.Syncer oldV) ∨
  digest (releasev1alpha1.Manager newV) ≠ digest (releasev1alpha1.Manager oldV) ∨
  digest (releasev1alpha1.KubeVip newV) ≠ digest (releasev1alpha1.KubeVip oldV).

(** One of the component images that the versions bundle pins has another
    digest in the new spec. *)
Definition pinnedDigestChanged (newSpec currentSpec : cluster.Spec) : Prop :=
  releasev1alpha1.ImageDigest
    <$> releasev1alpha1.pinnedImages (cluster.VersionsBundle newSpec)
  ≠ releasev1alpha1.ImageDigest
      <$> releasev1alpha1.pinnedImages (cluster.VersionsBundle currentSpec).

(** The machine config [existing], applied in the cluster under the name of
    [ref], is not what the new spec has under that name (or the new spec
    has nothing there). *)
Definition machineConfigSpecDiffers (newSpec : cluster.Spec) (ref : Ref)
    (existing : VSphereMachineConfig) : Prop :=
  vmc_Spec <$> (cluster.VSphereMachineConfigs newSpec !! ref_Name ref)
  ≠ Some (vmc_Spec existing).

(** The call that marks the etcd cluster as upgrading, with its result. *)
Definition etcdUpgradeAnnotation (clusterName : string) (bootstrapCluster : types.Cluster)
    (r : outcome unit) : Event :=
  EvUpdateAnnotation "etcdadmcluster" (clusterName +:+ "-etcd")
    {[UpgradeInProgressAnnotation := "true"]}
    [executables.WithCluster bootstrapCluster;
     executables.WithNamespace EksaSystemNamespace] r.

(** In [generateCAPISpecForUpgrade], with [c] and [vdc] read from the
    cluster [k]: external etcd is configured and [NeedsNewEtcdTemplate]
    returns true. *)
Definition needsNewEtcdTemplateAt (workloadCluster : types.Cluster)
    (currentSpec newClusterSpec : cluster.Spec) (c : v1alpha1.Cluster)
    (vdc : VSphereDatacenterConfig) (k : K) : Prop :=
  ∃ newEtcd prevEtcd etcdMachineVmc,
    ExternalEtcdConfiguration_ (cluster_Spec (cluster.Cluster newClusterSpec)) = Some newEtcd ∧
    ExternalEtcdConfiguration_ (cluster_Spec c) = Some prevEtcd ∧
    GetEksaVSphereMachineConfig providerKubectlClient
      (ref_Name (etcd_MachineGroupRef prevEtcd)) (types.KubeconfigFile workloadCluster)
      (cluster_Namespace (cluster.Cluster newClusterSpec)) k = Ok etcdMachineVmc ∧
    NeedsNewEtcdTemplate currentSpec newClusterSpec vdc
      (cluster.VSphereDatacenter newClusterSpec) (Some etcdMachineVmc)
      (cluster.VSphereMachineConfigs newClusterSpec !! ref_Name (etcd_MachineGroupRef newEtcd))
    = Some true.

(** The same from the start of [generateCAPISpecForUpgrade], where [c] and
    [vdc] are what the cluster [k] answers. *)
Definition etcdTemplateRequired (workloadCluster : types.Cluster)
    (currentSpec newClusterSpec : cluster.Spec) (k : K) : Prop :=
  ∃ c vdc,
    GetEksaCluster providerKubectlClient workloadCluster
      (cluster_Name (cluster.Cluster newClusterSpec)) k = Ok c ∧
    GetEksaVSphereDatacenterConfig providerKubectlClient
      (vdc_Name (cluster.VSphereDatacenter newClusterSpec))
      (types.KubeconfigFile workloadCluster)
      (cluster_Namespace (cluster.Cluster newClusterSpec)) k = Ok vdc ∧
    needsNewEtcdTemplateAt workloadCluster currentSpec newClusterSpec c vdc k.

(** Events that are neither an annotation nor the minting of an etcd
    template name. *)
Definition quietEvent (e : Event) : Prop :=
  match e with
  | EvUpdateAnnotation _ _ _ _ _ => False
  | EvMintTemplateName EtcdMachineTemplate _ => False
  | _ => True
  end.

(** From [w] to [w'] the cluster was not written and only quiet events
    happened. *)
Definition quietly (w w' : World) : Prop :=
  kube w' = kube w ∧ ∃ evs, log w' = log w ++ evs ∧ Forall quietEvent evs.

(** A computation that only ever runs quietly. *)
Definition quiet {A} (m : M A) : Prop :=
  ∀ w r w', m w = (r, w') → quietly w w'.

(** The three ways the etcd block can go, as the events [blk] it adds and
    the result [r] of the run: no annotation is written, and then a new
    template was not required if there is a result; the annotation fails,
    and there is no result; or the annotation is written, the name is minted
    and a result has its control plane spec generated with this name. *)
Definition etcdSteps (clusterName : string) (bootstrapCluster : types.Cluster)
    (newClusterSpec : cluster.Spec) (req : Prop)
    (blk : list Event) (r : outcome (list byte * list byte)) : Prop :=
  (blk = [] ∧ (req → ∀ specs, r ≠ Ok specs))
  ∨ (∃ a, a ≠ Ok tt ∧ blk = [etcdUpgradeAnnotation clusterName bootstrapCluster a] ∧
          ∀ specs, r ≠ Ok specs)
  ∨ (∃ name, blk = [etcdUpgradeAnnotation clusterName bootstrapCluster (Ok tt);
                    EvMintTemplateName EtcdMachineTemplate name] ∧
             ∀ cp ws, r = Ok (cp, ws) →
               ∃ cpName, GenerateCAPISpecControlPlane newClusterSpec cpName name = Ok cp).

(** The sequencing of the etcd upgrade in the events [evs] of a run with
    result [r]: a minted etcd template name comes after a successful
    annotation; a failed annotation leaves no result and no minted name;
    and if a new etcd template is required ([req]) and there is a result,
    the annotation succeeded, the name was minted right after and is the
    one of the generated control plane spec. *)
Definition etcdSequencing (clusterName : string) (bootstrapCluster : types.Cluster)
    (newClusterSpec : cluster.Spec) (req : Prop)
    (evs : list Event) (r : outcome (list byte * list byte)) : Prop :=
  (∀ i name, evs !! i = Some (EvMintTemplateName EtcdMachineTemplate name) →
     ∃ j, (j < i)%nat ∧
          evs !! j = Some (etcdUpgradeAnnotation clusterName bootstrapCluster (Ok tt))) ∧
  (∀ j a, evs !! j = Some (etcdUpgradeAnnotation clusterName bootstrapCluster a) →
     a ≠ Ok tt →
     (∀ specs, r ≠ Ok specs) ∧
     ∀ i name, evs !! i ≠ Some (EvMintTemplateName EtcdMachineTemplate name)) ∧
  (req → ∀ controlPlaneSpec workersSpec, r = Ok (controlPlaneSpec, workersSpec) →
     ∃ i name controlPlaneTemplateName,
       evs !! i = Some (etcdUpgradeAnnotation clusterName bootstrapCluster (Ok tt)) ∧
       evs !! S i = Some (EvMintTemplateName EtcdMachineTemplate name) ∧
       GenerateCAPISpecControlPlane newClusterSpec controlPlaneTemplateName name
         = Ok controlPlaneSpec).

(** The first SSH authorized key of the first user of a machine config. *)
Definition firstKey (mc : VSphereMachineConfig) : option string :=
  user ← head (elems (Users (vmc_Spec mc)));
  head (elems (SshAuthorizedKeys user)).

(** What key generation should leave of a machine config, given the key. *)
Definition withGeneratedKey (key : string) (mc : VSphereMachineConfig)
  : VSphereMachineConfig :=
  if bool_decide (firstKey mc = Some "") then setFirstKey key mc else mc.



End Vocabulary.

(** ** More vocabulary *)

Section MoreVocabulary.

Context `{C : Collaborators}.

(** A computation that leaves the world as it found it. *)
Definition readOnly {A} (m : M A) : Prop := ∀ w, (m w).2 = w.

(** [machineConfigChecksPass], for the references [refs] only. *)
Definition machineConfigRefsPass (cluster : types.Cluster) (clusterSpec : cluster.Spec)
    (prevSpec : v1alpha1.Cluster) (k : K) (refs : list Ref) : Prop :=
  ∀ ref, ref ∈ refs →
    ∃ mc, cluster.VSphereMachineConfigs clusterSpec !! ref_Name ref = Some mc ∧
      (is_Some (machineRefSliceToMap (MachineConfigRefs prevSpec) !! vmc_Name mc) →
       ∃ prev,
         GetEksaVSphereMachineConfig providerKubectlClient (vmc_Name mc)
           (types.KubeconfigFile cluster)
           (cluster_Namespace (cluster.Cluster clusterSpec)) k = Ok prev ∧
         StoragePolicyName (vmc_Spec mc) = StoragePolicyName (vmc_Spec prev) ∧
         OSFamily (vmc_Spec mc) = OSFamily (vmc_Spec prev)).

(** The machine configs that [machineConfigsSpecChanged] reads for [refs]
    are the [existing] ones, and the new spec has them with the same spec. *)
Definition machineConfigRefsUnchanged (cluster : types.Cluster) (newSpec : cluster.Spec)
    (k : K) (existing : Ref → VSphereMachineConfig) (refs : list Ref) : Prop :=
  ∀ ref, ref ∈ refs →
    GetEksaVSphereMachineConfig providerKubectlClient (ref_Name ref)
      (types.KubeconfigFile cluster) (cluster_Namespace (cluster.Cluster newSpec)) k
      = Ok (existing ref) ∧
    ¬ machineConfigSpecDiffers newSpec ref (existing ref).

(** Events that mint a template name. *)
Definition mintEvent (e : Event) : Prop :=
  match e with
  | EvMintTemplateName _ _ => True
  | _ => False
  end.

(** The environment variable [key] is set, and not to the empty string. *)
Definition envSet (env : gmap string string) (key : string) : Prop :=
  ∃ value, env !! key = Some value ∧ (0 < String.length value)%nat.

(** [spec'] is [spec] but for the machine configs named in [names]: the
    cluster is the same, the machine configs have the same names, and those
    not named in [names] are the same. *)
Definition keptBut (names : list string) (spec spec' : cluster.Spec) : Prop :=
  cluster.Cluster spec' = cluster.Cluster spec ∧
  dom (cluster.VSphereMachineConfigs spec') = dom (cluster.VSphereMachineConfigs spec) ∧
  ∀ name, name ∉ names →
    cluster.VSphereMachineConfigs spec' !! name = cluster.VSphereMachineConfigs spec !! name.

(** The names of the machine configs that [MachineConfigs] touches: those of
    the control plane and of external etcd in the spec, and those of the
    worker node groups of the cluster config of the provider. *)
Definition touchedMachineConfigNames (p : vsphereProvider) (spec : cluster.Spec)
  : list string :=
  let c := cluster_Spec (cluster.Cluster spec) in
  ref_Name (cp_MachineGroupRef (ControlPlaneConfiguration_ c))
  :: match ExternalEtcdConfiguration_ c with
     | Some etcd => [ref_Name (etcd_MachineGroupRef etcd)]
     | None => []
     end
  ++ ((λ g, ref_Name (wng_MachineGroupRef g))
        <$> WorkerNodeGroupConfigurations (cluster_Spec (clusterConfig p))).

(** The machine config has annotations, and [key] is set to true there. *)
Definition annotatedTrue (key : string) (mc : VSphereMachineConfig) : Prop :=
  ∃ annotations, vmc_Annotations mc = Some annotations ∧ annotations !! key = Some "true".

(** The names of the machine configs of the worker node groups of the
    cluster config of the provider. *)
Definition workerMachineConfigNames (p : vsphereProvider) : list string :=
  (λ g, ref_Name (wng_MachineGroupRef g))
    <$> WorkerNodeGroupConfigurations (cluster_Spec (clusterConfig p)).

End MoreVocabulary.

(** ** Sample data *)

Module Sample.

Definition cpRef : Ref := mkRef "VSphereMachineConfig" "test-cp".
Definition workerRef : Ref := mkRef "VSphereMachineConfig" "test-wn".
Definition etcdRef : Ref := mkRef "VSphereMachineConfig" "test-etcd".
Definition dcRef : Ref := mkRef "VSphereDatacenterConfig" "test".

Definition vmcSpec (disk : Z) (key : string) : VSphereMachineConfigSpec :=
  mkVmcSpec disk "/SDDC-Datacenter/datastore/WorkloadDatastore"
    "/SDDC-Datacenter/vm" 2 8192 "ubuntu" "*/Resources" ""
    "/SDDC-Datacenter/vm/Templates/ubuntu-1804-kube-v1.19.6"
    (Slice [mkUser "capv" (Slice [key])]).

Definition vmc (name : string) (disk : Z) (key : string) : VSphereMachineConfig :=
  mkVmc name "default" None (vmcSpec disk key).

Definition vdcSpec (server : string) : VSphereDatacenterConfigSpec :=
  mkVdcSpec "SDDC-Datacenter" false "/SDDC-Datacenter/network/sddc-cgw-network-1"
    server "ABCDEFG".

Definition vdc (server : string) : VSphereDatacenterConfig :=
  mkVdc "test" "default" (vdcSpec server).

Definition workers : WorkerNodeGroupConfiguration :=
  mkWng "md-0" 3 workerRef [] ∅.

Definition moreWorkers : WorkerNodeGroupConfiguration :=
  mkWng "md-1" 2 workerRef [] ∅.

Definition eksaClusterWith (version host : string)
    (groups : list WorkerNodeGroupConfiguration) : v1alpha1.Cluster :=
  v1alpha1.mkCluster "test" "default"
    (mkClusterSpec version (mkCPConf 3 (mkEndpoint host) cpRef) groups
       (Some (mkEtcdConf 3 etcdRef)) dcRef).

Definition eksaCluster (version host : string) : v1alpha1.Cluster :=
  eksaClusterWith version host [workers].

Definition image (digest : string) : releasev1alpha1.Image :=
  releasev1alpha1.mkImage "public.ecr.aws/eks-anywhere/image" digest.

(** The versions bundle of the sample, by the digest of its Cilium image. *)
Definition bundleWith (ciliumDigest : string) : releasev1alpha1.VersionsBundle :=
  releasev1alpha1.mkVersionsBundle
    (releasev1alpha1.mkVSphereBundle "v0.7.8"
       (image "sha256:d1") (image "sha256:d2") (image "sha256:d3") (image "sha256:d4"))
    (releasev1alpha1.mkCiliumBundle "v1.9.10-eksa.1"
       (releasev1alpha1.mkImage "public.ecr.aws/isovalent/cilium:v1.9.10-eksa.1" ciliumDigest)
       (releasev1alpha1.mkImage "public.ecr.aws/isovalent/operator-generic:v1.9.10-eksa.1"
          "sha256:c2")
       (releasev1alpha1.mkImage "public.ecr.aws/isovalent/cilium:1.9.10-eksa.1" "sha256:c3")).

Definition bundle : releasev1alpha1.VersionsBundle := bundleWith "sha256:c1".

Definition machineConfigs (disk : Z) (key : string) : gmap string VSphereMachineConfig :=
  <["test-cp" := vmc "test-cp" disk key]>
    (<["test-wn" := vmc "test-wn" disk key]>
       (<["test-etcd" := vmc "test-etcd" disk key]> ∅)).

Definition specWith (version host : string) (datacenter : VSphereDatacenterConfig)
    (mcs : gmap string VSphereMachineConfig)
    (groups : list WorkerNodeGroupConfiguration) : cluster.Spec :=
  cluster.mkSpec (eksaClusterWith version host groups) (releasev1alpha1.mkBundlesSpec 1)
    bundle datacenter mcs (types.mkCluster "mgmt" "mgmt.kubeconfig").

Definition spec (version host server : string) : cluster.Spec :=
  specWith version host (vdc server) (machineConfigs 25 "ssh-rsa AAAA") [workers].

End Sample.

(** ** An in-memory cluster

    A client over finite maps, in the manner of the fakes of the unit
    tests: a [Get] of an absent object is an error, and writes fail when
    the cluster is not writable. *)

Module Fake.

Record Cluster := mkCluster {
  clusters : gmap string v1alpha1.Cluster;
  datacenters : gmap string VSphereDatacenterConfig;
  machineConfigs : gmap string VSphereMachineConfig;
  machineDeployments : gmap string MachineDeployment;
  controlPlanes : gmap string KubeadmControlPlane;
  etcdadmClusters : gmap string EtcdadmCluster;
  secrets : gmap string Secret;
  annotations : gmap string (gmap string string);
  applied : list (list byte);
  writable : bool }.

Definition get {A} (m : gmap string A) (name : string) : outcome A :=
  match m !! name with
  | Some a => Ok a
  | None => Err (name +:+ " not found")
  end.

Definition annotate (objectName : string) (new : gmap string string) (k : Cluster)
  : outcome unit * Cluster :=
  if writable k then
    (Ok tt,
     mkCluster (clusters k) (datacenters k) (machineConfigs k) (machineDeployments k)
       (controlPlanes k) (etcdadmClusters k) (secrets k)
       (<[objectName := new ∪ default ∅ (annotations k !! objectName)]> (annotations k))
       (applied k) (writable k))
  else (Err "the server is read-only", k).

Definition apply (data : list byte) (k : Cluster) : outcome unit * Cluster :=
  if writable k then
    (Ok tt,
     mkCluster (clusters k) (datacenters k) (machineConfigs k) (machineDeployments k)
       (controlPlanes k) (etcdadmClusters k) (secrets k) (annotations k)
       (applied k ++ [data]) (writable k))
  else (Err "the server is read-only", k).

Definition client : ProviderKubectlClient Cluster :=
  {| ApplyKubeSpecFromBytes := λ _ data, apply data;
     GetEksaCluster := λ _ name k, get (clusters k) name;
     GetEksaVSphereDatacenterConfig := λ name _ _ k, get (datacenters k) name;
     GetEksaVSphereMachineConfig := λ name _ _ k, get (machineConfigs k) name;
     GetMachineDeployment := λ name _ k, get (machineDeployments k) name;
     GetKubeadmControlPlane := λ _ name _ k, get (controlPlanes k) name;
     GetEtcdadmCluster := λ _ name _ k, get (etcdadmClusters k) name;
     GetSecretFromNamespace := λ _ name _ k, get (secrets k) name;
     UpdateAnnotation := λ _ objectName new _, annotate objectName new |}.

Definition machineConfigRefs (c : v1alpha1.Cluster) : list Ref :=
  remove_dups
    (cp_MachineGroupRef (ControlPlaneConfiguration_ (cluster_Spec c))
     :: (wng_MachineGroupRef <$> WorkerNodeGroupConfigurations (cluster_Spec c))
     ++ match ExternalEtcdConfiguration_ (cluster_Spec c) with
        | Some e => [etcd_MachineGroupRef e]
        | None => []
        end).

Definition render (kind : string) (names : list string) : list byte :=
  list_byte_of_string (kind +:+ fold_right (λ n acc, " " +:+ n +:+ acc) "" names).

(** The n-th generated key is not empty. *)
Definition generateKey (n : nat) : outcome string * nat :=
  (Ok ("ssh-rsa generated-" +:+ pretty n), S n).


(** The collaborators of the fake cluster, by their key generator. *)
Definition collaboratorsWith (generate : nat → outcome string * nat) : Collaborators :=
  {| K := Cluster;
     F := nat;
     Time := nat;
     providerKubectlClient := client;
     GenerateSSHAuthKey := generate;
     now := λ n, n;
     CPMachineTemplateName := λ c t, c +:+ "-control-plane-template-" +:+ pretty t;
     EtcdMachineTemplateName := λ c t, c +:+ "-etcd-template-" +:+ pretty t;
     WorkerMachineTemplateName := λ c g t, c +:+ "-" +:+ g +:+ "-" +:+ pretty t;
     KubeadmConfigTemplateName := λ c g t, c +:+ "-" +:+ g +:+ "-template-" +:+ pretty t;
     GenerateCAPISpecControlPlane := λ _ cp etcd, Ok (render "control-plane" [cp; etcd]);
     GenerateCAPISpecWorkers := λ _ md kct,
       Ok (render "workers" ((map_to_list md).*2 ++ (map_to_list kct).*2));
     MachineConfigRefs := machineConfigRefs;
     WorkerNodeGroupConfigurationSliceTaintsEqual := λ a b,
       bool_decide (wng_Taints <$> a = wng_Taints <$> b);
     WorkerNodeGroupConfigurationsLabelsMapEqual := λ a b,
       bool_decide (wng_Labels <$> a = wng_Labels <$> b);
     TaintsSliceEqual := λ a b, bool_decide (a = b);
     MapEqual := λ a b, bool_decide (a = b);
     UsersSliceEqual := λ a b, bool_decide (a = b);
     defaultStorageClass := list_byte_of_string "kind: StorageClass";
     EksaSystemNamespace := "eksa-system";
     UpgradeInProgressAnnotation := "etcdcluster.cluster.x-k8s.io/upgrading" |}.

Definition collaborators : Collaborators := collaboratorsWith generateKey.

(** A running cluster that was created from [Sample.spec]: Kubernetes
    1.23, the machine configs with 25 GiB disks, the credentials [A]/[pw]. *)
Definition running (server : string) (writable : bool) : Cluster :=
  {| clusters := {[ "test" := Sample.eksaCluster "1.23" "192.168.1.71" ]};
     datacenters := {[ "test" := Sample.vdc server ]};
     machineConfigs := Sample.machineConfigs 25 "ssh-rsa AAAA";
     machineDeployments := {[ "test-md-0" := mkMachineDeployment "test-md-0-template-1" "test-md-0-1" ]};
     controlPlanes := {[ "test" := mkKubeadmControlPlane "test-control-plane-template-1" ]};
     etcdadmClusters := {[ "test" := mkEtcdadmCluster "test-etcd-template-1" ]};
     secrets := {[ "vsphere-credentials" :=
                     mkSecret (<["username" := list_byte_of_string "A"]>
                                 {[ "password" := list_byte_of_string "pw" ]}) ]};
     annotations := ∅;
     applied := [];
     writable := writable |}.

Definition world (k : Cluster) (username password : string)
  : @World collaborators :=
  @mkWorld collaborators k 0%nat
    (<["VSPHERE_USERNAME" := username]> {[ "VSPHERE_PASSWORD" := password ]}) 0%nat [].

Definition workloadCluster : types.Cluster := types.mkCluster "test" "test.kubeconfig".
Definition bootstrapCluster : types.Cluster := types.mkCluster "bootstrap" "bootstrap.kubeconfig".

Definition provider : vsphereProvider :=
  NewProviderCustomNet (Sample.vdc "vc.example")
    (Sample.eksaCluster "1.23" "192.168.1.71") false.

End Fake.

(** The fake cluster as the further collaborators see it, and more sample
    data: specs by the machine configs they refer to. *)
Module FakeMore.

(** The search finds the machine config of that name, if the cluster has
    one. *)
Definition search (name : string) (k : Fake.Cluster) : outcome (list VSphereMachineConfig) :=
  Ok match Fake.machineConfigs k !! name with
     | Some mc => [mc]
     | None => []
     end.

Definition setManagedBy (mc : VSphereMachineConfig) (name : string) : VSphereMachineConfig :=
  mkVmc (vmc_Name mc) (vmc_Namespace mc)
    (Some (<["anywhere.eks.amazonaws.com/managed-by" := name]>
             (default ∅ (vmc_Annotations mc))))
    (vmc_Spec mc).

(** No sample cluster is managed by another one. *)
Definition moreCollaborators : @MoreCollaborators Fake.collaborators :=
  @mkMoreCollaborators Fake.collaborators
    (λ name _ _ k, search name k)
    (λ _, "cluster.anywhere.eks.amazonaws.com/control-plane")
    (λ _, "cluster.anywhere.eks.amazonaws.com/etcd")
    (λ _, false)
    (λ _, "")
    setManagedBy.

Definition clusterWithRefs (cp : Ref) (etcd : option Ref) : v1alpha1.Cluster :=
  v1alpha1.mkCluster "test" "default"
    (mkClusterSpec "1.23" (mkCPConf 3 (mkEndpoint "192.168.1.71") cp) [Sample.workers]
       (mkEtcdConf 3 <$> etcd) Sample.dcRef).

Definition specWithRefs (cp : Ref) (etcd : option Ref)
    (mcs : gmap string VSphereMachineConfig) : cluster.Spec :=
  cluster.mkSpec (clusterWithRefs cp etcd) (releasev1alpha1.mkBundlesSpec 1)
    Sample.bundle (Sample.vdc "vc.example") mcs (types.mkCluster "mgmt" "mgmt.kubeconfig").

(** The running sample cluster, had it been created without external etcd. *)
Definition runningWithoutEtcd : Fake.Cluster :=
  let k := Fake.running "vc.example" true in
  Fake.mkCluster {[ "test" := clusterWithRefs Sample.cpRef None ]}
    (Fake.datacenters k) (Fake.machineConfigs k) (Fake.machineDeployments k)
    (Fake.controlPlanes k) (Fake.etcdadmClusters k) (Fake.secrets k)
    (Fake.annotations k) (Fake.applied k) (Fake.writable k).

(** A machine config of the sample with a storage policy. *)
Definition vmcWithStoragePolicy (name policy : string) : VSphereMachineConfig :=
  mkVmc name "default" None
    (mkVmcSpec 25 "/SDDC-Datacenter/datastore/WorkloadDatastore"
       "/SDDC-Datacenter/vm" 2 8192 "ubuntu" "*/Resources" policy
       "/SDDC-Datacenter/vm/Templates/ubuntu-1804-kube-v1.19.6"
       (Slice [mkUser "capv" (Slice ["ssh-rsa AAAA"])])).

End FakeMore.

(** ** The spec differ *)

Section DifferFacts.

Lemma neq_true {A} `{EqDecision A} (a b : A) : neq a b = true ↔ a ≠ b.
Proof. unfold neq. apply bool_decide_eq_true. Qed.

Lemma neq_false {A} `{EqDecision A} (a b : A) : neq a b = false ↔ a = b.
Proof.
  unfold neq. rewrite bool_decide_eq_false.
  split; [apply dec_stable | intros -> Hne; by apply Hne].
Qed.

Lemma neq_true_2 {A} `{EqDecision A} (a b : A) : a ≠ b → neq a b = true.
Proof. apply neq_true. Qed.

Lemma neq_false_1 {A} `{EqDecision A} (a b : A) : neq a b = false → a = b.
Proof. apply neq_false. Qed.

Lemma neq_refl {A} `{EqDecision A} (a : A) : neq a a = false.
Proof. by apply neq_false. Qed.

(** On two machine configs that exist, [AnyImmutableFieldChanged] answers,
    and its answer is false exactly when the nine fields agree. *)
Lemma AnyImmutableFieldChanged_false_iff oldVdc newVdc oldVmc newVmc :
  AnyImmutableFieldChanged oldVdc newVdc (Some oldVmc) (Some newVmc) = Some false
  ↔ templateAffectingFieldsEqual oldVdc newVdc oldVmc newVmc.
Proof.
  unfold AnyImmutableFieldChanged, templateAffectingFieldsEqual. simpl.
  split.
  - intros Hf.
    repeat match type of Hf with
           | context [neq ?a ?b] =>
               let E := fresh "E" in
               destruct (neq a b) eqn:E; [discriminate Hf | apply (proj1 (neq_false a b)) in E]
           end.
    by repeat split.
  - intros (-> & -> & -> & -> & -> & -> & -> & -> & ->).
    by rewrite !neq_refl.
Qed.

Lemma AnyImmutableFieldChanged_total oldVdc newVdc oldVmc newVmc :
  ∃ b, AnyImmutableFieldChanged oldVdc newVdc (Some oldVmc) (Some newVmc) = Some b.
Proof. unfold AnyImmutableFieldChanged. simpl. eauto. Qed.

Lemma someTemplateAffectingFieldDiffers_iff oldVdc newVdc oldVmc newVmc :
  someTemplateAffectingFieldDiffers oldVdc newVdc oldVmc newVmc
  ↔ ¬ templateAffectingFieldsEqual oldVdc newVdc oldVmc newVmc.
Proof.
  unfold someTemplateAffectingFieldDiffers, templateAffectingFieldsEqual.
  split.
  - intros Hd He. destruct He as (? & ? & ? & ? & ? & ? & ? & ? & ?).
    destruct Hd as [?|[?|[?|[?|[?|[?|[?|[?|?]]]]]]]]; contradiction.
  - intros Hn.
    destruct (decide (NumCPUs (vmc_Spec oldVmc) = NumCPUs (vmc_Spec newVmc))); [|tauto].
    destruct (decide (MemoryMiB (vmc_Spec oldVmc) = MemoryMiB (vmc_Spec newVmc))); [|tauto].
    destruct (decide (DiskGiB (vmc_Spec oldVmc) = DiskGiB (vmc_Spec newVmc))); [|tauto].
    destruct (decide (Datastore (vmc_Spec oldVmc) = Datastore (vmc_Spec newVmc))); [|tauto].
    destruct (decide (Folder (vmc_Spec oldVmc) = Folder (vmc_Spec newVmc))); [|tauto].
    destruct (decide (ResourcePool (vmc_Spec oldVmc) = ResourcePool (vmc_Spec newVmc))); [|tauto].
    destruct (decide (Template (vmc_Spec oldVmc) = Template (vmc_Spec newVmc))); [|tauto].
    destruct (decide (Network (vdc_Spec oldVdc) = Network (vdc_Spec newVdc))); [|tauto].
    destruct (decide (Thumbprint (vdc_Spec oldVdc) = Thumbprint (vdc_Spec newVdc))); [|tauto].
    exfalso. apply Hn. by repeat split.
Qed.

(** C3.  On two machine configs and two datacenter configs,
    [AnyImmutableFieldChanged] returns a boolean, which is true if and only
    if one of the nine fields (machine config: numCPUs, memoryMiB, diskGiB,
    datastore, folder, resourcePool, template; datacenter config: network,
    thumbprint) differs.  In particular a different DiskGiB gives true, and
    when the nine agree the answer is false whatever else differs. *)
Theorem AnyImmutableFieldChanged_nine_fields oldVdc newVdc oldVmc newVmc :
  ∃ b : bool,
    AnyImmutableFieldChanged oldVdc newVdc (Some oldVmc) (Some newVmc) = Some b ∧
    (b = true ↔ someTemplateAffectingFieldDiffers oldVdc newVdc oldVmc newVmc) ∧
    (DiskGiB (vmc_Spec oldVmc) ≠ DiskGiB (vmc_Spec newVmc) → b = true) ∧
    (templateAffectingFieldsEqual oldVdc newVdc oldVmc newVmc → b = false).
Proof.
  destruct (AnyImmutableFieldChanged_total oldVdc newVdc oldVmc newVmc) as [b Hb].
  exists b. split; [exact Hb|].
  assert (Hiff : b = true ↔ someTemplateAffectingFieldDiffers oldVdc newVdc oldVmc newVmc).
  { rewrite someTemplateAffectingFieldDiffers_iff,
      <- AnyImmutableFieldChanged_false_iff, Hb.
    destruct b; split; congruence. }
  split; [exact Hiff|]. split.
  - intros Hd. apply Hiff. unfold someTemplateAffectingFieldDiffers. tauto.
  - intros He. apply AnyImmutableFieldChanged_false_iff in He. congruence.
Qed.

Lemma AnyImmutableFieldChanged_nine_fields_witness :
  AnyImmutableFieldChanged (Sample.vdc "vc.example") (Sample.vdc "vc.example")
    (Some (Sample.vmc "test-wn" 25 "k")) (Some (Sample.vmc "test-wn" 50 "k")) = Some true.
Proof.
  destruct (AnyImmutableFieldChanged_nine_fields
              (Sample.vdc "vc.example") (Sample.vdc "vc.example")
              (Sample.vmc "test-wn" 25 "k") (Sample.vmc "test-wn" 50 "k"))
    as (b & Hb & _ & Hdisk & _).
  rewrite Hb. f_equal. apply Hdisk. simpl. discriminate.
Defined.

(** C1, as stated, fails: two specs that agree on the Kubernetes version,
    the bundle number and the nine fields, and differ in the control plane
    endpoint host, need a new control plane template. *)
Lemma NeedsNewControlPlaneTemplate_endpoint_counterexample :
  let oldSpec := Sample.spec "1.23" "192.168.1.71" "vc.example" in
  let newSpec := Sample.spec "1.23" "192.168.1.72" "vc.example" in
  let vdc := Sample.vdc "vc.example" in
  let vmc := Sample.vmc "test-cp" 25 "k" in
  cluster.kubernetesVersion oldSpec = cluster.kubernetesVersion newSpec ∧
  cluster.bundleNumber oldSpec = cluster.bundleNumber newSpec ∧
  templateAffectingFieldsEqual vdc vdc vmc vmc ∧
  NeedsNewControlPlaneTemplate oldSpec newSpec vdc vdc (Some vmc) (Some vmc) = Some true.
Proof. simpl. unfold templateAffectingFieldsEqual. by repeat split. Qed.

(** C1, amended.  With the same Kubernetes version, the same control plane
    endpoint host, the same bundle number and the nine fields equal,
    [NeedsNewControlPlaneTemplate] returns false. *)
Theorem NeedsNewControlPlaneTemplate_false oldSpec newSpec oldVdc newVdc oldVmc newVmc :
  cluster.kubernetesVersion oldSpec = cluster.kubernetesVersion newSpec →
  cluster.endpointHost oldSpec = cluster.endpointHost newSpec →
  cluster.bundleNumber oldSpec = cluster.bundleNumber newSpec →
  templateAffectingFieldsEqual oldVdc newVdc oldVmc newVmc →
  NeedsNewControlPlaneTemplate oldSpec newSpec oldVdc newVdc (Some oldVmc) (Some newVmc)
    = Some false.
Proof.
  intros Hv Hh Hn He. unfold NeedsNewControlPlaneTemplate.
  rewrite Hv, Hh, Hn, !neq_refl.
  by apply AnyImmutableFieldChanged_false_iff.
Qed.

Lemma NeedsNewControlPlaneTemplate_false_witness :
  NeedsNewControlPlaneTemplate
    (Sample.spec "1.23" "192.168.1.71" "vc.example")
    (Sample.spec "1.23" "192.168.1.71" "vc.example")
    (Sample.vdc "vc.example") (Sample.vdc "vc.example")
    (Some (Sample.vmc "test-cp" 25 "old-key")) (Some (Sample.vmc "test-cp" 25 "new-key"))
  = Some false.
Proof.
  apply NeedsNewControlPlaneTemplate_false; try reflexivity.
  unfold templateAffectingFieldsEqual. simpl. by repeat split.
Defined.

(** C5.  From Kubernetes 1.23 to 1.24 the three deciders return true; the
    version is compared first, so this holds whatever the other arguments
    are, in particular when all else is equal. *)
Theorem kubernetes_version_change_needs_new_templates
    (taintsEq labelsEq :
       list WorkerNodeGroupConfiguration -> list WorkerNodeGroupConfiguration -> bool)
    oldSpec newSpec oldVdc newVdc oldVmc newVmc :
  cluster.kubernetesVersion oldSpec = "1.23" →
  cluster.kubernetesVersion newSpec = "1.24" →
  NeedsNewControlPlaneTemplate oldSpec newSpec oldVdc newVdc oldVmc newVmc = Some true ∧
  NeedsNewWorkloadTemplate taintsEq labelsEq oldSpec newSpec oldVdc newVdc oldVmc newVmc
    = Some true ∧
  NeedsNewEtcdTemplate oldSpec newSpec oldVdc newVdc oldVmc newVmc = Some true.
Proof.
  intros Ho Hn.
  unfold NeedsNewControlPlaneTemplate, NeedsNewWorkloadTemplate, NeedsNewEtcdTemplate.
  rewrite Ho, Hn. by repeat split.
Qed.

Lemma kubernetes_version_change_needs_new_templates_witness :
  let oldSpec := Sample.spec "1.23" "192.168.1.71" "vc.example" in
  let newSpec := Sample.spec "1.24" "192.168.1.71" "vc.example" in
  let vdc := Sample.vdc "vc.example" in
  let vmc := Some (Sample.vmc "test-cp" 25 "k") in
  NeedsNewControlPlaneTemplate oldSpec newSpec vdc vdc vmc vmc = Some true ∧
  NeedsNewWorkloadTemplate (λ _ _, true) (λ _ _, true) oldSpec newSpec vdc vdc vmc vmc
    = Some true ∧
  NeedsNewEtcdTemplate oldSpec newSpec vdc vdc vmc vmc = Some true.
Proof.
  intros oldSpec newSpec vdc vmc.
  apply kubernetes_version_change_needs_new_templates; reflexivity.
Defined.

End DifferFacts.

(** ** Strings *)

Lemma append_assoc (s1 s2 s3 : string) : (s1 +:+ s2) +:+ s3 = s1 +:+ s2 +:+ s3.
Proof.
  induction s1 as [|a s1 IH]; [reflexivity|].
  change (String a ((s1 +:+ s2) +:+ s3) = String a (s1 +:+ s2 +:+ s3)).
  by rewrite IH.
Qed.

Lemma append_empty_r (s : string) : s +:+ "" = s.
Proof.
  induction s as [|a s IH]; [reflexivity|].
  change (String a (s +:+ "") = String a s). by rewrite IH.
Qed.

Lemma prefix_append (sub post : string) : String.prefix sub (sub +:+ post) = true.
Proof.
  induction sub as [|a sub IH]; simpl; [by destruct post|].
  destruct (ascii_dec a a); [exact IH | congruence].
Qed.

Lemma containsb_unfold (s sub : string) :
  containsb s sub =
  String.prefix sub s
  || match s with
     | EmptyString => false
     | String _ s' => containsb s' sub
     end.
Proof. by destruct s. Qed.

Lemma contains_containsb (s sub : string) : contains s sub → containsb s sub = true.
Proof.
  intros (pre & post & ->).
  induction pre as [|a pre IH].
  - change ("" +:+ sub +:+ post) with (sub +:+ post).
    by rewrite containsb_unfold, prefix_append.
  - change (String a pre +:+ sub +:+ post) with (String a (pre +:+ sub +:+ post)).
    rewrite containsb_unfold, IH. apply orb_true_r.
Qed.

Lemma contains_app_l (s sub post : string) : contains s sub → contains (s +:+ post) sub.
Proof.
  intros (pre & post' & ->). exists pre, (post' +:+ post).
  by rewrite !append_assoc.
Qed.

Lemma contains_app_r (pre s sub : string) : contains s sub → contains (pre +:+ s) sub.
Proof.
  intros (pre' & post & ->). exists (pre +:+ pre'), post.
  by rewrite !append_assoc.
Qed.

Lemma contains_refl (s : string) : contains s s.
Proof.
  exists "", "". change ("" +:+ s +:+ "") with (s +:+ ""). by rewrite append_empty_r.
Qed.

Create HintDb contains.
#[local] Hint Resolve contains_app_l contains_app_r contains_refl : contains.

(** ** The provider *)

Section ProviderFacts.

Context `{C : Collaborators}.

Ltac unfold_go :=
  unfold bind, ret, fail, panic, kubectlGet, deref, wrapErr, Getenv in *.

(** *** Worker node groups that were not there before *)

Lemma BuildMapForWorkerNodeGroupsByName_lookup_None groups name :
  cluster.BuildMapForWorkerNodeGroupsByName groups !! name = None
  ↔ name ∉ wng_Name <$> groups.
Proof.
  unfold cluster.BuildMapForWorkerNodeGroupsByName.
  assert (Hgen : ∀ (m : gmap string WorkerNodeGroupConfiguration),
    fold_left (λ m g, <[wng_Name g := g]> m) groups m !! name = None
    ↔ m !! name = None ∧ name ∉ wng_Name <$> groups).
  { induction groups as [|g groups IH]; intros m; simpl.
    - split; [intros ?; split; [done|apply not_elem_of_nil] | by intros [? _]].
    - rewrite IH, not_elem_of_cons, lookup_insert_None. intuition congruence. }
  rewrite Hgen, lookup_empty. tauto.
Qed.

(** C4.  For a worker node group whose name is not in the index built from
    the worker node groups of the previous spec, [needsNewMachineTemplate]
    and [needsNewKubeadmConfigTemplate] both return true, with no error,
    whatever the specs and machine configs are. *)
Theorem new_worker_node_group_needs_new_templates
    (currentSpec newClusterSpec : cluster.Spec)
    (workerNodeGroupConfiguration : WorkerNodeGroupConfiguration)
    (vdc : VSphereDatacenterConfig)
    (oldVmc newVmc : option VSphereMachineConfig) (w : World) :
  let previousWorkerNodeGroupConfigs :=
    cluster.BuildMapForWorkerNodeGroupsByName (cluster.workerNodeGroups currentSpec) in
  workerNodeGroupConfiguration ∈ cluster.workerNodeGroups newClusterSpec →
  previousWorkerNodeGroupConfigs !! wng_Name workerNodeGroupConfiguration = None →
  needsNewMachineTemplate currentSpec newClusterSpec workerNodeGroupConfiguration vdc
    previousWorkerNodeGroupConfigs oldVmc newVmc w = (Ok true, w) ∧
  needsNewKubeadmConfigTemplate workerNodeGroupConfiguration
    previousWorkerNodeGroupConfigs oldVmc newVmc w = (Ok true, w).
Proof.
  intros prev _ Habsent.
  unfold needsNewMachineTemplate, needsNewKubeadmConfigTemplate.
  by rewrite Habsent.
Qed.

(** *** The default storage class *)

(** C9.  A provider built from a datacenter config with [DisableCSI] set
    installs nothing: the result is nil and the world, its log included, is
    the one before.  Built with [DisableCSI] unset, it makes one call of
    [ApplyKubeSpecFromBytes], with the embedded manifest, and returns what
    that call returns. *)
Theorem InstallStorageClass_follows_DisableCSI
    (datacenterConfig : VSphereDatacenterConfig) (clusterConfig : v1alpha1.Cluster)
    (skipIpCheck : bool) (cluster : types.Cluster) (w : World) :
  let p := NewProviderCustomNet datacenterConfig clusterConfig skipIpCheck in
  (DisableCSI (vdc_Spec datacenterConfig) = true →
   InstallStorageClass p cluster w = (Ok tt, w)) ∧
  (DisableCSI (vdc_Spec datacenterConfig) = false →
   InstallStorageClass p cluster w =
     (let '(r, k') := ApplyKubeSpecFromBytes providerKubectlClient cluster
                        defaultStorageClass (kube w) in
      (r, mkWorld k' (writer w) (environ w) (ticks w)
            (log w ++ [EvApplyKubeSpecFromBytes cluster defaultStorageClass r])))).
Proof.
  intros p. unfold InstallStorageClass, p, NewProviderCustomNet. simpl.
  split; intros ->; reflexivity.
Qed.

(** *** Is an upgrade needed *)

Lemma machineConfigsSpecChanged_loop_spec refs cluster newSpec w
    (existing : Ref → VSphereMachineConfig) :
  (∀ ref, ref ∈ refs →
     GetEksaVSphereMachineConfig providerKubectlClient (ref_Name ref)
       (types.KubeconfigFile cluster) (cluster_Namespace (cluster.Cluster newSpec))
       (kube w) = Ok (existing ref)) →
  ∃ b, machineConfigsSpecChanged_loop refs cluster newSpec w = (Ok b, w) ∧
       (b = true ↔ ∃ ref, ref ∈ refs ∧ machineConfigSpecDiffers newSpec ref (existing ref)).
Proof.
  induction refs as [|ref refs IH]; intros Hread; simpl.
  - exists false. split; [done|]. split; [done|].
    intros (ref & Hin & _). by apply elem_of_nil in Hin.
  - unfold_go. rewrite (Hread ref) by (apply elem_of_cons; by left).
    destruct IH as (b & Hb & Hiff).
    { intros ref' Hin. apply Hread. apply elem_of_cons. by right. }
    unfold machineConfigSpecDiffers in *.
    destruct (cluster.VSphereMachineConfigs newSpec !! ref_Name ref) as [csmc|] eqn:Hlook.
    + destruct (decide (vmc_Spec (existing ref) = vmc_Spec csmc)) as [Heq|Hne].
      * rewrite bool_decide_eq_true_2 by done. simpl.
        exists b. split; [exact Hb|]. rewrite Hiff. split.
        -- intros (r & Hin & Hd). exists r. split; [apply elem_of_cons; by right|done].
        -- intros (r & Hin & Hd). apply elem_of_cons in Hin as [->|Hin].
           ++ rewrite Hlook in Hd. simpl in Hd. congruence.
           ++ by exists r.
      * rewrite bool_decide_eq_false_2 by done. simpl.
        exists true. split; [done|]. split; [|done]. intros _.
        exists ref. split; [apply elem_of_cons; by left|].
        rewrite Hlook. simpl. congruence.
    + exists true. split; [done|]. split; [|done]. intros _.
      exists ref. split; [apply elem_of_cons; by left|]. by rewrite Hlook.
Qed.

(** C8.  [UpgradeNeeded] returns true when the digest of one of the four
    images of the vSphere bundle (driver, syncer, manager, kube-vip)
    changed; when they did not and the datacenter config read from the
    cluster has another spec than the new one; and, the reads from the
    cluster succeeding, it returns true exactly when one of these four
    digests changed, or the datacenter config spec differs, or the spec of a
    machine config applied in the cluster differs from the one of the new
    spec, and false otherwise. *)
Theorem UpgradeNeeded_true_iff (p : vsphereProvider)
    (newSpec currentSpec : cluster.Spec) (cluster : types.Cluster) (w : World) :
  let cc := cluster.Cluster currentSpec in
  let readVdc :=
    GetEksaVSphereDatacenterConfig providerKubectlClient
      (ref_Name (DatacenterRef (cluster_Spec cc))) (types.KubeconfigFile cluster)
      (cluster_Namespace (cluster.Cluster newSpec)) (kube w) in
  (digestChanged newSpec currentSpec →
   UpgradeNeeded p newSpec currentSpec cluster w = (Ok true, w)) ∧
  (∀ existingVdc,
     ¬ digestChanged newSpec currentSpec →
     readVdc = Ok existingVdc →
     vdc_Spec existingVdc ≠ vdc_Spec (cluster.VSphereDatacenter newSpec) →
     UpgradeNeeded p newSpec currentSpec cluster w = (Ok true, w)) ∧
  (∀ existingVdc (existing : Ref → VSphereMachineConfig),
     readVdc = Ok existingVdc →
     (∀ ref, ref ∈ MachineConfigRefs cc →
        GetEksaVSphereMachineConfig providerKubectlClient (ref_Name ref)
          (types.KubeconfigFile cluster) (cluster_Namespace (cluster.Cluster newSpec))
          (kube w) = Ok (existing ref)) →
     ∃ b, UpgradeNeeded p newSpec currentSpec cluster w = (Ok b, w) ∧
       (b = true ↔
          digestChanged newSpec currentSpec ∨
          vdc_Spec existingVdc ≠ vdc_Spec (cluster.VSphereDatacenter newSpec) ∨
          ∃ ref, ref ∈ MachineConfigRefs cc ∧
                 machineConfigSpecDiffers newSpec ref (existing ref))).
Proof.
  intros cc readVdc.
  assert (Hdig : ∀ b,
    (neq (releasev1alpha1.ImageDigest (releasev1alpha1.Driver
            (releasev1alpha1.VSphere (cluster.VersionsBundle newSpec))))
         (releasev1alpha1.ImageDigest (releasev1alpha1.Driver
            (releasev1alpha1.VSphere (cluster.VersionsBundle currentSpec))))
     || neq (releasev1alpha1.ImageDigest (releasev1alpha1.Syncer
            (releasev1alpha1.VSphere (cluster.VersionsBundle newSpec))))
         (releasev1alpha1.ImageDigest (releasev1alpha1.Syncer
            (releasev1alpha1.VSphere (cluster.VersionsBundle currentSpec))))
     || neq (releasev1alpha1.ImageDigest (releasev1alpha1.Manager
            (releasev1alpha1.VSphere (cluster.VersionsBundle newSpec))))
         (releasev1alpha1.ImageDigest (releasev1alpha1.Manager
            (releasev1alpha1.VSphere (cluster.VersionsBundle currentSpec))))
     || neq (releasev1alpha1.ImageDigest (releasev1alpha1.KubeVip
            (releasev1alpha1.VSphere (cluster.VersionsBundle newSpec))))
         (releasev1alpha1.ImageDigest (releasev1alpha1.KubeVip
            (releasev1alpha1.VSphere (cluster.VersionsBundle currentSpec))))) = b →
    (b = true ↔ digestChanged newSpec currentSpec)).
  { intros b <-. unfold digestChanged. simpl.
    rewrite !orb_true_iff, !neq_true. tauto. }
  unfold UpgradeNeeded. fold cc. simpl.
  match goal with |- context [if ?c then _ else _] => destruct c eqn:Ed end;
    specialize (Hdig _ eq_refl).
  - split; [done|]. split.
    + intros ? Hn. exfalso. apply Hn. by apply Hdig.
    + intros. exists true. split; [done|]. split; [|done]. intros _. left. by apply Hdig.
  - assert (Hnd : ¬ digestChanged newSpec currentSpec).
    { intros Hd. apply Hdig in Hd. discriminate. }
    split; [done|]. unfold_go. fold readVdc. split.
    + intros existingVdc _ -> Hne. by rewrite bool_decide_eq_false_2.
    + intros existingVdc existing -> Hread.
      destruct (decide (vdc_Spec existingVdc = vdc_Spec (cluster.VSphereDatacenter newSpec)))
        as [Heq|Hne].
      * rewrite bool_decide_eq_true_2 by done. simpl.
        destruct (machineConfigsSpecChanged_loop_spec _ cluster newSpec w existing Hread)
          as (b & Hb & Hiff).
        exists b. split; [exact Hb|]. rewrite Hiff. tauto.
      * rewrite bool_decide_eq_false_2 by done. simpl.
        exists true. split; [done|]. tauto.
Qed.

(** *** Validation of a new spec *)

Lemma validateMachineConfigs_loop_pass refs cluster clusterSpec prevRefs w :
  (∀ ref, ref ∈ refs →
     ∃ mc, cluster.VSphereMachineConfigs clusterSpec !! ref_Name ref = Some mc ∧
       (is_Some (prevRefs !! vmc_Name mc) →
        ∃ prev,
          GetEksaVSphereMachineConfig providerKubectlClient (vmc_Name mc)
            (types.KubeconfigFile cluster)
            (cluster_Namespace (cluster.Cluster clusterSpec)) (kube w) = Ok prev ∧
          StoragePolicyName (vmc_Spec mc) = StoragePolicyName (vmc_Spec prev) ∧
          OSFamily (vmc_Spec mc) = OSFamily (vmc_Spec prev))) →
  validateMachineConfigs_loop refs cluster clusterSpec prevRefs w = (Ok tt, w).
Proof.
  induction refs as [|ref refs IH]; intros Hpass; [reflexivity|].
  destruct (Hpass ref) as (mc & Hmc & Hprev); [apply elem_of_cons; by left|].
  simpl. rewrite Hmc. unfold bind at 1.
  assert (Hstep :
    match prevRefs !! vmc_Name mc with
    | Some _ => validateMachineConfigImmutability cluster mc clusterSpec
    | None => ret tt
    end w = (Ok tt, w)).
  { destruct (prevRefs !! vmc_Name mc) as [r|] eqn:Hr; [|reflexivity].
    destruct Hprev as (prev & Hget & Hsp & Hos); [by eexists|].
    unfold validateMachineConfigImmutability. unfold_go.
    by rewrite Hget, Hsp, Hos, !neq_refl. }
  rewrite Hstep. apply IH. intros ref' Hin. apply Hpass, elem_of_cons. by right.
Qed.

(** Once the reads and the machine config checks are through,
    [ValidateNewSpec] is its comparison of the datacenter configs followed
    by the comparison of the credentials. *)
Lemma ValidateNewSpec_after_machine_configs p cluster clusterSpec w prevSpec prevDatacenter :
  GetEksaCluster providerKubectlClient cluster
    (cluster_Name (cluster.Cluster clusterSpec)) (kube w) = Ok prevSpec →
  GetEksaVSphereDatacenterConfig providerKubectlClient
    (ref_Name (DatacenterRef (cluster_Spec prevSpec))) (types.KubeconfigFile cluster)
    (cluster_Namespace prevSpec) (kube w) = Ok prevDatacenter →
  machineConfigChecksPass cluster clusterSpec prevSpec (kube w) →
  let oSpec := vdc_Spec prevDatacenter in
  let nSpec := vdc_Spec (cluster.VSphereDatacenter clusterSpec) in
  ValidateNewSpec p cluster clusterSpec w =
  (if neq (Server nSpec) (Server oSpec) then
     fail ("spec.server is immutable. Previous value " +:+ Server oSpec
           +:+ ", new value " +:+ Server nSpec)
   else if neq (Datacenter nSpec) (Datacenter oSpec) then
     fail ("spec.datacenter is immutable. Previous value " +:+ Datacenter oSpec
           +:+ ", new value " +:+ Datacenter nSpec)
   else if neq (Network nSpec) (Network oSpec) then
     fail ("spec.network is immutable. Previous value " +:+ Network oSpec
           +:+ ", new value " +:+ Network nSpec)
   else
     secretChanged <- secretContentsChanged cluster ;;
     if (secretChanged : bool) then
       fail ("the VSphere credentials derived from " +:+ vSpherePasswordKey +:+ " and "
             +:+ vSphereUsernameKey
             +:+ " are immutable; please use the same credentials for the upgraded cluster")
     else ret tt) w.
Proof.
  intros Hc Hd Hpass oSpec nSpec.
  unfold ValidateNewSpec. unfold bind at 1, kubectlGet at 1. rewrite Hc.
  unfold bind at 1, kubectlGet at 1. rewrite Hd.
  unfold bind at 1.
  by rewrite (validateMachineConfigs_loop_pass _ _ _ _ _ Hpass).
Qed.

(** C6, amended.  The reads and the machine config checks being through,
    [ValidateNewSpec] fails with an error that contains the previous and the
    new value of the first datacenter field that differs, in the order
    server, datacenter name, network. *)
Theorem ValidateNewSpec_datacenter_fields_immutable
    p cluster clusterSpec w prevSpec prevDatacenter :
  GetEksaCluster providerKubectlClient cluster
    (cluster_Name (cluster.Cluster clusterSpec)) (kube w) = Ok prevSpec →
  GetEksaVSphereDatacenterConfig providerKubectlClient
    (ref_Name (DatacenterRef (cluster_Spec prevSpec))) (types.KubeconfigFile cluster)
    (cluster_Namespace prevSpec) (kube w) = Ok prevDatacenter →
  machineConfigChecksPass cluster clusterSpec prevSpec (kube w) →
  let oSpec := vdc_Spec prevDatacenter in
  let nSpec := vdc_Spec (cluster.VSphereDatacenter clusterSpec) in
  (Server nSpec ≠ Server oSpec →
   ∃ msg, ValidateNewSpec p cluster clusterSpec w = (Err msg, w) ∧
          contains msg (Server oSpec) ∧ contains msg (Server nSpec)) ∧
  (Server nSpec = Server oSpec → Datacenter nSpec ≠ Datacenter oSpec →
   ∃ msg, ValidateNewSpec p cluster clusterSpec w = (Err msg, w) ∧
          contains msg (Datacenter oSpec) ∧ contains msg (Datacenter nSpec)) ∧
  (Server nSpec = Server oSpec → Datacenter nSpec = Datacenter oSpec →
   Network nSpec ≠ Network oSpec →
   ∃ msg, ValidateNewSpec p cluster clusterSpec w = (Err msg, w) ∧
          contains msg (Network oSpec) ∧ contains msg (Network nSpec)).
Proof.
  intros Hc Hd Hpass oSpec nSpec.
  rewrite (ValidateNewSpec_after_machine_configs p _ _ _ _ _ Hc Hd Hpass).
  fold oSpec nSpec. repeat split.
  - intros Hs. apply neq_true_2 in Hs. rewrite Hs.
    eexists. split; [reflexivity|]. split; eauto 8 with contains.
  - intros Hs Hdc. rewrite Hs, neq_refl. apply neq_true_2 in Hdc. rewrite Hdc.
    eexists. split; [reflexivity|]. split; eauto 8 with contains.
  - intros Hs Hdc Hn. rewrite Hs, Hdc, !neq_refl. apply neq_true_2 in Hn. rewrite Hn.
    eexists. split; [reflexivity|]. split; eauto 8 with contains.
Qed.

(** C7.  The reads and the machine config checks being through and server,
    datacenter name and network unchanged, a password or a user name in the
    credentials secret of the cluster that is not the one of the environment
    makes [ValidateNewSpec] fail with an error that names [VSPHERE_PASSWORD]
    and [VSPHERE_USERNAME]. *)
Theorem ValidateNewSpec_credentials_immutable
    p cluster clusterSpec w prevSpec prevDatacenter oSecret :
  GetEksaCluster providerKubectlClient cluster
    (cluster_Name (cluster.Cluster clusterSpec)) (kube w) = Ok prevSpec →
  GetEksaVSphereDatacenterConfig providerKubectlClient
    (ref_Name (DatacenterRef (cluster_Spec prevSpec))) (types.KubeconfigFile cluster)
    (cluster_Namespace prevSpec) (kube w) = Ok prevDatacenter →
  machineConfigChecksPass cluster clusterSpec prevSpec (kube w) →
  Server (vdc_Spec (cluster.VSphereDatacenter clusterSpec)) = Server (vdc_Spec prevDatacenter) →
  Datacenter (vdc_Spec (cluster.VSphereDatacenter clusterSpec))
    = Datacenter (vdc_Spec prevDatacenter) →
  Network (vdc_Spec (cluster.VSphereDatacenter clusterSpec))
    = Network (vdc_Spec prevDatacenter) →
  GetSecretFromNamespace providerKubectlClient (types.KubeconfigFile cluster)
    CredentialsObjectName EksaSystemNamespace (kube w) = Ok oSecret →
  string_of_list_byte (default [] (Data oSecret !! "password"))
    ≠ default "" (environ w !! vSpherePasswordKey)
  ∨ string_of_list_byte (default [] (Data oSecret !! "username"))
    ≠ default "" (environ w !! vSphereUsernameKey) →
  ∃ msg, ValidateNewSpec p cluster clusterSpec w = (Err msg, w) ∧
         contains msg "VSPHERE_PASSWORD" ∧ contains msg "VSPHERE_USERNAME".
Proof.
  intros Hc Hd Hpass Hs Hdc Hn Hsecret Hdrift.
  rewrite (ValidateNewSpec_after_machine_configs p _ _ _ _ _ Hc Hd Hpass).
  rewrite Hs, Hdc, Hn, !neq_refl.
  assert (Hchanged : secretContentsChanged cluster w = (Ok true, w)).
  { unfold secretContentsChanged. unfold_go. rewrite Hsecret.
    destruct (neq (string_of_list_byte (default [] (Data oSecret !! "password")))
                  (default "" (environ w !! vSpherePasswordKey))) eqn:Ep; [done|].
    apply neq_false_1 in Ep.
    destruct Hdrift as [Hp|Hu]; [done|].
    apply neq_true_2 in Hu. by rewrite Hu. }
  unfold bind. rewrite Hchanged.
  eexists. split; [reflexivity|].
  unfold vSpherePasswordKey, vSphereUsernameKey. split; eauto 8 with contains.
Qed.

(** *** SSH key generation *)

Lemma firstKey_setFirstKey key mc :
  is_Some (firstKey mc) → firstKey (setFirstKey key mc) = Some key.
Proof.
  unfold firstKey, setFirstKey. intros [k Hk].
  destruct (Users (vmc_Spec mc)) as [|[|user users]]; try discriminate.
  simpl in *. by destruct (SshAuthorizedKeys user) as [|[|k0 keys]].
Qed.



Lemma withGeneratedKey_firstKey key mc :
  is_Some (firstKey mc) → is_Some (firstKey (withGeneratedKey key mc)).
Proof.
  intros Hk. unfold withGeneratedKey. case_bool_decide; [|done].
  rewrite firstKey_setFirstKey; eauto.
Qed.








(** *** Spec generation for an upgrade: the etcd sequencing *)

Lemma quietly_refl w : quietly w w.
Proof. split; [done|]. exists []. by rewrite app_nil_r. Qed.

Lemma quietly_trans w1 w2 w3 : quietly w1 w2 → quietly w2 w3 → quietly w1 w3.
Proof.
  intros [Hk1 (e1 & Hl1 & Hq1)] [Hk2 (e2 & Hl2 & Hq2)]. split; [congruence|].
  exists (e1 ++ e2). split; [by rewrite Hl2, Hl1, app_assoc|by apply Forall_app].
Qed.

Lemma bind_inv {A B} (m : M A) (k : A → M B) w r w' :
  bind m k w = (r, w') →
  (∃ a w1, m w = (Ok a, w1) ∧ k a w1 = (r, w')) ∨
  ((∀ b, r ≠ Ok b) ∧ ∃ r0, m w = (r0, w') ∧ ∀ a, r0 ≠ Ok a).
Proof.
  unfold bind. destruct (m w) as [[a|e|] w1]; intros H.
  - left. eauto.
  - right. injection H as <- <-. split; [done|]. by eexists.
  - right. injection H as <- <-. split; [done|]. by eexists.
Qed.

Lemma quiet_pure {A} (f : World → outcome A) : quiet (λ w, (f w, w)).
Proof. intros w r w' [= <- <-]. apply quietly_refl. Qed.

Lemma quiet_ret {A} (a : A) : quiet (ret a).
Proof. apply (quiet_pure (λ _, Ok a)). Qed.

Lemma quiet_kubectlGet {A} (f : K → outcome A) : quiet (kubectlGet f).
Proof. apply (quiet_pure (λ w, f (kube w))). Qed.

Lemma quiet_deref {A} (p : option A) : quiet (deref p).
Proof. destruct p; [apply quiet_ret | apply (quiet_pure (λ _, Panic))]. Qed.

Lemma quiet_bind {A B} (m : M A) (k : A → M B) :
  quiet m → (∀ a, quiet (k a)) → quiet (bind m k).
Proof.
  intros Hm Hk w r w' [(a & w1 & Ha & Hr)|(_ & r0 & Hr0 & _)]%bind_inv.
  - eapply quietly_trans; [by eapply Hm | by eapply Hk].
  - by eapply Hm.
Qed.

Lemma quiet_mint kind name : kind ≠ EtcdMachineTemplate → quiet (mint kind name).
Proof.
  intros Hkind w r w' [= <- <-]. split; [done|]. eexists. split; [done|].
  apply Forall_singleton. by destruct kind.
Qed.

Create HintDb quiet.
#[local] Hint Resolve quiet_ret quiet_kubectlGet quiet_deref quiet_bind : quiet.

Lemma quiet_workerTemplateNames_loop groups bootstrapCluster workloadCluster
    currentSpec newClusterSpec vdc prev names :
  quiet (workerTemplateNames_loop groups bootstrapCluster workloadCluster
           currentSpec newClusterSpec vdc prev names).
Proof.
  revert names. induction groups as [|g groups IH]; intros names; simpl.
  - apply quiet_ret.
  - apply quiet_bind.
    { unfold getWorkerNodeMachineConfigs. destruct (prev !! wng_Name g); auto with quiet. }
    intros vmcs. apply quiet_bind.
    { unfold needsNewMachineTemplate. destruct (prev !! wng_Name g); auto with quiet. }
    intros needsWorkload. apply quiet_bind.
    { unfold needsNewKubeadmConfigTemplate. destruct (prev !! wng_Name g); auto with quiet. }
    intros needsKubeadm. apply quiet_bind.
    { destruct (negb needsKubeadm); [auto with quiet | by apply quiet_mint]. }
    intros kubeadmName. apply quiet_bind.
    { destruct (negb needsWorkload); [auto with quiet | by apply quiet_mint]. }
    intros workloadName. apply IH.
Qed.

Lemma kubectlGet_inv {A} (f : K → outcome A) w r w' :
  kubectlGet f w = (r, w') → w' = w ∧ f (kube w) = r.
Proof. by intros [= <- <-]. Qed.

Lemma deref_inv {A} (p : option A) w r w' :
  deref p w = (r, w') → w' = w ∧ (∀ a, r = Ok a → p = Some a).
Proof. destruct p; intros [= <- <-]; split; congruence. Qed.

(** What the etcd block leaves in the log. *)
Lemma etcdTemplateName_block_steps bootstrapCluster workloadCluster
    currentSpec newClusterSpec c vdc w rb w2 :
  let clusterName := cluster_Name (cluster.Cluster newClusterSpec) in
  etcdTemplateName_block bootstrapCluster workloadCluster currentSpec newClusterSpec c vdc w
    = (rb, w2) →
  ∃ blk, log w2 = log w ++ blk ∧
    ((blk = [] ∧
      ∀ name, rb = Ok name →
        ¬ needsNewEtcdTemplateAt workloadCluster currentSpec newClusterSpec c vdc (kube w))
     ∨ (∃ a, a ≠ Ok tt ∧ blk = [etcdUpgradeAnnotation clusterName bootstrapCluster a] ∧
             ∀ name, rb ≠ Ok name)
     ∨ (∃ name, blk = [etcdUpgradeAnnotation clusterName bootstrapCluster (Ok tt);
                       EvMintTemplateName EtcdMachineTemplate name] ∧
                rb = Ok name)).
Proof.
  intros clusterName. unfold etcdTemplateName_block. fold clusterName.
  unfold needsNewEtcdTemplateAt.
  destruct (ExternalEtcdConfiguration_ (cluster_Spec (cluster.Cluster newClusterSpec)))
    as [newEtcd|] eqn:Hnew.
  2:{ intros [= <- <-]. exists []. rewrite app_nil_r. split; [done|]. left.
      split; [done|]. intros _ _ (? & ? & ? & ? & _). discriminate. }
  intros [(prevEtcd & w1 & Hprev & H)|(Hno & r0 & Hr0 & _)]%bind_inv.
  2:{ apply deref_inv in Hr0 as [-> _]. exists []. rewrite app_nil_r.
      split; [done|]. left. split; [done|]. intros name ->. by destruct (Hno name). }
  apply deref_inv in Hprev as [-> Hprev]. specialize (Hprev _ eq_refl).
  apply bind_inv in H as [(etcdVmc & w1 & Hvmc & H)|(Hno & r0 & Hr0 & _)].
  2:{ apply kubectlGet_inv in Hr0 as [-> _]. exists []. rewrite app_nil_r.
      split; [done|]. left. split; [done|]. intros name ->. by destruct (Hno name). }
  apply kubectlGet_inv in Hvmc as [-> Hvmc].
  apply bind_inv in H as [(needsNew & w1 & Hneeds & H)|(Hno & r0 & Hr0 & _)].
  2:{ apply deref_inv in Hr0 as [-> _]. exists []. rewrite app_nil_r.
      split; [done|]. left. split; [done|]. intros name ->. by destruct (Hno name). }
  apply deref_inv in Hneeds as [-> Hneeds]. specialize (Hneeds _ eq_refl).
  destruct needsNew; simpl in H.
  - (* a new template: annotate, then mint *)
    apply bind_inv in H as [(u & w1 & Hann & H)|(Hno & r0 & Hr0 & Hr0no)].
    + unfold callUpdateAnnotation in Hann.
      destruct (UpdateAnnotation _ _ _ _ _ _) as [a k'] eqn:Hupd.
      injection Hann as -> <-. injection H as <- <-. simpl.
      eexists. split; [by rewrite <- app_assoc|].
      right. right. eexists. split; [|done]. by destruct u.
    + unfold callUpdateAnnotation in Hr0.
      destruct (UpdateAnnotation _ _ _ _ _ _) as [a k'] eqn:Hupd.
      injection Hr0 as <- <-. simpl.
      eexists. split; [done|]. right. left. exists a.
      split; [apply Hr0no|]. split; [done|]. intros name ->. by destruct (Hno name).
  - (* the template in use *)
    assert (Hlog : log w2 = log w).
    { apply bind_inv in H as [(e & w1 & [-> _]%kubectlGet_inv & [= _ <-])
                             |(_ & r0 & [-> _]%kubectlGet_inv & _)]; done. }
    exists []. rewrite app_nil_r. split; [done|]. left. split; [done|].
    intros _ _ (newEtcd' & prevEtcd' & vmc' & [= <-] & Hprev' & Hvmc' & Htrue).
    rewrite Hprev in Hprev'. injection Hprev' as <-.
    rewrite Hvmc in Hvmc'. injection Hvmc' as <-. congruence.
Qed.

Lemma etcdSequencing_intro clusterName bootstrapCluster newClusterSpec (req : Prop)
    pre blk r :
  Forall quietEvent pre →
  etcdSteps clusterName bootstrapCluster newClusterSpec req blk r →
  etcdSequencing clusterName bootstrapCluster newClusterSpec req (pre ++ blk) r.
Proof.
  intros Hpre Hshape. unfold etcdSteps in Hshape.
  assert (Hblk : ∀ i e, (pre ++ blk) !! i = Some e → ¬ quietEvent e →
            (length pre ≤ i)%nat ∧ blk !! (i - length pre)%nat = Some e).
  { intros i e [Hin|Hin]%lookup_app_Some Hloud; [|done].
    exfalso. apply Hloud. by eapply (proj1 (Forall_lookup _ _) Hpre). }
  assert (Hmint : ∀ i name,
            (pre ++ blk) !! i = Some (EvMintTemplateName EtcdMachineTemplate name) →
            (length pre ≤ i)%nat ∧
            blk !! (i - length pre)%nat = Some (EvMintTemplateName EtcdMachineTemplate name)).
  { intros i name Hi. apply Hblk; [done|]. simpl. tauto. }
  assert (Hann : ∀ j a,
            (pre ++ blk) !! j = Some (etcdUpgradeAnnotation clusterName bootstrapCluster a) →
            (length pre ≤ j)%nat ∧
            blk !! (j - length pre)%nat
              = Some (etcdUpgradeAnnotation clusterName bootstrapCluster a)).
  { intros j a Hj. apply Hblk; [done|]. simpl. tauto. }
  unfold etcdSequencing.
  destruct Hshape as [[-> Hr]|[(a & Ha & -> & Hr)|(name & -> & Hr)]];
    (split; [|split]).
  - intros i name' [_ Hi]%Hmint. by rewrite lookup_nil in Hi.
  - intros j a' [_ Hj]%Hann. by rewrite lookup_nil in Hj.
  - intros Hreq cp ws ->. by destruct (Hr Hreq (cp, ws)).
  - intros i name' [_ Hi]%Hmint.
    destruct (i - length pre)%nat as [|[|k]]; simpl in Hi; discriminate.
  - intros j a' _ _. split; [done|].
    intros i name' [_ Hi]%Hmint.
    destruct (i - length pre)%nat as [|[|k]]; simpl in Hi; discriminate.
  - intros _ cp ws ->. by destruct (Hr (cp, ws)).
  - intros i name' [Hle Hi]%Hmint. exists (length pre). split.
    + destruct (i - length pre)%nat as [|k] eqn:Hk; [discriminate|]. lia.
    + rewrite lookup_app_r by done. by rewrite Nat.sub_diag.
  - intros j a' [_ Hj]%Hann Ha'. exfalso.
    destruct (j - length pre)%nat as [|[|k]]; simpl in Hj; [|discriminate..].
    unfold etcdUpgradeAnnotation in Hj. congruence.
  - intros _ cp ws Hok. destruct (Hr cp ws Hok) as [cpName Hcp].
    exists (length pre), name, cpName. split; [|split; [|done]].
    + rewrite lookup_app_r by done. by rewrite Nat.sub_diag.
    + rewrite lookup_app_r by lia.
      by replace (S (length pre) - length pre)%nat with 1%nat by lia.
Qed.

Lemma etcdSteps_result clusterName bootstrapCluster newClusterSpec req blk
    (r0 r : outcome (list byte * list byte)) :
  (∀ specs, r = Ok specs → r0 = Ok specs) →
  etcdSteps clusterName bootstrapCluster newClusterSpec req blk r0 →
  etcdSteps clusterName bootstrapCluster newClusterSpec req blk r.
Proof.
  intros Hr [[-> H]|[(a & Ha & -> & H)|(name & -> & H)]].
  - left. split; [done|]. intros Hreq specs Hok. by eapply H, Hr.
  - right. left. exists a. repeat split; [done..|]. intros specs Hok. by eapply H, Hr.
  - right. right. exists name. split; [done|]. intros cp ws Hok. by eapply H, Hr.
Qed.

(** A run of [generateCAPISpecForUpgrade]: quiet events, then the etcd
    block. *)
Lemma generateCAPISpecForUpgrade_steps p bootstrapCluster workloadCluster
    currentSpec newClusterSpec w r w' :
  generateCAPISpecForUpgrade p bootstrapCluster workloadCluster currentSpec newClusterSpec w
    = (r, w') →
  ∃ pre blk, log w' = log w ++ pre ++ blk ∧ Forall quietEvent pre ∧
    etcdSteps (cluster_Name (cluster.Cluster newClusterSpec)) bootstrapCluster newClusterSpec
      (etcdTemplateRequired workloadCluster currentSpec newClusterSpec (kube w)) blk r.
Proof.
  intros H. unfold generateCAPISpecForUpgrade in H.
  assert (Hfail : ∀ wi, quietly w wi → quietly wi w' → (∀ b, r ≠ Ok b) →
    ∃ pre blk, log w' = log w ++ pre ++ blk ∧ Forall quietEvent pre ∧
      etcdSteps (cluster_Name (cluster.Cluster newClusterSpec)) bootstrapCluster
        newClusterSpec
        (etcdTemplateRequired workloadCluster currentSpec newClusterSpec (kube w)) blk r).
  { intros wi Hq1 Hq2 Hno.
    destruct (quietly_trans _ _ _ Hq1 Hq2) as [_ (evs & Hl & Hf)].
    exists evs, []. rewrite app_nil_r. split; [done|]. split; [done|].
    left. split; [done|]. intros _. exact Hno. }
  (* the reads *)
  apply bind_inv in H as [(c & w1 & Hc & H)|(Hno & r0 & Hr0 & _)].
  2:{ eapply (Hfail w); [apply quietly_refl|by eapply quiet_kubectlGet|done]. }
  apply kubectlGet_inv in Hc as [-> Hc].
  apply bind_inv in H as [(vdc & w1 & Hvdc & H)|(Hno & r0 & Hr0 & _)].
  2:{ eapply (Hfail w); [apply quietly_refl|by eapply quiet_kubectlGet|done]. }
  apply kubectlGet_inv in Hvdc as [-> Hvdc].
  apply bind_inv in H as [(cpVmc & w1 & Hvmc & H)|(Hno & r0 & Hr0 & _)].
  2:{ eapply (Hfail w); [apply quietly_refl|by eapply quiet_kubectlGet|done]. }
  apply kubectlGet_inv in Hvmc as [-> Hvmc].
  (* the control plane template *)
  apply bind_inv in H as [(needsCP & w1 & Hneeds & H)|(Hno & r0 & Hr0 & _)].
  2:{ eapply (Hfail w); [apply quietly_refl|by eapply quiet_deref|done]. }
  apply deref_inv in Hneeds as [-> _].
  assert (Hqcp : ∀ b : bool, quiet
    (if b then
       cp <- kubectlGet (GetKubeadmControlPlane providerKubectlClient workloadCluster
               (cluster_Name c)
               [executables.WithCluster bootstrapCluster;
                executables.WithNamespace EksaSystemNamespace]) ;;
       ret (kcp_InfrastructureRefName cp)
     else mint CPMachineTemplate
            (CPMachineTemplateName (cluster_Name (cluster.Cluster newClusterSpec))))).
  { intros [|]; [auto with quiet|by apply quiet_mint]. }
  apply bind_inv in H as [(cpName & w1 & Hcp & H)|(Hno & r0 & Hr0 & _)].
  2:{ eapply (Hfail w); [apply quietly_refl|by eapply Hqcp|done]. }
  apply Hqcp in Hcp.
  (* the worker node groups *)
  apply bind_inv in H as [(names & w2 & Hloop & H)|(Hno & r0 & Hr0 & _)].
  2:{ eapply (Hfail w1); [done|by eapply quiet_workerTemplateNames_loop|done]. }
  apply quiet_workerTemplateNames_loop in Hloop.
  pose proof (quietly_trans _ _ _ Hcp Hloop) as [Hkube (pre & Hpre & Hquiet)].
  (* etcd *)
  assert (Hreq : etcdTemplateRequired workloadCluster currentSpec newClusterSpec (kube w) →
                 needsNewEtcdTemplateAt workloadCluster currentSpec newClusterSpec c vdc
                   (kube w2)).
  { intros (c' & vdc' & Hc' & Hvdc' & Hat). rewrite Hkube. congruence. }
  apply bind_inv in H as [(etcdName & w3 & Hblock & H)|(Hno & r0 & Hr0 & Hr0no)].
  - apply etcdTemplateName_block_steps in Hblock as (blk & Hlog & Hsteps).
    assert (Hend : w' = w3 ∧
              ∀ cp ws, r = Ok (cp, ws) →
                GenerateCAPISpecControlPlane newClusterSpec cpName etcdName = Ok cp).
    { unfold bind, ret in H.
      destruct (GenerateCAPISpecControlPlane newClusterSpec cpName etcdName) as [cp'|e|];
        [destruct (GenerateCAPISpecWorkers newClusterSpec names.1 names.2)|..];
        injection H as <- <-; split; congruence. }
    destruct Hend as [-> Hrender].
    exists pre, blk. split; [by rewrite Hlog, Hpre, app_assoc|]. split; [done|].
    destruct Hsteps as [[-> Hx]|[(a & Ha & -> & Hx)|(name & -> & [= <-])]].
    + left. split; [done|]. intros Hr. by destruct (Hx etcdName eq_refl (Hreq Hr)).
    + by destruct (Hx etcdName).
    + right. right. exists etcdName. split; [done|].
      intros cp ws Hok. exists cpName. by eapply Hrender.
  - apply etcdTemplateName_block_steps in Hr0 as (blk & Hlog & Hsteps).
    exists pre, blk. split; [by rewrite Hlog, Hpre, app_assoc|]. split; [done|].
    destruct Hsteps as [[-> Hx]|[(a & Ha & -> & Hx)|(name & -> & ->)]].
    + left. split; [done|]. intros _. exact Hno.
    + right. left. exists a. split; [done|]. split; [done|]. exact Hno.
    + by destruct (Hr0no name).
Qed.

(** The sequencing of the etcd upgrade, read off the log of a run of
    [GenerateCAPISpecForUpgrade]. *)
Lemma GenerateCAPISpecForUpgrade_etcdSequencing
    p bootstrapCluster workloadCluster currentSpec newClusterSpec w r w' :
  let clusterName := cluster_Name (cluster.Cluster newClusterSpec) in
  GenerateCAPISpecForUpgrade p bootstrapCluster workloadCluster currentSpec newClusterSpec w
    = (r, w') →
  ∃ evs, log w' = log w ++ evs ∧
    (∀ i name, evs !! i = Some (EvMintTemplateName EtcdMachineTemplate name) →
       ∃ j, (j < i)%nat ∧
            evs !! j = Some (etcdUpgradeAnnotation clusterName bootstrapCluster (Ok tt))) ∧
    (∀ j a, evs !! j = Some (etcdUpgradeAnnotation clusterName bootstrapCluster a) →
       a ≠ Ok tt →
       (∀ specs, r ≠ Ok specs) ∧
       ∀ i name, evs !! i ≠ Some (EvMintTemplateName EtcdMachineTemplate name)) ∧
    (etcdTemplateRequired workloadCluster currentSpec newClusterSpec (kube w) →
     ∀ controlPlaneSpec workersSpec, r = Ok (controlPlaneSpec, workersSpec) →
       ∃ i name controlPlaneTemplateName,
         evs !! i = Some (etcdUpgradeAnnotation clusterName bootstrapCluster (Ok tt)) ∧
         evs !! S i = Some (EvMintTemplateName EtcdMachineTemplate name) ∧
         GenerateCAPISpecControlPlane newClusterSpec controlPlaneTemplateName name
           = Ok controlPlaneSpec).
Proof.
  intros clusterName Hrun. unfold GenerateCAPISpecForUpgrade, wrapErr in Hrun.
  destruct (generateCAPISpecForUpgrade p bootstrapCluster workloadCluster
              currentSpec newClusterSpec w) as [r0 w0] eqn:Hrun0.
  apply generateCAPISpecForUpgrade_steps in Hrun0 as (pre & blk & Hlog & Hquiet & Hsteps).
  assert (Hr : ∀ specs, r = Ok specs → r0 = Ok specs).
  { destruct r0; injection Hrun as <- _; congruence. }
  assert (w' = w0) as -> by (destruct r0; by injection Hrun).
  exists (pre ++ blk). split; [done|].
  apply (etcdSequencing_intro clusterName bootstrapCluster newClusterSpec _ pre blk r Hquiet).
  by eapply etcdSteps_result.
Qed.

End ProviderFacts.

(** ** Runs on the in-memory cluster *)

Section Runs.

#[local] Existing Instance Fake.collaborators.

Lemma Fake_MachineConfigRefs version host :
  MachineConfigRefs (Sample.eksaClusterWith version host [Sample.workers]) =
  [Sample.cpRef; Sample.workerRef; Sample.etcdRef].
Proof. by vm_compute. Qed.

(** The machine configs of [Sample.spec] pass the checks of
    [ValidateNewSpec] on the running sample cluster. *)
Lemma Fake_machineConfigChecksPass version host datacenter server :
  machineConfigChecksPass Fake.workloadCluster
    (Sample.specWith version host datacenter
       (Sample.machineConfigs 25 "ssh-rsa AAAA") [Sample.workers])
    (Sample.eksaCluster "1.23" "192.168.1.71") (Fake.running server true).
Proof.
  intros ref Hin. simpl in Hin. rewrite Fake_MachineConfigRefs in Hin.
  repeat (apply elem_of_cons in Hin as [->|Hin]); [..|by apply elem_of_nil in Hin];
    (eexists; split; [vm_compute; reflexivity|]);
    intros _; (eexists; split; [vm_compute; reflexivity|]); by split.
Qed.

Lemma new_worker_node_group_needs_new_templates_witness :
  let currentSpec := Sample.spec "1.23" "192.168.1.71" "vc.example" in
  let newClusterSpec :=
    Sample.specWith "1.23" "192.168.1.71" (Sample.vdc "vc.example")
      (Sample.machineConfigs 25 "ssh-rsa AAAA") [Sample.workers; Sample.moreWorkers] in
  let prev :=
    cluster.BuildMapForWorkerNodeGroupsByName (cluster.workerNodeGroups currentSpec) in
  let w := Fake.world (Fake.running "vc.example" true) "A" "pw" in
  needsNewMachineTemplate currentSpec newClusterSpec Sample.moreWorkers
    (Sample.vdc "vc.example") prev None None w = (Ok true, w) ∧
  needsNewKubeadmConfigTemplate Sample.moreWorkers prev None None w = (Ok true, w).
Proof.
  intros currentSpec newClusterSpec prev w.
  apply (new_worker_node_group_needs_new_templates currentSpec newClusterSpec
           Sample.moreWorkers (Sample.vdc "vc.example") None None w).
  - apply elem_of_cons. right. apply elem_of_cons. by left.
  - by vm_compute.
Defined.

Lemma InstallStorageClass_follows_DisableCSI_witness :
  let datacenterConfig :=
    mkVdc "test" "default" (mkVdcSpec "SDDC-Datacenter" true "network" "vc.example" "") in
  let w := Fake.world (Fake.running "vc.example" true) "A" "pw" in
  InstallStorageClass
    (NewProviderCustomNet datacenterConfig (Sample.eksaCluster "1.23" "192.168.1.71") false)
    Fake.workloadCluster w = (Ok tt, w).
Proof.
  intros datacenterConfig w.
  apply (InstallStorageClass_follows_DisableCSI datacenterConfig
           (Sample.eksaCluster "1.23" "192.168.1.71") false Fake.workloadCluster w).
  reflexivity.
Defined.

Lemma UpgradeNeeded_true_iff_witness :
  let currentSpec := Sample.spec "1.23" "192.168.1.71" "vc.example" in
  let newSpec :=
    Sample.specWith "1.23" "192.168.1.71" (Sample.vdc "vc.example")
      (Sample.machineConfigs 50 "ssh-rsa AAAA") [Sample.workers] in
  let w := Fake.world (Fake.running "vc.example" true) "A" "pw" in
  UpgradeNeeded Fake.provider newSpec currentSpec Fake.workloadCluster w = (Ok true, w).
Proof.
  intros currentSpec newSpec w.
  destruct (UpgradeNeeded_true_iff Fake.provider newSpec currentSpec Fake.workloadCluster w)
    as (_ & _ & Hiff).
  destruct (Hiff (Sample.vdc "vc.example")
              (λ ref, Sample.vmc (ref_Name ref) 25 "ssh-rsa AAAA"))
    as (b & Hb & Hb_iff).
  - by vm_compute.
  - intros ref Hin. simpl in Hin. rewrite Fake_MachineConfigRefs in Hin.
    repeat (apply elem_of_cons in Hin as [->|Hin]); [..|by apply elem_of_nil in Hin];
      by vm_compute.
  - rewrite Hb. f_equal. f_equal. apply Hb_iff. right. right.
    exists Sample.cpRef. split.
    + simpl. rewrite Fake_MachineConfigRefs. apply elem_of_cons. by left.
    + by vm_compute.
Defined.

(** C6, as stated, fails for the datacenter name: when the server differs
    as well, the error is the one of the server, and contains neither the
    previous nor the new datacenter name. *)
Lemma ValidateNewSpec_datacenter_name_counterexample :
  let newDatacenter :=
    mkVdc "test" "default"
      (mkVdcSpec "Other-Datacenter" false "/SDDC-Datacenter/network/sddc-cgw-network-1"
         "vc-new.example" "ABCDEFG") in
  let clusterSpec :=
    Sample.specWith "1.23" "192.168.1.71" newDatacenter
      (Sample.machineConfigs 25 "ssh-rsa AAAA") [Sample.workers] in
  let w := Fake.world (Fake.running "vc.example" true) "A" "pw" in
  let prevSpec := Sample.eksaCluster "1.23" "192.168.1.71" in
  let prevDatacenter := Sample.vdc "vc.example" in
  GetEksaCluster providerKubectlClient Fake.workloadCluster "test" (kube w) = Ok prevSpec ∧
  GetEksaVSphereDatacenterConfig providerKubectlClient "test" "test.kubeconfig" "default"
    (kube w) = Ok prevDatacenter ∧
  machineConfigChecksPass Fake.workloadCluster clusterSpec prevSpec (kube w) ∧
  Datacenter (vdc_Spec newDatacenter) ≠ Datacenter (vdc_Spec prevDatacenter) ∧
  ∃ msg, ValidateNewSpec Fake.provider Fake.workloadCluster clusterSpec w = (Err msg, w) ∧
         ¬ contains msg (Datacenter (vdc_Spec prevDatacenter)) ∧
         ¬ contains msg (Datacenter (vdc_Spec newDatacenter)).
Proof.
  intros newDatacenter clusterSpec w prevSpec prevDatacenter.
  split; [by vm_compute|]. split; [by vm_compute|].
  split; [apply Fake_machineConfigChecksPass|]. split; [by vm_compute|].
  exists "spec.server is immutable. Previous value vc.example, new value vc-new.example".
  split.
  - rewrite (ValidateNewSpec_after_machine_configs Fake.provider Fake.workloadCluster
               clusterSpec w prevSpec prevDatacenter);
      [reflexivity|by vm_compute..|apply Fake_machineConfigChecksPass].
  - split; intros Hc%contains_containsb; by vm_compute in Hc.
Qed.

Lemma ValidateNewSpec_datacenter_fields_immutable_witness :
  let clusterSpec := Sample.spec "1.23" "192.168.1.71" "vc-new.example" in
  let w := Fake.world (Fake.running "vc.example" true) "A" "pw" in
  ∃ msg, ValidateNewSpec Fake.provider Fake.workloadCluster clusterSpec w = (Err msg, w) ∧
         contains msg "vc.example" ∧ contains msg "vc-new.example".
Proof.
  intros clusterSpec w.
  apply (ValidateNewSpec_datacenter_fields_immutable Fake.provider Fake.workloadCluster
           clusterSpec w (Sample.eksaCluster "1.23" "192.168.1.71") (Sample.vdc "vc.example")).
  - by vm_compute.
  - by vm_compute.
  - apply Fake_machineConfigChecksPass.
  - by vm_compute.
Defined.

Lemma ValidateNewSpec_credentials_immutable_witness :
  let clusterSpec := Sample.spec "1.23" "192.168.1.71" "vc.example" in
  let w := Fake.world (Fake.running "vc.example" true) "B" "pw" in
  ∃ msg, ValidateNewSpec Fake.provider Fake.workloadCluster clusterSpec w = (Err msg, w) ∧
         contains msg "VSPHERE_PASSWORD" ∧ contains msg "VSPHERE_USERNAME".
Proof.
  intros clusterSpec w.
  apply (ValidateNewSpec_credentials_immutable Fake.provider Fake.workloadCluster
           clusterSpec w (Sample.eksaCluster "1.23" "192.168.1.71") (Sample.vdc "vc.example")
           (mkSecret (<["username" := list_byte_of_string "A"]>
                        {[ "password" := list_byte_of_string "pw" ]}))).
  - by vm_compute.
  - by vm_compute.
  - apply Fake_machineConfigChecksPass.
  - reflexivity.
  - reflexivity.
  - reflexivity.
  - by vm_compute.
  - right. by vm_compute.
Defined.



End Runs.

(** ** More on the spec differ *)

Section MoreDifferFacts.

Lemma neq_sym {A} `{EqDecision A} (a b : A) : neq a b = neq b a.
Proof. unfold neq. apply bool_decide_ext. split; intros Hne Heq; by apply Hne. Qed.

(** X1.  The four deciders that compare machine configs give the same answer
    when the two machine configs are exchanged: which one is passed as the
    old and which as the new one does not matter (a nil one included). *)
Theorem deciders_ignore_machine_config_order
    (taintsEq labelsEq :
       list WorkerNodeGroupConfiguration -> list WorkerNodeGroupConfiguration -> bool)
    oldSpec newSpec oldVdc newVdc (vmc1 vmc2 : option VSphereMachineConfig) :
  AnyImmutableFieldChanged oldVdc newVdc vmc1 vmc2
    = AnyImmutableFieldChanged oldVdc newVdc vmc2 vmc1 ∧
  NeedsNewControlPlaneTemplate oldSpec newSpec oldVdc newVdc vmc1 vmc2
    = NeedsNewControlPlaneTemplate oldSpec newSpec oldVdc newVdc vmc2 vmc1 ∧
  NeedsNewWorkloadTemplate taintsEq labelsEq oldSpec newSpec oldVdc newVdc vmc1 vmc2
    = NeedsNewWorkloadTemplate taintsEq labelsEq oldSpec newSpec oldVdc newVdc vmc2 vmc1 ∧
  NeedsNewEtcdTemplate oldSpec newSpec oldVdc newVdc vmc1 vmc2
    = NeedsNewEtcdTemplate oldSpec newSpec oldVdc newVdc vmc2 vmc1.
Proof.
  assert (Hany : AnyImmutableFieldChanged oldVdc newVdc vmc1 vmc2
                 = AnyImmutableFieldChanged oldVdc newVdc vmc2 vmc1).
  { unfold AnyImmutableFieldChanged.
    destruct vmc1 as [a|], vmc2 as [b|]; simpl; try reflexivity.
    rewrite (neq_sym (NumCPUs (vmc_Spec a))), (neq_sym (MemoryMiB (vmc_Spec a))),
      (neq_sym (DiskGiB (vmc_Spec a))), (neq_sym (Datastore (vmc_Spec a))),
      (neq_sym (Folder (vmc_Spec a))), (neq_sym (ResourcePool (vmc_Spec a))),
      (neq_sym (Template (vmc_Spec a))).
    reflexivity. }
  unfold NeedsNewControlPlaneTemplate, NeedsNewWorkloadTemplate, NeedsNewEtcdTemplate.
  by rewrite Hany.
Qed.

(** X2.  Whenever the etcd decider asks for a new template, the control
    plane decider and the worker decider ask for one too, on the same
    arguments. *)
Theorem NeedsNewEtcdTemplate_implies_the_others
    (taintsEq labelsEq :
       list WorkerNodeGroupConfiguration -> list WorkerNodeGroupConfiguration -> bool)
    oldSpec newSpec oldVdc newVdc oldVmc newVmc :
  NeedsNewEtcdTemplate oldSpec newSpec oldVdc newVdc oldVmc newVmc = Some true →
  NeedsNewControlPlaneTemplate oldSpec newSpec oldVdc newVdc oldVmc newVmc = Some true ∧
  NeedsNewWorkloadTemplate taintsEq labelsEq oldSpec newSpec oldVdc newVdc oldVmc newVmc
    = Some true.
Proof.
  unfold NeedsNewEtcdTemplate, NeedsNewControlPlaneTemplate, NeedsNewWorkloadTemplate.
  destruct (neq (cluster.kubernetesVersion oldSpec) (cluster.kubernetesVersion newSpec));
    [done|].
  destruct (neq (cluster.bundleNumber oldSpec) (cluster.bundleNumber newSpec)).
  - intros _. split; [by destruct (neq _ _)|done].
  - intros ->. split; [by destruct (neq _ _)|by destruct (_ || _)].
Qed.

Lemma NeedsNewEtcdTemplate_implies_the_others_witness :
  let oldSpec := Sample.spec "1.23" "192.168.1.71" "vc.example" in
  let vdc := Sample.vdc "vc.example" in
  NeedsNewControlPlaneTemplate oldSpec oldSpec vdc vdc
    (Some (Sample.vmc "test-etcd" 25 "k")) (Some (Sample.vmc "test-etcd" 50 "k")) = Some true ∧
  NeedsNewWorkloadTemplate (λ _ _, true) (λ _ _, true) oldSpec oldSpec vdc vdc
    (Some (Sample.vmc "test-etcd" 25 "k")) (Some (Sample.vmc "test-etcd" 50 "k")) = Some true.
Proof.
  intros oldSpec vdc.
  apply NeedsNewEtcdTemplate_implies_the_others. reflexivity.
Defined.

(** X3.  On two machine configs that exist, [NeedsNewWorkloadTemplate]
    returns a boolean, which is true exactly when the Kubernetes version
    changed, or the bundle number changed, or the taints or the labels of
    the worker node groups are not equal, or one of the nine fields of
    [AnyImmutableFieldChanged] differs; the control plane endpoint host
    plays no part. *)
Theorem NeedsNewWorkloadTemplate_true_iff
    (taintsEq labelsEq :
       list WorkerNodeGroupConfiguration -> list WorkerNodeGroupConfiguration -> bool)
    oldSpec newSpec oldVdc newVdc oldVmc newVmc :
  ∃ b : bool,
    NeedsNewWorkloadTemplate taintsEq labelsEq oldSpec newSpec oldVdc newVdc
      (Some oldVmc) (Some newVmc) = Some b ∧
    (b = true ↔
       cluster.kubernetesVersion oldSpec ≠ cluster.kubernetesVersion newSpec ∨
       cluster.bundleNumber oldSpec ≠ cluster.bundleNumber newSpec ∨
       taintsEq (cluster.workerNodeGroups oldSpec) (cluster.workerNodeGroups newSpec) = false ∨
       labelsEq (cluster.workerNodeGroups oldSpec) (cluster.workerNodeGroups newSpec) = false ∨
       someTemplateAffectingFieldDiffers oldVdc newVdc oldVmc newVmc).
Proof.
  unfold NeedsNewWorkloadTemplate.
  destruct (neq (cluster.kubernetesVersion oldSpec) (cluster.kubernetesVersion newSpec))
    eqn:Hv.
  { exists true. split; [done|]. apply neq_true in Hv. tauto. }
  destruct (neq (cluster.bundleNumber oldSpec) (cluster.bundleNumber newSpec)) eqn:Hn.
  { exists true. split; [done|]. apply neq_true in Hn. tauto. }
  apply neq_false_1 in Hv. apply neq_false_1 in Hn.
  destruct (taintsEq _ _) eqn:Ht; simpl; [|exists true; tauto].
  destruct (labelsEq _ _) eqn:Hl; simpl; [|exists true; tauto].
  destruct (AnyImmutableFieldChanged_total oldVdc newVdc oldVmc newVmc) as [b Hb].
  exists b. split; [done|].
  rewrite someTemplateAffectingFieldDiffers_iff, <- AnyImmutableFieldChanged_false_iff, Hb.
  destruct b; intuition congruence.
Qed.

(** X4.  [NeedsNewKubeadmConfigTemplate] looks at the two machine configs
    only through their lists of users: machine configs with the same users
    give the same answer, whatever else differs between them (CPU, memory,
    disk, template and so on). *)
Theorem NeedsNewKubeadmConfigTemplate_only_users
    (taintsEq : list Taint -> list Taint -> bool)
    (mapEq : gmap string string -> gmap string string -> bool)
    (usersEq : slice UserConfiguration -> slice UserConfiguration -> bool)
    newGroup oldGroup (oldVmc oldVmc' newVmc newVmc' : VSphereMachineConfig) :
  Users (vmc_Spec oldVmc) = Users (vmc_Spec oldVmc') →
  Users (vmc_Spec newVmc) = Users (vmc_Spec newVmc') →
  NeedsNewKubeadmConfigTemplate taintsEq mapEq usersEq newGroup oldGroup
    (Some oldVmc) (Some newVmc)
  = NeedsNewKubeadmConfigTemplate taintsEq mapEq usersEq newGroup oldGroup
      (Some oldVmc') (Some newVmc').
Proof.
  intros Ho Hn. unfold NeedsNewKubeadmConfigTemplate. simpl. by rewrite Ho, Hn.
Qed.

Lemma NeedsNewKubeadmConfigTemplate_only_users_witness :
  NeedsNewKubeadmConfigTemplate (λ a b, bool_decide (a = b)) (λ a b, bool_decide (a = b))
    (λ a b, bool_decide (a = b)) Sample.workers Sample.workers
    (Some (Sample.vmc "test-wn" 25 "k")) (Some (Sample.vmc "test-wn" 25 "k"))
  = NeedsNewKubeadmConfigTemplate (λ a b, bool_decide (a = b)) (λ a b, bool_decide (a = b))
      (λ a b, bool_decide (a = b)) Sample.workers Sample.workers
      (Some (Sample.vmc "test-wn" 50 "k")) (Some (Sample.vmc "other" 100 "k")).
Proof. apply NeedsNewKubeadmConfigTemplate_only_users; reflexivity. Defined.

(** X5.  With a machine config that is nil, the deciders return true as
    long as an earlier comparison settles the matter, and panic otherwise:
    the control plane decider on version, endpoint host and bundle number,
    the etcd decider on version and bundle number, the worker decider on
    version, bundle number, taints and labels, and the bootstrap config
    decider on taints and labels. *)
Theorem deciders_on_nil_machine_config
    (taintsEq labelsEq :
       list WorkerNodeGroupConfiguration -> list WorkerNodeGroupConfiguration -> bool)
    (taintsSliceEq : list Taint -> list Taint -> bool)
    (mapEq : gmap string string -> gmap string string -> bool)
    (usersEq : slice UserConfiguration -> slice UserConfiguration -> bool)
    oldSpec newSpec oldVdc newVdc newGroup oldGroup
    (oldVmc newVmc : option VSphereMachineConfig) :
  oldVmc = None ∨ newVmc = None →
  NeedsNewControlPlaneTemplate oldSpec newSpec oldVdc newVdc oldVmc newVmc =
    (if neq (cluster.kubernetesVersion oldSpec) (cluster.kubernetesVersion newSpec)
        || neq (cluster.endpointHost oldSpec) (cluster.endpointHost newSpec)
        || neq (cluster.bundleNumber oldSpec) (cluster.bundleNumber newSpec)
     then Some true else None) ∧
  NeedsNewEtcdTemplate oldSpec newSpec oldVdc newVdc oldVmc newVmc =
    (if neq (cluster.kubernetesVersion oldSpec) (cluster.kubernetesVersion newSpec)
        || neq (cluster.bundleNumber oldSpec) (cluster.bundleNumber newSpec)
     then Some true else None) ∧
  NeedsNewWorkloadTemplate taintsEq labelsEq oldSpec newSpec oldVdc newVdc oldVmc newVmc =
    (if neq (cluster.kubernetesVersion oldSpec) (cluster.kubernetesVersion newSpec)
        || neq (cluster.bundleNumber oldSpec) (cluster.bundleNumber newSpec)
        || negb (taintsEq (cluster.workerNodeGroups oldSpec) (cluster.workerNodeGroups newSpec))
        || negb (labelsEq (cluster.workerNodeGroups oldSpec) (cluster.workerNodeGroups newSpec))
     then Some true else None) ∧
  NeedsNewKubeadmConfigTemplate taintsSliceEq mapEq usersEq newGroup oldGroup oldVmc newVmc =
    (if negb (taintsSliceEq (wng_Taints newGroup) (wng_Taints oldGroup))
        || negb (mapEq (wng_Labels newGroup) (wng_Labels oldGroup))
     then Some true else None).
Proof.
  intros Hnil.
  assert (Hany : AnyImmutableFieldChanged oldVdc newVdc oldVmc newVmc = None).
  { unfold AnyImmutableFieldChanged. destruct Hnil as [->| ->]; [done|by destruct oldVmc]. }
  unfold NeedsNewControlPlaneTemplate, NeedsNewEtcdTemplate, NeedsNewWorkloadTemplate,
    NeedsNewKubeadmConfigTemplate.
  rewrite Hany. repeat split.
  - by repeat destruct (neq _ _).
  - by repeat destruct (neq _ _).
  - repeat destruct (neq _ _); simpl; try done; by destruct (taintsEq _ _), (labelsEq _ _).
  - destruct (taintsSliceEq _ _), (mapEq _ _); simpl; try done.
    destruct Hnil as [->| ->]; [done|by destruct oldVmc].
Qed.

Lemma deciders_on_nil_machine_config_witness :
  let oldSpec := Sample.spec "1.23" "192.168.1.71" "vc.example" in
  let newSpec := Sample.spec "1.24" "192.168.1.71" "vc.example" in
  let vdc := Sample.vdc "vc.example" in
  NeedsNewEtcdTemplate oldSpec newSpec vdc vdc None None = Some true ∧
  NeedsNewEtcdTemplate oldSpec oldSpec vdc vdc None None = None.
Proof.
  intros oldSpec newSpec vdc. split.
  - destruct (deciders_on_nil_machine_config (λ _ _, true) (λ _ _, true) (λ _ _, true)
                (λ _ _, true) (λ _ _, true) oldSpec newSpec vdc vdc
                Sample.workers Sample.workers None None (or_introl eq_refl))
      as (_ & -> & _). reflexivity.
  - destruct (deciders_on_nil_machine_config (λ _ _, true) (λ _ _, true) (λ _ _, true)
                (λ _ _, true) (λ _ _, true) oldSpec oldSpec vdc vdc
                Sample.workers Sample.workers None None (or_introl eq_refl))
      as (_ & -> & _). reflexivity.
Defined.

End MoreDifferFacts.

(** ** More on the provider *)

Section MoreProviderFacts.

Context `{MC : MoreCollaborators}.

Ltac unfold_go :=
  unfold bind, ret, fail, panic, kubectlGet, deref, wrapErr, Getenv in *.

(** *** Validation reads, and only reads *)

Lemma readOnly_pure {A} (f : World → outcome A) : readOnly (λ w, (f w, w)).
Proof. by intros w. Qed.

Lemma readOnly_ret {A} (a : A) : readOnly (ret a).
Proof. by intros w. Qed.

Lemma readOnly_fail {A} (e : string) : readOnly (@fail _ A e).
Proof. by intros w. Qed.

Lemma readOnly_kubectlGet {A} (f : K → outcome A) : readOnly (kubectlGet f).
Proof. by intros w. Qed.

Lemma readOnly_Getenv key : readOnly (Getenv key).
Proof. by intros w. Qed.

Lemma readOnly_bind {A B} (m : M A) (k : A → M B) :
  readOnly m → (∀ a, readOnly (k a)) → readOnly (bind m k).
Proof.
  intros Hm Hk w. unfold bind. specialize (Hm w).
  destruct (m w) as [[a|e|] w1]; simpl in *; subst; [apply Hk|done..].
Qed.

Lemma readOnly_wrapErr {A} prefix (m : M A) : readOnly m → readOnly (wrapErr prefix m).
Proof.
  intros Hm w. unfold wrapErr. specialize (Hm w).
  by destruct (m w) as [[a|e|] w1].
Qed.

Create HintDb readOnly.
#[local] Hint Resolve readOnly_ret readOnly_fail readOnly_kubectlGet readOnly_Getenv
  readOnly_bind readOnly_wrapErr : readOnly.

Lemma readOnly_validateMachineConfigImmutability cluster newConfig clusterSpec :
  readOnly (validateMachineConfigImmutability cluster newConfig clusterSpec).
Proof.
  unfold validateMachineConfigImmutability. apply readOnly_bind; [auto with readOnly|].
  intros prev. repeat destruct (neq _ _); auto with readOnly.
Qed.

Lemma readOnly_validateMachineConfigs_loop refs cluster clusterSpec prevRefs :
  readOnly (validateMachineConfigs_loop refs cluster clusterSpec prevRefs).
Proof.
  induction refs as [|ref refs IH]; simpl; [auto with readOnly|].
  destruct (cluster.VSphereMachineConfigs clusterSpec !! ref_Name ref) as [mc|];
    [|auto with readOnly].
  apply readOnly_bind; [|by intros _].
  destruct (prevRefs !! vmc_Name mc);
    [apply readOnly_validateMachineConfigImmutability|auto with readOnly].
Qed.

Lemma readOnly_secretContentsChanged workloadCluster :
  readOnly (secretContentsChanged workloadCluster).
Proof.
  unfold secretContentsChanged. apply readOnly_bind; [auto with readOnly|].
  intros nPassword. apply readOnly_bind; [auto with readOnly|].
  intros oSecret. destruct (neq _ _); [auto with readOnly|].
  apply readOnly_bind; [auto with readOnly|].
  intros nUser. destruct (neq _ _); auto with readOnly.
Qed.

Lemma readOnly_machineConfigsSpecChanged_loop refs cluster newClusterSpec :
  readOnly (machineConfigsSpecChanged_loop refs cluster newClusterSpec).
Proof.
  induction refs as [|ref refs IH]; simpl; [auto with readOnly|].
  apply readOnly_bind; [auto with readOnly|]. intros existingVmc.
  destruct (cluster.VSphereMachineConfigs newClusterSpec !! ref_Name ref);
    [|auto with readOnly].
  destruct (negb _); auto with readOnly.
Qed.

(** X6.  [ValidateNewSpec], [UpgradeNeeded] and
    [validateMachineConfigsNameUniqueness] leave the world as they found it,
    whatever they return: the cluster behind the client, the files, the
    environment and the clock are the same and nothing is added to the log
    of writes. *)
Theorem validations_are_read_only (p : vsphereProvider) (cluster : types.Cluster)
    (clusterSpec currentSpec : cluster.Spec) (w : World) :
  (ValidateNewSpec p cluster clusterSpec w).2 = w ∧
  (UpgradeNeeded p clusterSpec currentSpec cluster w).2 = w ∧
  (validateMachineConfigsNameUniqueness p cluster clusterSpec w).2 = w.
Proof.
  split; [|split].
  - revert w. change (readOnly (ValidateNewSpec p cluster clusterSpec)).
    unfold ValidateNewSpec. apply readOnly_bind; [auto with readOnly|].
    intros prevSpec. apply readOnly_bind; [auto with readOnly|].
    intros prevDatacenter. apply readOnly_bind.
    { apply readOnly_validateMachineConfigs_loop. }
    intros _. repeat (destruct (neq _ _); [auto with readOnly|]).
    apply readOnly_bind; [apply readOnly_secretContentsChanged|].
    intros [|]; auto with readOnly.
  - revert w. change (readOnly (UpgradeNeeded p clusterSpec currentSpec cluster)).
    unfold UpgradeNeeded. destruct (_ || _); [auto with readOnly|].
    apply readOnly_bind; [auto with readOnly|]. intros existingVdc.
    destruct (negb _); [auto with readOnly|].
    apply readOnly_machineConfigsSpecChanged_loop.
  - revert w.
    change (readOnly (validateMachineConfigsNameUniqueness p cluster clusterSpec)).
    unfold validateMachineConfigsNameUniqueness.
    apply readOnly_bind; [auto with readOnly|]. intros prevSpec.
    apply readOnly_bind.
    { destruct (neq _ _); [|auto with readOnly].
      apply readOnly_bind; [auto with readOnly|]. intros em.
      case_bool_decide; auto with readOnly. }
    intros _.
    destruct (ExternalEtcdConfiguration_ _) as [newEtcd|]; [|auto with readOnly].
    destruct (ExternalEtcdConfiguration_ _) as [prevEtcd|]; [|auto with readOnly].
    destruct (neq _ _); [|auto with readOnly].
    apply readOnly_bind; [auto with readOnly|]. intros em.
    case_bool_decide; auto with readOnly.
Qed.

(** *** What [ValidateNewSpec] accepts and what it rejects *)

Lemma validateMachineConfigs_loop_app pre rest cluster clusterSpec prevSpec w :
  machineConfigRefsPass cluster clusterSpec prevSpec (kube w) pre →
  validateMachineConfigs_loop (pre ++ rest) cluster clusterSpec
    (machineRefSliceToMap (MachineConfigRefs prevSpec)) w =
  validateMachineConfigs_loop rest cluster clusterSpec
    (machineRefSliceToMap (MachineConfigRefs prevSpec)) w.
Proof.
  induction pre as [|ref pre IH]; intros Hpass; [reflexivity|].
  destruct (Hpass ref) as (mc & Hmc & Hprev); [apply elem_of_cons; by left|].
  simpl. rewrite Hmc. unfold bind at 1.
  assert (Hstep :
    match machineRefSliceToMap (MachineConfigRefs prevSpec) !! vmc_Name mc with
    | Some _ => validateMachineConfigImmutability cluster mc clusterSpec
    | None => ret tt
    end w = (Ok tt, w)).
  { destruct (machineRefSliceToMap (MachineConfigRefs prevSpec) !! vmc_Name mc)
      as [r|] eqn:Hr; [|reflexivity].
    destruct Hprev as (prev & Hget & Hsp & Hos); [by eexists|].
    unfold validateMachineConfigImmutability. unfold_go.
    by rewrite Hget, Hsp, Hos, !neq_refl. }
  rewrite Hstep. apply IH. intros ref' Hin. apply Hpass, elem_of_cons. by right.
Qed.

Lemma ValidateNewSpec_at_machine_config p cluster clusterSpec w prevSpec prevDatacenter
    pre ref rest :
  GetEksaCluster providerKubectlClient cluster
    (cluster_Name (cluster.Cluster clusterSpec)) (kube w) = Ok prevSpec →
  GetEksaVSphereDatacenterConfig providerKubectlClient
    (ref_Name (DatacenterRef (cluster_Spec prevSpec))) (types.KubeconfigFile cluster)
    (cluster_Namespace prevSpec) (kube w) = Ok prevDatacenter →
  MachineConfigRefs (cluster.Cluster clusterSpec) = pre ++ ref :: rest →
  machineConfigRefsPass cluster clusterSpec prevSpec (kube w) pre →
  ∀ r w',
    validateMachineConfigs_loop (ref :: rest) cluster clusterSpec
      (machineRefSliceToMap (MachineConfigRefs prevSpec)) w = (r, w') →
    (∀ u, r ≠ Ok u) →
    ∃ e, ValidateNewSpec p cluster clusterSpec w = (e, w') ∧
         match r with Ok _ => False | Err m => e = Err m | Panic => e = Panic end.
Proof.
  intros Hc Hd Hrefs Hpass r w' Hloop Hno.
  unfold ValidateNewSpec. unfold bind at 1, kubectlGet at 1. rewrite Hc.
  unfold bind at 1, kubectlGet at 1. rewrite Hd.
  unfold bind at 1.
  rewrite Hrefs, (validateMachineConfigs_loop_app _ _ _ _ _ _ Hpass), Hloop.
  destruct r as [u|m|]; [by destruct (Hno u)|by eexists..].
Qed.

(** X7.  [ValidateNewSpec] accepts: when the reads of the cluster succeed,
    the machine config checks pass, server, datacenter name and network are
    those of the cluster, and password and user name of the credentials
    secret are those of the environment, the result is nil.  Nothing else of
    the datacenter config is compared (the thumbprint, for one, may
    differ). *)
Theorem ValidateNewSpec_accepts
    p cluster clusterSpec w prevSpec prevDatacenter oSecret :
  GetEksaCluster providerKubectlClient cluster
    (cluster_Name (cluster.Cluster clusterSpec)) (kube w) = Ok prevSpec →
  GetEksaVSphereDatacenterConfig providerKubectlClient
    (ref_Name (DatacenterRef (cluster_Spec prevSpec))) (types.KubeconfigFile cluster)
    (cluster_Namespace prevSpec) (kube w) = Ok prevDatacenter →
  machineConfigChecksPass cluster clusterSpec prevSpec (kube w) →
  Server (vdc_Spec (cluster.VSphereDatacenter clusterSpec)) = Server (vdc_Spec prevDatacenter) →
  Datacenter (vdc_Spec (cluster.VSphereDatacenter clusterSpec))
    = Datacenter (vdc_Spec prevDatacenter) →
  Network (vdc_Spec (cluster.VSphereDatacenter clusterSpec))
    = Network (vdc_Spec prevDatacenter) →
  GetSecretFromNamespace providerKubectlClient (types.KubeconfigFile cluster)
    CredentialsObjectName EksaSystemNamespace (kube w) = Ok oSecret →
  string_of_list_byte (default [] (Data oSecret !! "password"))
    = default "" (environ w !! vSpherePasswordKey) →
  string_of_list_byte (default [] (Data oSecret !! "username"))
    = default "" (environ w !! vSphereUsernameKey) →
  ValidateNewSpec p cluster clusterSpec w = (Ok tt, w).
Proof.
  intros Hc Hd Hpass Hs Hdc Hn Hsecret Hpw Huser.
  rewrite (ValidateNewSpec_after_machine_configs p _ _ _ _ _ Hc Hd Hpass).
  rewrite Hs, Hdc, Hn, !neq_refl.
  unfold secretContentsChanged. unfold_go.
  by rewrite Hsecret, Hpw, Huser, !neq_refl.
Qed.

(** X8.  A machine config reference of the new cluster that the provider's
    machine configs do not have makes [ValidateNewSpec] fail with "cannot
    find machine config" and the name, once the references before it passed
    their checks; the datacenter config and the credentials are not looked
    at. *)
Theorem ValidateNewSpec_missing_machine_config
    p cluster clusterSpec w prevSpec prevDatacenter pre ref rest :
  GetEksaCluster providerKubectlClient cluster
    (cluster_Name (cluster.Cluster clusterSpec)) (kube w) = Ok prevSpec →
  GetEksaVSphereDatacenterConfig providerKubectlClient
    (ref_Name (DatacenterRef (cluster_Spec prevSpec))) (types.KubeconfigFile cluster)
    (cluster_Namespace prevSpec) (kube w) = Ok prevDatacenter →
  MachineConfigRefs (cluster.Cluster clusterSpec) = pre ++ ref :: rest →
  machineConfigRefsPass cluster clusterSpec prevSpec (kube w) pre →
  cluster.VSphereMachineConfigs clusterSpec !! ref_Name ref = None →
  ValidateNewSpec p cluster clusterSpec w =
    (Err ("cannot find machine config " +:+ ref_Name ref
          +:+ " in vsphere provider machine configs"), w).
Proof.
  intros Hc Hd Hrefs Hpass Hnone.
  destruct (ValidateNewSpec_at_machine_config p cluster clusterSpec w prevSpec
              prevDatacenter pre ref rest Hc Hd Hrefs Hpass
              (Err ("cannot find machine config " +:+ ref_Name ref
                    +:+ " in vsphere provider machine configs")) w)
    as (e & -> & ->); [|done..].
  simpl. by rewrite Hnone.
Qed.

(** X9.  A machine config that the running cluster refers to as well, and
    whose storage policy name is not the one read from the cluster, makes
    [ValidateNewSpec] fail with an error that gives the previous and the new
    value; so does, the storage policy name being the same, another OS
    family.  This holds once the references before it passed their checks. *)
Theorem ValidateNewSpec_machine_config_immutable
    p cluster clusterSpec w prevSpec prevDatacenter pre ref rest mc prev :
  GetEksaCluster providerKubectlClient cluster
    (cluster_Name (cluster.Cluster clusterSpec)) (kube w) = Ok prevSpec →
  GetEksaVSphereDatacenterConfig providerKubectlClient
    (ref_Name (DatacenterRef (cluster_Spec prevSpec))) (types.KubeconfigFile cluster)
    (cluster_Namespace prevSpec) (kube w) = Ok prevDatacenter →
  MachineConfigRefs (cluster.Cluster clusterSpec) = pre ++ ref :: rest →
  machineConfigRefsPass cluster clusterSpec prevSpec (kube w) pre →
  cluster.VSphereMachineConfigs clusterSpec !! ref_Name ref = Some mc →
  is_Some (machineRefSliceToMap (MachineConfigRefs prevSpec) !! vmc_Name mc) →
  GetEksaVSphereMachineConfig providerKubectlClient (vmc_Name mc)
    (types.KubeconfigFile cluster) (cluster_Namespace (cluster.Cluster clusterSpec))
    (kube w) = Ok prev →
  (StoragePolicyName (vmc_Spec mc) ≠ StoragePolicyName (vmc_Spec prev) →
   ValidateNewSpec p cluster clusterSpec w =
     (Err ("spec.storagePolicyName is immutable. Previous value "
           +:+ StoragePolicyName (vmc_Spec prev)
           +:+ ", new value " +:+ StoragePolicyName (vmc_Spec mc)), w)) ∧
  (StoragePolicyName (vmc_Spec mc) = StoragePolicyName (vmc_Spec prev) →
   OSFamily (vmc_Spec mc) ≠ OSFamily (vmc_Spec prev) →
   ValidateNewSpec p cluster clusterSpec w =
     (Err ("spec.osFamily is immutable. Previous value " +:+ OSFamily (vmc_Spec prev)
           +:+ ", new value " +:+ OSFamily (vmc_Spec mc)), w)).
Proof.
  intros Hc Hd Hrefs Hpass Hmc [r Hr] Hget.
  assert (Hloop : ∀ m,
    validateMachineConfigImmutability cluster mc clusterSpec w = (Err m, w) →
    ValidateNewSpec p cluster clusterSpec w = (Err m, w)).
  { intros m Him.
    destruct (ValidateNewSpec_at_machine_config p cluster clusterSpec w prevSpec
                prevDatacenter pre ref rest Hc Hd Hrefs Hpass (Err m) w)
      as (e & -> & ->); [|done..].
    simpl. rewrite Hmc, Hr. unfold bind. by rewrite Him. }
  split.
  - intros Hsp. apply Hloop. unfold validateMachineConfigImmutability. unfold_go.
    rewrite Hget. by rewrite (neq_true_2 _ _ Hsp).
  - intros Hsp Hos. apply Hloop. unfold validateMachineConfigImmutability. unfold_go.
    rewrite Hget, Hsp, neq_refl. by rewrite (neq_true_2 _ _ Hos).
Qed.

(** *** The credentials *)

(** X10.  [secretContentsChanged]: when the credentials secret can be read,
    the answer is true exactly when its password or its user name is not the
    one of the environment (a missing entry of the secret and an unset
    variable both count as the empty string); when it cannot be read, the
    error says which secret and carries the cause. *)
Theorem secretContentsChanged_spec (workloadCluster : types.Cluster) (w : World) :
  let read :=
    GetSecretFromNamespace providerKubectlClient (types.KubeconfigFile workloadCluster)
      CredentialsObjectName EksaSystemNamespace (kube w) in
  (∀ oSecret, read = Ok oSecret →
     ∃ b : bool, secretContentsChanged workloadCluster w = (Ok b, w) ∧
       (b = true ↔
          string_of_list_byte (default [] (Data oSecret !! "password"))
            ≠ default "" (environ w !! "VSPHERE_PASSWORD") ∨
          string_of_list_byte (default [] (Data oSecret !! "username"))
            ≠ default "" (environ w !! "VSPHERE_USERNAME"))) ∧
  (∀ e, read = Err e →
     secretContentsChanged workloadCluster w =
       (Err ("obtaining VSphere secret vsphere-credentials from workload cluster: " +:+ e),
        w)).
Proof.
  intros read. unfold secretContentsChanged. unfold_go. fold read. split.
  - intros oSecret ->.
    change vSpherePasswordKey with "VSPHERE_PASSWORD".
    change vSphereUsernameKey with "VSPHERE_USERNAME".
    destruct (neq (string_of_list_byte (default [] (Data oSecret !! "password"))) _) eqn:Ep.
    { exists true. split; [done|]. apply neq_true in Ep. tauto. }
    apply neq_false_1 in Ep.
    destruct (neq (string_of_list_byte (default [] (Data oSecret !! "username"))) _) eqn:Eu.
    { exists true. split; [done|]. apply neq_true in Eu. tauto. }
    apply neq_false_1 in Eu.
    exists false. split; [done|]. split; [done|]. intros [?|?]; contradiction.
  - by intros e ->.
Qed.

(** *** [UpgradeNeeded], one machine config at a time *)

Lemma machineConfigsSpecChanged_loop_app pre rest cluster newSpec w existing :
  machineConfigRefsUnchanged cluster newSpec (kube w) existing pre →
  machineConfigsSpecChanged_loop (pre ++ rest) cluster newSpec w =
  machineConfigsSpecChanged_loop rest cluster newSpec w.
Proof.
  induction pre as [|ref pre IH]; intros Hsame; [reflexivity|].
  destruct (Hsame ref) as [Hread Hnd]; [apply elem_of_cons; by left|].
  simpl. unfold_go. rewrite Hread.
  unfold machineConfigSpecDiffers in Hnd.
  destruct (cluster.VSphereMachineConfigs newSpec !! ref_Name ref) as [csmc|] eqn:Hlook.
  - rewrite bool_decide_eq_true_2.
    + simpl. apply IH. intros ref' Hin. apply Hsame, elem_of_cons. by right.
    + simpl in Hnd. destruct (decide (vmc_Spec (existing ref) = vmc_Spec csmc)); [done|].
      exfalso. apply Hnd. congruence.
  - exfalso. by apply Hnd.
Qed.

(** X11.  [UpgradeNeeded] goes through the machine config references of the
    current cluster in order and stops at the first one that decides, the
    digests and the datacenter config being unchanged and the machine
    configs before it being unchanged: if that machine config cannot be
    read, the error of the read is returned; if its spec differs from the
    new one, the answer is true.  The references after it are not read. *)
Theorem UpgradeNeeded_first_deciding_machine_config (p : vsphereProvider)
    (newSpec currentSpec : cluster.Spec) (cluster : types.Cluster) (w : World)
    existingVdc (existing : Ref → VSphereMachineConfig) pre ref rest :
  let cc := cluster.Cluster currentSpec in
  let read :=
    GetEksaVSphereMachineConfig providerKubectlClient (ref_Name ref)
      (types.KubeconfigFile cluster) (cluster_Namespace (cluster.Cluster newSpec))
      (kube w) in
  ¬ digestChanged newSpec currentSpec →
  GetEksaVSphereDatacenterConfig providerKubectlClient
    (ref_Name (DatacenterRef (cluster_Spec cc))) (types.KubeconfigFile cluster)
    (cluster_Namespace (cluster.Cluster newSpec)) (kube w) = Ok existingVdc →
  vdc_Spec existingVdc = vdc_Spec (cluster.VSphereDatacenter newSpec) →
  MachineConfigRefs cc = pre ++ ref :: rest →
  machineConfigRefsUnchanged cluster newSpec (kube w) existing pre →
  (∀ e, read = Err e → UpgradeNeeded p newSpec currentSpec cluster w = (Err e, w)) ∧
  (∀ existingVmc, read = Ok existingVmc →
     machineConfigSpecDiffers newSpec ref existingVmc →
     UpgradeNeeded p newSpec currentSpec cluster w = (Ok true, w)).
Proof.
  intros cc read Hnd Hvdc Hsame Hrefs Hpre.
  assert (Hrun : UpgradeNeeded p newSpec currentSpec cluster w =
                 machineConfigsSpecChanged_loop (ref :: rest) cluster newSpec w).
  { unfold UpgradeNeeded. fold cc.
    match goal with |- context [if ?c then _ else _] => destruct c eqn:Ed end.
    - exfalso. apply Hnd. unfold digestChanged. simpl.
      rewrite !orb_true_iff, !neq_true in Ed. tauto.
    - unfold_go. rewrite Hvdc, bool_decide_eq_true_2 by done. simpl.
      unfold machineConfigsSpecChanged. rewrite Hrefs.
      by apply (machineConfigsSpecChanged_loop_app pre (ref :: rest) cluster newSpec w
                  existing). }
  rewrite Hrun. simpl. unfold_go. fold read. split.
  - by intros e ->.
  - intros existingVmc -> Hdiff. unfold machineConfigSpecDiffers in Hdiff.
    destruct (cluster.VSphereMachineConfigs newSpec !! ref_Name ref) as [csmc|]; [|done].
    simpl in Hdiff. rewrite bool_decide_eq_false_2; [done|congruence].
Qed.

(** X12.  [UpgradeNeeded] looks only at the machine configs of the new spec
    that the current cluster refers to: adding or replacing a machine config
    under a name that is not among these references does not change the
    result. *)
Theorem UpgradeNeeded_ignores_unreferenced_machine_configs (p : vsphereProvider)
    (newSpec currentSpec : cluster.Spec) (cluster : types.Cluster) (w : World)
    (name : string) (mc : VSphereMachineConfig) :
  name ∉ ref_Name <$> MachineConfigRefs (cluster.Cluster currentSpec) →
  UpgradeNeeded p
    (withVSphereMachineConfigs newSpec (<[name := mc]> (cluster.VSphereMachineConfigs newSpec)))
    currentSpec cluster w
  = UpgradeNeeded p newSpec currentSpec cluster w.
Proof.
  intros Hname. unfold UpgradeNeeded, machineConfigsSpecChanged. simpl.
  destruct (_ || _); [done|]. unfold bind.
  destruct (kubectlGet _ w) as [[existingVdc|e|] w1]; [|done..].
  destruct (negb _); [done|].
  revert w1.
  induction (MachineConfigRefs (cluster.Cluster currentSpec)) as [|ref refs IH];
    intros w1; [done|].
  rewrite fmap_cons, not_elem_of_cons in Hname. destruct Hname as [Hne Hname].
  simpl. unfold bind.
  destruct (kubectlGet _ w1) as [[existingVmc|e|] w2]; [|done..].
  rewrite lookup_insert_ne by done.
  destruct (cluster.VSphereMachineConfigs newSpec !! ref_Name ref); [|done].
  destruct (negb _); [done|]. by apply IH.
Qed.

(** *** Spec generation for an upgrade: what else a run shows *)

Lemma workerTemplateNames_loop_dom groups bootstrapCluster workloadCluster
    currentSpec newClusterSpec vdc prev :
  ∀ names w names' w',
  workerTemplateNames_loop groups bootstrapCluster workloadCluster
    currentSpec newClusterSpec vdc prev names w = (Ok names', w') →
  dom names'.1 = dom names.1 ∪ list_to_set (wng_Name <$> groups) ∧
  dom names'.2 = dom names.2 ∪ list_to_set (wng_Name <$> groups).
Proof.
  induction groups as [|g groups IH]; intros names w names' w' Hrun.
  - injection Hrun as <- _. simpl. by rewrite !union_empty_r_L.
  - simpl in Hrun.
    apply bind_inv in Hrun as [(vmcs & w1 & _ & Hrun)|(Hno & _)];
      [|by destruct (Hno names')].
    apply bind_inv in Hrun as [(nw & w2 & _ & Hrun)|(Hno & _)];
      [|by destruct (Hno names')].
    apply bind_inv in Hrun as [(nk & w3 & _ & Hrun)|(Hno & _)];
      [|by destruct (Hno names')].
    apply bind_inv in Hrun as [(kn & w4 & _ & Hrun)|(Hno & _)];
      [|by destruct (Hno names')].
    apply bind_inv in Hrun as [(wn & w5 & _ & Hrun)|(Hno & _)];
      [|by destruct (Hno names')].
    apply IH in Hrun as [H1 H2]. simpl in H1, H2.
    rewrite H1, H2, !dom_insert_L, fmap_cons. simpl.
    rewrite !(comm_L (∪) {[wng_Name g]} (dom _)), <- !(assoc_L (∪)). done.
Qed.

Lemma bind_inv_result {A B} (m : M A) (k : A → M B) w r w' :
  bind m k w = (r, w') →
  (∃ a w1, m w = (Ok a, w1) ∧ k a w1 = (r, w')) ∨
  (∃ e, m w = (Err e, w') ∧ r = Err e) ∨
  (m w = (Panic, w') ∧ r = Panic).
Proof.
  unfold bind. destruct (m w) as [[a|e|] w1]; intros H.
  - left. eauto.
  - right. left. injection H as <- <-. eauto.
  - right. right. by injection H as <- <-.
Qed.

(** A run of [generateCAPISpecForUpgrade] either fails quietly before the
    etcd block, or reaches it with what was read and named so far. *)
Lemma generateCAPISpecForUpgrade_inv p bootstrapCluster workloadCluster
    currentSpec newClusterSpec w r w' :
  generateCAPISpecForUpgrade p bootstrapCluster workloadCluster currentSpec newClusterSpec w
    = (r, w') →
  (quietly w w' ∧ ∀ specs, r ≠ Ok specs) ∨
  ∃ c vdc cpVmc needsCP cpName names w1 w2 rb,
    GetEksaCluster providerKubectlClient workloadCluster
      (cluster_Name (cluster.Cluster newClusterSpec)) (kube w) = Ok c ∧
    GetEksaVSphereDatacenterConfig providerKubectlClient
      (vdc_Name (cluster.VSphereDatacenter newClusterSpec))
      (types.KubeconfigFile workloadCluster)
      (cluster_Namespace (cluster.Cluster newClusterSpec)) (kube w) = Ok vdc ∧
    GetEksaVSphereMachineConfig providerKubectlClient
      (ref_Name (cp_MachineGroupRef (ControlPlaneConfiguration_ (cluster_Spec c))))
      (types.KubeconfigFile workloadCluster)
      (cluster_Namespace (cluster.Cluster newClusterSpec)) (kube w) = Ok cpVmc ∧
    NeedsNewControlPlaneTemplate currentSpec newClusterSpec vdc
      (cluster.VSphereDatacenter newClusterSpec) (Some cpVmc)
      (cluster.VSphereMachineConfigs newClusterSpec
         !! ref_Name (cp_MachineGroupRef
              (ControlPlaneConfiguration_ (cluster_Spec (cluster.Cluster newClusterSpec)))))
      = Some needsCP ∧
    (needsCP = false →
     ∃ kcp, GetKubeadmControlPlane providerKubectlClient workloadCluster (cluster_Name c)
              [executables.WithCluster bootstrapCluster;
               executables.WithNamespace EksaSystemNamespace] (kube w) = Ok kcp ∧
            cpName = kcp_InfrastructureRefName kcp) ∧
    workerTemplateNames_loop (cluster.workerNodeGroups newClusterSpec)
      bootstrapCluster workloadCluster currentSpec newClusterSpec vdc
      (cluster.BuildMapForWorkerNodeGroupsByName (cluster.workerNodeGroups currentSpec))
      (∅, ∅) w1 = (Ok names, w2) ∧
    quietly w w2 ∧
    etcdTemplateName_block bootstrapCluster workloadCluster currentSpec newClusterSpec
      c vdc w2 = (rb, w') ∧
    r = match rb with
        | Ok etcdName =>
          match GenerateCAPISpecControlPlane newClusterSpec cpName etcdName with
          | Ok cp =>
            match GenerateCAPISpecWorkers newClusterSpec names.1 names.2 with
            | Ok ws => Ok (cp, ws)
            | Err e => Err e
            | Panic => Panic
            end
          | Err e => Err e
          | Panic => Panic
          end
        | Err e => Err e
        | Panic => Panic
        end.
Proof.
  intros H. unfold generateCAPISpecForUpgrade in H.
  assert (Hfail : ∀ wi, quietly w wi → quietly wi w' → (∀ b, r ≠ Ok b) →
            quietly w w' ∧ ∀ specs, r ≠ Ok specs).
  { intros wi Hq1 Hq2 Hno. split; [by eapply quietly_trans|done]. }
  apply bind_inv in H as [(c & w1 & Hc & H)|(Hno & r0 & Hr0 & _)].
  2:{ left. eapply (Hfail w); [apply quietly_refl|by eapply quiet_kubectlGet|done]. }
  apply kubectlGet_inv in Hc as [-> Hc].
  apply bind_inv in H as [(vdc & w1 & Hvdc & H)|(Hno & r0 & Hr0 & _)].
  2:{ left. eapply (Hfail w); [apply quietly_refl|by eapply quiet_kubectlGet|done]. }
  apply kubectlGet_inv in Hvdc as [-> Hvdc].
  apply bind_inv in H as [(cpVmc & w1 & Hvmc & H)|(Hno & r0 & Hr0 & _)].
  2:{ left. eapply (Hfail w); [apply quietly_refl|by eapply quiet_kubectlGet|done]. }
  apply kubectlGet_inv in Hvmc as [-> Hvmc].
  apply bind_inv in H as [(needsCP & w1 & Hneeds & H)|(Hno & r0 & Hr0 & _)].
  2:{ left. eapply (Hfail w); [apply quietly_refl|by eapply quiet_deref|done]. }
  apply deref_inv in Hneeds as [-> Hneeds]. specialize (Hneeds _ eq_refl).
  assert (Hqcp : ∀ b : bool, quiet
    (if b then
       cp <- kubectlGet (GetKubeadmControlPlane providerKubectlClient workloadCluster
               (cluster_Name c)
               [executables.WithCluster bootstrapCluster;
                executables.WithNamespace EksaSystemNamespace]) ;;
       ret (kcp_InfrastructureRefName cp)
     else mint CPMachineTemplate
            (CPMachineTemplateName (cluster_Name (cluster.Cluster newClusterSpec))))).
  { intros [|]; [|by apply quiet_mint].
    apply quiet_bind; [apply quiet_kubectlGet|intros; apply quiet_ret]. }
  apply bind_inv in H as [(cpName & w1 & Hcp & H)|(Hno & r0 & Hr0 & _)].
  2:{ left. eapply (Hfail w); [apply quietly_refl|by eapply Hqcp|done]. }
  assert (Hkcp : needsCP = false →
    ∃ kcp, GetKubeadmControlPlane providerKubectlClient workloadCluster (cluster_Name c)
             [executables.WithCluster bootstrapCluster;
              executables.WithNamespace EksaSystemNamespace] (kube w) = Ok kcp ∧
           cpName = kcp_InfrastructureRefName kcp).
  { intros ->. simpl in Hcp.
    apply bind_inv in Hcp as [(kcp & w0 & [-> Hk]%kubectlGet_inv & [= <- _])
                             |(Hno & _)]; [by exists kcp|by destruct (Hno cpName)]. }
  apply Hqcp in Hcp.
  apply bind_inv in H as [(names & w2 & Hloop & H)|(Hno & r0 & Hr0 & _)].
  2:{ left. eapply (Hfail w1); [done|by eapply quiet_workerTemplateNames_loop|done]. }
  pose proof (quiet_workerTemplateNames_loop _ _ _ _ _ _ _ _ _ _ _ Hloop) as Hqloop.
  right. exists c, vdc, cpVmc, needsCP, cpName, names, w1, w2.
  apply bind_inv_result in H
    as [(etcdName & w3 & Hblock & H)|[(e & Hblock & ->)|[Hblock ->]]].
  - exists (Ok etcdName).
    assert (w' = w3) as ->.
    { unfold bind, ret in H.
      destruct (GenerateCAPISpecControlPlane newClusterSpec cpName etcdName);
        [destruct (GenerateCAPISpecWorkers newClusterSpec names.1 names.2)|..];
        by injection H. }
    do 6 (split; [done|]). split; [by eapply quietly_trans|]. split; [done|].
    unfold bind, ret in H.
    destruct (GenerateCAPISpecControlPlane newClusterSpec cpName etcdName);
      [destruct (GenerateCAPISpecWorkers newClusterSpec names.1 names.2)|..];
      by injection H.
  - exists (Err e).
    do 6 (split; [done|]). split; [by eapply quietly_trans|]. by split.
  - exists Panic.
    do 6 (split; [done|]). split; [by eapply quietly_trans|]. by split.
Qed.

Lemma wrapErr_inv {A} prefix (m : M A) w r w' :
  wrapErr prefix m w = (r, w') →
  ∃ r0, m w = (r0, w') ∧
    match r0 with
    | Ok a => r = Ok a
    | Err e => r = Err (prefix +:+ e)
    | Panic => r = Panic
    end.
Proof.
  unfold wrapErr. destruct (m w) as [[a|e|] w0]; intros [= <- <-]; by eexists.
Qed.

(** Without the need for a new etcd template the etcd block does nothing to
    the world. *)
Lemma etcdTemplateName_block_not_required bootstrapCluster workloadCluster
    currentSpec newClusterSpec c vdc w rb w' :
  etcdTemplateName_block bootstrapCluster workloadCluster currentSpec newClusterSpec c vdc w
    = (rb, w') →
  ¬ needsNewEtcdTemplateAt workloadCluster currentSpec newClusterSpec c vdc (kube w) →
  w' = w.
Proof.
  unfold etcdTemplateName_block, needsNewEtcdTemplateAt.
  destruct (ExternalEtcdConfiguration_ (cluster_Spec (cluster.Cluster newClusterSpec)))
    as [newEtcd|] eqn:Hnew; [|by intros [= _ <-]].
  intros [(prevEtcd & w1 & Hprev & H)|(_ & r0 & [-> _]%deref_inv & _)]%bind_inv Hnot;
    [|done].
  apply deref_inv in Hprev as [-> Hprev]. specialize (Hprev _ eq_refl).
  apply bind_inv in H as [(etcdVmc & w1 & [-> Hvmc]%kubectlGet_inv & H)
                         |(_ & r0 & [-> _]%kubectlGet_inv & _)]; [|done].
  apply bind_inv in H as [(needsNew & w1 & Hneeds & H)|(_ & r0 & [-> _]%deref_inv & _)];
    [|done].
  apply deref_inv in Hneeds as [-> Hneeds]. specialize (Hneeds _ eq_refl).
  destruct needsNew; simpl in H.
  - exfalso. apply Hnot. by exists newEtcd, prevEtcd, etcdVmc.
  - by apply bind_inv in H as [(e & w1 & [-> _]%kubectlGet_inv & [= _ <-])
                               |(_ & r0 & [-> _]%kubectlGet_inv & _)].
Qed.



(** X13.  Unless a new etcd template is required, [GenerateCAPISpecForUpgrade]
    writes nothing to the cluster: the state behind the client is the one
    before, and the events of the run contain no call of [UpdateAnnotation]
    and no minted etcd template name. *)
Theorem GenerateCAPISpecForUpgrade_writes_only_for_new_etcd_template
    p bootstrapCluster workloadCluster currentSpec newClusterSpec w r w' :
  ¬ etcdTemplateRequired workloadCluster currentSpec newClusterSpec (kube w) →
  GenerateCAPISpecForUpgrade p bootstrapCluster workloadCluster currentSpec newClusterSpec w
    = (r, w') →
  kube w' = kube w ∧
  ∃ evs, log w' = log w ++ evs ∧
    ∀ e, e ∈ evs →
      (∀ resourceType objectName annotations opts a,
         e ≠ EvUpdateAnnotation resourceType objectName annotations opts a) ∧
      (∀ name, e ≠ EvMintTemplateName EtcdMachineTemplate name).
Proof.
  intros Hnot [r0 [Hrun _]]%wrapErr_inv.
  assert (Hq : quietly w w').
  { apply generateCAPISpecForUpgrade_inv in Hrun
      as [[Hq _]|(c & vdc & cpVmc & needsCP & cpName & names & w1 & w2 & rb
                  & Hc & Hvdc & _ & _ & _ & _ & Hq & Hblock & _)]; [done|].
    apply etcdTemplateName_block_not_required in Hblock as ->; [done|].
    intros Hat. apply Hnot. exists c, vdc. destruct Hq as [Hk _].
    rewrite Hk in Hat. by split; [|split]. }
  destruct Hq as [Hk (evs & Hlog & Hquiet)]. split; [done|].
  exists evs. split; [done|]. intros e He.
  pose proof (proj1 (Forall_forall _ _) Hquiet e He) as Hqe.
  split; intros; intros ->; exact Hqe.
Qed.

(** X14.  An upgrade whose new spec configures external etcd for a cluster
    that runs without it returns no specs from [GenerateCAPISpecForUpgrade]:
    the machine group of the etcd of the running cluster is read through a
    nil pointer. *)
Theorem GenerateCAPISpecForUpgrade_new_external_etcd
    p bootstrapCluster workloadCluster currentSpec newClusterSpec w r w' c newEtcd :
  GetEksaCluster providerKubectlClient workloadCluster
    (cluster_Name (cluster.Cluster newClusterSpec)) (kube w) = Ok c →
  ExternalEtcdConfiguration_ (cluster_Spec (cluster.Cluster newClusterSpec)) = Some newEtcd →
  ExternalEtcdConfiguration_ (cluster_Spec c) = None →
  GenerateCAPISpecForUpgrade p bootstrapCluster workloadCluster currentSpec newClusterSpec w
    = (r, w') →
  ∀ specs, r ≠ Ok specs.
Proof.
  intros Hc Hnew Hprev [r0 [Hrun Hr]]%wrapErr_inv.
  assert (Hr0 : ∀ specs, r0 ≠ Ok specs).
  { apply generateCAPISpecForUpgrade_inv in Hrun
      as [[_ Hno]|(c' & vdc & cpVmc & needsCP & cpName & names & w1 & w2 & rb
                   & Hc' & _ & _ & _ & _ & _ & _ & Hblock & ->)]; [done|].
    rewrite Hc in Hc'. injection Hc' as <-.
    unfold etcdTemplateName_block in Hblock. rewrite Hnew, Hprev in Hblock.
    by injection Hblock as <- _. }
  destruct r0 as [specs|e|]; [by destruct (Hr0 specs)|by subst r..].
Qed.

(** X15.  When the control plane machine config that the new spec refers to
    is not among its machine configs, and Kubernetes version, endpoint host
    and bundle number are unchanged, [GenerateCAPISpecForUpgrade] panics
    after its three reads, with nothing written: [AnyImmutableFieldChanged]
    is reached with a nil machine config. *)
Theorem GenerateCAPISpecForUpgrade_missing_control_plane_machine_config
    p bootstrapCluster workloadCluster currentSpec newClusterSpec w c vdc cpVmc :
  GetEksaCluster providerKubectlClient workloadCluster
    (cluster_Name (cluster.Cluster newClusterSpec)) (kube w) = Ok c →
  GetEksaVSphereDatacenterConfig providerKubectlClient
    (vdc_Name (cluster.VSphereDatacenter newClusterSpec))
    (types.KubeconfigFile workloadCluster)
    (cluster_Namespace (cluster.Cluster newClusterSpec)) (kube w) = Ok vdc →
  GetEksaVSphereMachineConfig providerKubectlClient
    (ref_Name (cp_MachineGroupRef (ControlPlaneConfiguration_ (cluster_Spec c))))
    (types.KubeconfigFile workloadCluster)
    (cluster_Namespace (cluster.Cluster newClusterSpec)) (kube w) = Ok cpVmc →
  cluster.VSphereMachineConfigs newClusterSpec
    !! ref_Name (cp_MachineGroupRef
         (ControlPlaneConfiguration_ (cluster_Spec (cluster.Cluster newClusterSpec))))
    = None →
  cluster.kubernetesVersion currentSpec = cluster.kubernetesVersion newClusterSpec →
  cluster.endpointHost currentSpec = cluster.endpointHost newClusterSpec →
  cluster.bundleNumber currentSpec = cluster.bundleNumber newClusterSpec →
  GenerateCAPISpecForUpgrade p bootstrapCluster workloadCluster currentSpec newClusterSpec w
    = (Panic, w).
Proof.
  intros Hc Hvdc Hvmc Hnone Hv Hh Hn.
  unfold GenerateCAPISpecForUpgrade, wrapErr, generateCAPISpecForUpgrade.
  unfold bind at 1, kubectlGet at 1. rewrite Hc.
  unfold bind at 1, kubectlGet at 1. rewrite Hvdc.
  unfold bind at 1, kubectlGet at 1. rewrite Hvmc.
  unfold bind at 1. rewrite Hnone.
  unfold NeedsNewControlPlaneTemplate. by rewrite Hv, Hh, Hn, !neq_refl.
Qed.

(** X16.  The workers spec that [GenerateCAPISpecForUpgrade] returns was
    rendered with a machine template name and a bootstrap config template
    name for every worker node group of the new spec, and for no other
    name. *)
Theorem GenerateCAPISpecForUpgrade_names_every_worker_node_group
    p bootstrapCluster workloadCluster currentSpec newClusterSpec w w'
    controlPlaneSpec workersSpec :
  GenerateCAPISpecForUpgrade p bootstrapCluster workloadCluster currentSpec newClusterSpec w
    = (Ok (controlPlaneSpec, workersSpec), w') →
  ∃ workloadTemplateNames kubeadmconfigTemplateNames : gmap string string,
    GenerateCAPISpecWorkers newClusterSpec workloadTemplateNames kubeadmconfigTemplateNames
      = Ok workersSpec ∧
    dom workloadTemplateNames
      = list_to_set (wng_Name <$> cluster.workerNodeGroups newClusterSpec) ∧
    dom kubeadmconfigTemplateNames
      = list_to_set (wng_Name <$> cluster.workerNodeGroups newClusterSpec).
Proof.
  intros [r0 [Hrun Hr]]%wrapErr_inv.
  destruct r0 as [specs|e|]; [injection Hr as <-|discriminate..].
  apply generateCAPISpecForUpgrade_inv in Hrun
    as [[_ Hno]|(c & vdc & cpVmc & needsCP & cpName & names & w1 & w2 & rb
                 & _ & _ & _ & _ & _ & Hloop & _ & _ & Hr)];
    [by destruct (Hno (controlPlaneSpec, workersSpec))|].
  apply workerTemplateNames_loop_dom in Hloop as [H1 H2]. simpl in H1, H2.
  rewrite dom_empty_L, union_empty_l_L in H1, H2.
  exists names.1, names.2. split; [|done].
  destruct rb as [etcdName|e|]; [|discriminate..].
  destruct (GenerateCAPISpecControlPlane newClusterSpec cpName etcdName); [|discriminate..].
  destruct (GenerateCAPISpecWorkers newClusterSpec names.1 names.2); [|discriminate..].
  congruence.
Qed.

Lemma etcdTemplateName_block_reuse bootstrapCluster workloadCluster
    currentSpec newClusterSpec c vdc w newEtcd prevEtcd etcdVmc etcdadmCluster :
  ExternalEtcdConfiguration_ (cluster_Spec (cluster.Cluster newClusterSpec)) = Some newEtcd →
  ExternalEtcdConfiguration_ (cluster_Spec c) = Some prevEtcd →
  GetEksaVSphereMachineConfig providerKubectlClient
    (ref_Name (etcd_MachineGroupRef prevEtcd)) (types.KubeconfigFile workloadCluster)
    (cluster_Namespace (cluster.Cluster newClusterSpec)) (kube w) = Ok etcdVmc →
  NeedsNewEtcdTemplate currentSpec newClusterSpec vdc
    (cluster.VSphereDatacenter newClusterSpec) (Some etcdVmc)
    (cluster.VSphereMachineConfigs newClusterSpec !! ref_Name (etcd_MachineGroupRef newEtcd))
    = Some false →
  GetEtcdadmCluster providerKubectlClient workloadCluster
    (cluster_Name (cluster.Cluster newClusterSpec))
    [executables.WithCluster bootstrapCluster;
     executables.WithNamespace EksaSystemNamespace] (kube w) = Ok etcdadmCluster →
  etcdTemplateName_block bootstrapCluster workloadCluster currentSpec newClusterSpec c vdc w
    = (Ok (etcdadm_InfrastructureTemplateName etcdadmCluster), w).
Proof.
  intros Hnew Hprev Hvmc Hneeds Hetcd.
  unfold etcdTemplateName_block. rewrite Hnew, Hprev.
  unfold bind, deref, kubectlGet, ret. simpl.
  rewrite Hvmc, Hneeds. simpl. by rewrite Hetcd.
Qed.

(** X17.  [GenerateCAPISpecForUpgrade] reuses the template names of the
    running cluster.  In a run that returns specs: if the control plane
    decider said no, the control plane spec was rendered with the name of
    the machine template that the KubeadmControlPlane of the cluster refers
    to; if external etcd is configured and the etcd decider said no, it was
    rendered with the name of the infrastructure template of the
    EtcdadmCluster. *)
Theorem GenerateCAPISpecForUpgrade_reuses_template_names
    p bootstrapCluster workloadCluster currentSpec newClusterSpec w w'
    controlPlaneSpec workersSpec c vdc :
  GenerateCAPISpecForUpgrade p bootstrapCluster workloadCluster currentSpec newClusterSpec w
    = (Ok (controlPlaneSpec, workersSpec), w') →
  GetEksaCluster providerKubectlClient workloadCluster
    (cluster_Name (cluster.Cluster newClusterSpec)) (kube w) = Ok c →
  GetEksaVSphereDatacenterConfig providerKubectlClient
    (vdc_Name (cluster.VSphereDatacenter newClusterSpec))
    (types.KubeconfigFile workloadCluster)
    (cluster_Namespace (cluster.Cluster newClusterSpec)) (kube w) = Ok vdc →
  (∀ cpVmc kcp,
     GetEksaVSphereMachineConfig providerKubectlClient
       (ref_Name (cp_MachineGroupRef (ControlPlaneConfiguration_ (cluster_Spec c))))
       (types.KubeconfigFile workloadCluster)
       (cluster_Namespace (cluster.Cluster newClusterSpec)) (kube w) = Ok cpVmc →
     NeedsNewControlPlaneTemplate currentSpec newClusterSpec vdc
       (cluster.VSphereDatacenter newClusterSpec) (Some cpVmc)
       (cluster.VSphereMachineConfigs newClusterSpec
          !! ref_Name (cp_MachineGroupRef
               (ControlPlaneConfiguration_ (cluster_Spec (cluster.Cluster newClusterSpec)))))
       = Some false →
     GetKubeadmControlPlane providerKubectlClient workloadCluster (cluster_Name c)
       [executables.WithCluster bootstrapCluster;
        executables.WithNamespace EksaSystemNamespace] (kube w) = Ok kcp →
     ∃ etcdTemplateName,
       GenerateCAPISpecControlPlane newClusterSpec (kcp_InfrastructureRefName kcp)
         etcdTemplateName = Ok controlPlaneSpec) ∧
  (∀ newEtcd prevEtcd etcdVmc etcdadmCluster,
     ExternalEtcdConfiguration_ (cluster_Spec (cluster.Cluster newClusterSpec))
       = Some newEtcd →
     ExternalEtcdConfiguration_ (cluster_Spec c) = Some prevEtcd →
     GetEksaVSphereMachineConfig providerKubectlClient
       (ref_Name (etcd_MachineGroupRef prevEtcd)) (types.KubeconfigFile workloadCluster)
       (cluster_Namespace (cluster.Cluster newClusterSpec)) (kube w) = Ok etcdVmc →
     NeedsNewEtcdTemplate currentSpec newClusterSpec vdc
       (cluster.VSphereDatacenter newClusterSpec) (Some etcdVmc)
       (cluster.VSphereMachineConfigs newClusterSpec
          !! ref_Name (etcd_MachineGroupRef newEtcd))
       = Some false →
     GetEtcdadmCluster providerKubectlClient workloadCluster
       (cluster_Name (cluster.Cluster newClusterSpec))
       [executables.WithCluster bootstrapCluster;
        executables.WithNamespace EksaSystemNamespace] (kube w) = Ok etcdadmCluster →
     ∃ controlPlaneTemplateName,
       GenerateCAPISpecControlPlane newClusterSpec controlPlaneTemplateName
         (etcdadm_InfrastructureTemplateName etcdadmCluster) = Ok controlPlaneSpec).
Proof.
  intros [r0 [Hrun Hr]]%wrapErr_inv Hc Hvdc.
  destruct r0 as [specs|e|]; [injection Hr as <-|discriminate..].
  apply generateCAPISpecForUpgrade_inv in Hrun
    as [[_ Hno]|(c' & vdc' & cpVmc' & needsCP & cpName & names & w1 & w2 & rb
                 & Hc' & Hvdc' & Hvmc' & Hneeds & Hkcp & _ & [Hk _] & Hblock & Hr)];
    [by destruct (Hno (controlPlaneSpec, workersSpec))|].
  rewrite Hc in Hc'. injection Hc' as <-. rewrite Hvdc in Hvdc'. injection Hvdc' as <-.
  destruct rb as [etcdName|e|]; [|discriminate..].
  destruct (GenerateCAPISpecControlPlane newClusterSpec cpName etcdName) as [cp| |] eqn:Hcp;
    [|discriminate..].
  destruct (GenerateCAPISpecWorkers newClusterSpec names.1 names.2); [|discriminate..].
  injection Hr as <- _. split.
  - intros cpVmc kcp Hvmc Hfalse Hget.
    rewrite Hvmc in Hvmc'. injection Hvmc' as <-.
    rewrite Hfalse in Hneeds. injection Hneeds as <-.
    destruct (Hkcp eq_refl) as (kcp' & Hget' & ->).
    rewrite Hget in Hget'. injection Hget' as <-. by exists etcdName.
  - intros newEtcd prevEtcd etcdVmc etcdadmCluster Hnew Hprev Hvmc Hfalse Hget.
    rewrite <- Hk in Hvmc, Hget.
    rewrite (etcdTemplateName_block_reuse _ _ _ _ _ _ _ _ _ _ _ Hnew Hprev Hvmc Hfalse Hget)
      in Hblock.
    injection Hblock as <- _. by exists cpName.
Qed.

(** *** Spec generation for a create *)

Lemma createTemplateNames_loop_run groups clusterName :
  ∀ names w, ∃ names' evs,
    createTemplateNames_loop groups clusterName names w =
      (Ok names',
       mkWorld (kube w) (writer w) (environ w) (ticks w + 2 * length groups)
         (log w ++ evs)) ∧
    Forall mintEvent evs ∧
    length evs = (2 * length groups)%nat ∧
    dom names'.1 = dom names.1 ∪ list_to_set (wng_Name <$> groups) ∧
    dom names'.2 = dom names.2 ∪ list_to_set (wng_Name <$> groups).
Proof.
  induction groups as [|g groups IH]; intros names w.
  - exists names, []. simpl. rewrite !union_empty_r_L, app_nil_r, Nat.add_0_r.
    by destruct w.
  - simpl. unfold bind at 1, mint at 1. unfold bind at 1, mint at 1. simpl.
    match goal with
    | |- context [createTemplateNames_loop groups clusterName ?n ?w0] =>
        destruct (IH n w0) as (names' & evs & -> & Hmint & Hlen & H1 & H2)
    end.
    simpl in *. eexists names', (_ :: _ :: evs).
    split; [|split; [|split; [|split]]].
    + f_equal. f_equal; [lia|]. by rewrite <- !app_assoc.
    + repeat constructor; done.
    + simpl. lia.
    + rewrite H1, dom_insert_L.
      rewrite !(comm_L (∪) {[wng_Name g]} (dom _)), <- !(assoc_L (∪)). done.
    + rewrite H2, dom_insert_L.
      rewrite !(comm_L (∪) {[wng_Name g]} (dom _)), <- !(assoc_L (∪)). done.
Qed.

Lemma createTemplateNames_loop_clock groups clusterName :
  ∀ names w1 w2, ticks w1 = ticks w2 →
    (createTemplateNames_loop groups clusterName names w1).1
    = (createTemplateNames_loop groups clusterName names w2).1.
Proof.
  induction groups as [|g groups IH]; intros names w1 w2 Ht; [done|].
  simpl. unfold bind at 1 3, mint at 1 3. unfold bind at 1 2, mint at 1 2. simpl.
  rewrite Ht. by apply IH.
Qed.

Lemma generateCAPISpecForCreate_run (p : vsphereProvider) (clusterSpec : cluster.Spec)
    (w : World) :
  ∃ r evs,
    generateCAPISpecForCreate p clusterSpec w =
      (r, mkWorld (kube w) (writer w) (environ w) (ticks w + length evs) (log w ++ evs)) ∧
    Forall mintEvent evs.
Proof.
  unfold generateCAPISpecForCreate.
  unfold bind at 1, mint at 1. unfold bind at 1, mint at 1. unfold bind at 1. simpl.
  destruct (GenerateCAPISpecControlPlane clusterSpec _ _) as [cp|e|].
  2,3: (eexists _, [_; _];
        split; [simpl; f_equal; f_equal; [lia|by rewrite <- app_assoc]|];
        by repeat constructor).
  unfold bind at 1.
  match goal with
  | |- context [createTemplateNames_loop ?gs ?cn ?n ?w0] =>
      destruct (createTemplateNames_loop_run gs cn n w0)
        as (names' & evs & -> & Hmint & Hlen & _)
  end.
  unfold bind, ret. simpl.
  destruct (GenerateCAPISpecWorkers clusterSpec names'.1 names'.2);
    (eexists _, (_ :: _ :: evs);
     split; [simpl; f_equal; f_equal; [lia|by rewrite <- !app_assoc]|];
     by repeat constructor).
Qed.

Lemma generateCAPISpecForCreate_clock (p : vsphereProvider) (clusterSpec : cluster.Spec)
    (w w2 : World) :
  ticks w2 = ticks w →
  (generateCAPISpecForCreate p clusterSpec w2).1
  = (generateCAPISpecForCreate p clusterSpec w).1.
Proof.
  intros Ht. unfold generateCAPISpecForCreate.
  unfold bind, mint, ret. simpl. rewrite Ht.
  destruct (GenerateCAPISpecControlPlane clusterSpec _ _) as [cp|e|]; simpl; [|done..].
  match goal with
  | |- context [createTemplateNames_loop ?gs ?cn ?n ?wa] =>
      match goal with
      | |- context [createTemplateNames_loop gs cn n ?wb] =>
          lazymatch wa with
          | wb => fail
          | _ => pose proof (createTemplateNames_loop_clock gs cn n wa wb eq_refl) as Hclock
          end
      end
  end.
  destruct (createTemplateNames_loop _ _ _ _) as [r1 wa].
  destruct (createTemplateNames_loop _ _ _ _) as [r2 wb].
  simpl in Hclock. subst r2.
  destruct r1 as [names|e|]; simpl; [|done..].
  by destruct (GenerateCAPISpecWorkers clusterSpec names.1 names.2).
Qed.

(** X18.  [GenerateCAPISpecForCreate] makes no use of the cluster, the files
    or the environment: they are left as they were, the events of a run are
    minted template names only, one per reading of the clock, and the result
    is the same from any two worlds whose clocks agree. *)
Theorem GenerateCAPISpecForCreate_uses_only_the_clock
    (p : vsphereProvider) (clusterSpec : cluster.Spec) (w : World) :
  (∃ r evs,
     GenerateCAPISpecForCreate p clusterSpec w =
       (r, mkWorld (kube w) (writer w) (environ w) (ticks w + length evs) (log w ++ evs)) ∧
     Forall mintEvent evs) ∧
  (∀ w2, ticks w2 = ticks w →
     (GenerateCAPISpecForCreate p clusterSpec w2).1
     = (GenerateCAPISpecForCreate p clusterSpec w).1).
Proof.
  unfold GenerateCAPISpecForCreate, wrapErr. split.
  - destruct (generateCAPISpecForCreate_run p clusterSpec w) as (r & evs & -> & Hmint).
    destruct r; by eexists _, evs.
  - intros w2 Ht. pose proof (generateCAPISpecForCreate_clock p clusterSpec w w2 Ht) as H.
    destruct (generateCAPISpecForCreate p clusterSpec w2) as [r2 wb].
    destruct (generateCAPISpecForCreate p clusterSpec w) as [r1 wa].
    simpl in H. subst r2. by destruct r1.
Qed.

(** X19.  A create that returns specs read the clock twice and then twice
    per worker node group; the control plane spec was rendered with the
    names minted from the first two readings, and the workers spec with a
    machine template name and a bootstrap config template name for exactly
    the worker node groups of the spec. *)
Theorem GenerateCAPISpecForCreate_names
    (p : vsphereProvider) (clusterSpec : cluster.Spec) (w w' : World)
    controlPlaneSpec workersSpec :
  GenerateCAPISpecForCreate p clusterSpec w = (Ok (controlPlaneSpec, workersSpec), w') →
  let clusterName := cluster_Name (cluster.Cluster clusterSpec) in
  ticks w' = (ticks w + 2 + 2 * length (cluster.workerNodeGroups clusterSpec))%nat ∧
  GenerateCAPISpecControlPlane clusterSpec
    (CPMachineTemplateName clusterName (now (ticks w)))
    (EtcdMachineTemplateName clusterName (now (S (ticks w)))) = Ok controlPlaneSpec ∧
  ∃ workloadTemplateNames kubeadmconfigTemplateNames : gmap string string,
    GenerateCAPISpecWorkers clusterSpec workloadTemplateNames kubeadmconfigTemplateNames
      = Ok workersSpec ∧
    dom workloadTemplateNames
      = list_to_set (wng_Name <$> cluster.workerNodeGroups clusterSpec) ∧
    dom kubeadmconfigTemplateNames
      = list_to_set (wng_Name <$> cluster.workerNodeGroups clusterSpec).
Proof.
  intros [r0 [Hrun Hr]]%wrapErr_inv clusterName.
  destruct r0 as [specs|e|]; [injection Hr as <-|discriminate..].
  unfold generateCAPISpecForCreate in Hrun. fold clusterName in Hrun.
  unfold bind at 1, mint at 1 in Hrun. unfold bind at 1, mint at 1 in Hrun.
  unfold bind at 1 in Hrun. simpl in Hrun.
  destruct (GenerateCAPISpecControlPlane clusterSpec _ _) as [cp|e|] eqn:Hcp;
    [|discriminate..].
  unfold bind at 1 in Hrun.
  match type of Hrun with
  | context [createTemplateNames_loop ?gs ?cn ?n ?w0] =>
      destruct (createTemplateNames_loop_run gs cn n w0)
        as (names' & evs & Hloop & _ & _ & H1 & H2)
  end.
  rewrite Hloop in Hrun. unfold bind, ret in Hrun.
  destruct (GenerateCAPISpecWorkers clusterSpec names'.1 names'.2) as [ws|e|] eqn:Hws;
    [|discriminate..].
  injection Hrun as <- <- <-. simpl.
  split; [lia|]. split; [done|].
  exists names'.1, names'.2. simpl in H1, H2.
  rewrite dom_empty_L, union_empty_l_L in H1, H2. done.
Qed.

(** *** The environment *)

Lemma EnvMap_loop_spec keys :
  ∀ envMap env,
    match EnvMap_loop keys envMap env with
    | (m, Ok _) =>
        Forall (envSet env) keys ∧
        ∀ k, m !! k = if decide (k ∈ keys) then env !! k else envMap !! k
    | (m, Err e) =>
        ∃ pre key post,
          keys = pre ++ key :: post ∧ Forall (envSet env) pre ∧ ¬ envSet env key ∧
          e = "warning required env not set " +:+ key ∧
          ∀ k, m !! k = if decide (k ∈ pre) then env !! k else envMap !! k
    | (m, Panic) => False
    end.
Proof.
  assert (Hstep : ∀ (a : string) l (m envMap env : gmap string string) value,
    env !! a = Some value →
    (∀ k, m !! k = if decide (k ∈ l) then env !! k else <[a:=value]> envMap !! k) →
    ∀ k, m !! k = if decide (k ∈ a :: l) then env !! k else envMap !! k).
  { intros a l m envMap env value Ha Hm k. rewrite Hm.
    destruct (decide (k ∈ l)) as [Hin|Hin], (decide (k ∈ a :: l)) as [Hin'|Hin'];
      rewrite elem_of_cons in Hin'; try done.
    - exfalso. tauto.
    - destruct Hin' as [->|?]; [|done]. by rewrite lookup_insert_eq.
    - rewrite lookup_insert_ne; [done|]. intros ->. tauto. }
  assert (Hstop : ∀ (a : string) l (envMap env : gmap string string),
    ¬ envSet env a →
    ∃ pre key post,
      a :: l = pre ++ key :: post ∧ Forall (envSet env) pre ∧ ¬ envSet env key ∧
      "warning required env not set " +:+ a = "warning required env not set " +:+ key ∧
      ∀ k, envMap !! k = if decide (k ∈ pre) then env !! k else envMap !! k).
  { intros a l envMap env Hunset. exists [], a, l.
    do 4 (split; [done|]). intros k. by destruct (decide (k ∈ [])) as [?%elem_of_nil|]. }
  induction keys as [|a keys IH]; intros envMap env; simpl.
  - split; [constructor|]. intros k. by destruct (decide (k ∈ [])) as [?%elem_of_nil|].
  - destruct (env !! a) as [value|] eqn:Ha.
    + case_bool_decide as Hlen.
      * specialize (IH (<[a:=value]> envMap) env).
        destruct (EnvMap_loop keys (<[a:=value]> envMap) env) as [m [[]|e|]]; [| |done].
        -- destruct IH as [Hall Hm]. split; [|by eapply Hstep].
           constructor; [by exists value|done].
        -- destruct IH as (pre & key & post & -> & Hpre & Hkey & -> & Hm).
           exists (a :: pre), key, post. split; [done|].
           split; [constructor; [by exists value|done]|].
           do 2 (split; [done|]). by eapply Hstep.
      * apply Hstop. intros (v & Hv & Hpos). congruence.
    + apply Hstop. intros (v & Hv & _). congruence.
Qed.

Lemma EnvMap_loop_first_unset pre key post :
  ∀ envMap env,
    Forall (envSet env) pre → ¬ envSet env key →
    ∃ m, EnvMap_loop (pre ++ key :: post) envMap env
           = (m, Err ("warning required env not set " +:+ key)) ∧
         ∀ k, m !! k = if decide (k ∈ pre) then env !! k else envMap !! k.
Proof.
  induction pre as [|a pre IH]; intros envMap env Hpre Hkey; simpl.
  - assert (Hm : ∀ k, envMap !! k = if decide (k ∈ []) then env !! k else envMap !! k).
    { intros k. by destruct (decide (k ∈ [])) as [?%elem_of_nil|]. }
    destruct (env !! key) as [value|] eqn:Hk; [|by eexists].
    case_bool_decide as Hlen; [|by eexists].
    destruct Hkey. by exists value.
  - apply Forall_cons in Hpre as [(value & Ha & Hlen) Hpre].
    rewrite Ha, bool_decide_eq_true_2 by done.
    destruct (IH (<[a:=value]> envMap) env Hpre Hkey) as (m & -> & Hm).
    exists m. split; [done|]. intros k. rewrite Hm.
    destruct (decide (k ∈ pre)) as [Hin|Hin], (decide (k ∈ a :: pre)) as [Hin'|Hin'];
      rewrite elem_of_cons in Hin'; try done.
    + exfalso. tauto.
    + destruct Hin' as [->|?]; [|done]. by rewrite lookup_insert_eq.
    + rewrite lookup_insert_ne; [done|]. intros ->. tauto.
Qed.

(** X20.  [EnvMap] returns without error exactly when the three required
    variables are set in the environment and none to the empty string; the
    map it then returns has those three variables, with their values from
    the environment, and nothing else. *)
Theorem EnvMap_ok_iff (p : vsphereProvider) (w : World) :
  ((EnvMap p w).2 = Ok tt ↔
   envSet (environ w) vSphereUsernameKey ∧ envSet (environ w) vSpherePasswordKey ∧
   envSet (environ w) expClusterResourceSetKey) ∧
  ((EnvMap p w).2 = Ok tt →
   ∀ key, (EnvMap p w).1 !! key
          = if decide (key ∈ requiredEnvs) then environ w !! key else None).
Proof.
  unfold EnvMap. pose proof (EnvMap_loop_spec requiredEnvs ∅ (environ w)) as H.
  destruct (EnvMap_loop requiredEnvs ∅ (environ w)) as [m [[]|e|]]; simpl; [| |done].
  - destruct H as [Hall Hm]. split.
    + split; [intros _|done].
      unfold requiredEnvs in Hall. rewrite !Forall_cons in Hall. tauto.
    + intros _ key. rewrite Hm. by destruct (decide _).
  - destruct H as (pre & key & post & Hkeys & _ & Hkey & _).
    split; [|done]. split; [done|]. intros (Hu & Hp & He). exfalso.
    assert (Hall : Forall (envSet (environ w)) requiredEnvs)
      by (by repeat constructor).
    rewrite Hkeys in Hall. apply Forall_app in Hall as [_ Hall].
    by apply Forall_cons in Hall as [? _].
Qed.

(** X21.  When a required variable is unset or empty and those before it in
    [requiredEnvs] are set, [EnvMap] returns the error that names this
    variable, together with the map of the variables before it: the map is
    not empty on error. *)
Theorem EnvMap_first_unset (p : vsphereProvider) (w : World) pre key post :
  requiredEnvs = pre ++ key :: post →
  Forall (envSet (environ w)) pre →
  ¬ envSet (environ w) key →
  (EnvMap p w).2 = Err ("warning required env not set " +:+ key) ∧
  ∀ k, (EnvMap p w).1 !! k = if decide (k ∈ pre) then environ w !! k else None.
Proof.
  intros Hkeys Hpre Hkey. unfold EnvMap. rewrite Hkeys.
  destruct (EnvMap_loop_first_unset pre key post ∅ (environ w) Hpre Hkey) as (m & -> & Hm).
  split; [done|]. intros k. rewrite Hm. by destruct (decide _).
Qed.

(** *** Names of machine configs on upgrade *)

(** X22.  When the new spec names the same control plane machine config as
    the cluster, and the same external etcd machine config where both have
    external etcd, [validateMachineConfigsNameUniqueness] accepts after the
    one read of the cluster: no search is made, so its outcome does not
    matter. *)
Theorem validateMachineConfigsNameUniqueness_unchanged_names
    p cluster clusterSpec w prevSpec :
  GetEksaCluster providerKubectlClient cluster
    (cluster_Name (cluster.Cluster clusterSpec)) (kube w) = Ok prevSpec →
  ref_Name (cp_MachineGroupRef (ControlPlaneConfiguration_ (cluster_Spec prevSpec)))
    = ref_Name (cp_MachineGroupRef
        (ControlPlaneConfiguration_ (cluster_Spec (cluster.Cluster clusterSpec)))) →
  (∀ newEtcd prevEtcd,
     ExternalEtcdConfiguration_ (cluster_Spec (cluster.Cluster clusterSpec)) = Some newEtcd →
     ExternalEtcdConfiguration_ (cluster_Spec prevSpec) = Some prevEtcd →
     ref_Name (etcd_MachineGroupRef prevEtcd) = ref_Name (etcd_MachineGroupRef newEtcd)) →
  validateMachineConfigsNameUniqueness p cluster clusterSpec w = (Ok tt, w).
Proof.
  intros Hc Hcp Hetcd. unfold validateMachineConfigsNameUniqueness.
  unfold bind at 1, kubectlGet at 1. rewrite Hc, Hcp, neq_refl.
  unfold bind at 1, ret at 1.
  destruct (ExternalEtcdConfiguration_ (cluster_Spec (cluster.Cluster clusterSpec)))
    as [newEtcd|]; [|done].
  destruct (ExternalEtcdConfiguration_ (cluster_Spec prevSpec)) as [prevEtcd|]; [|done].
  by rewrite (Hetcd _ _ eq_refl eq_refl), neq_refl.
Qed.

(** X23.  When the new spec names another control plane machine config than
    the cluster and the search finds a machine config of that name,
    [validateMachineConfigsNameUniqueness] fails with the error that names
    it, whatever the external etcd configuration. *)
Theorem validateMachineConfigsNameUniqueness_control_plane_name_taken
    p cluster clusterSpec w prevSpec em :
  let cpMachineConfigName :=
    ref_Name (cp_MachineGroupRef
      (ControlPlaneConfiguration_ (cluster_Spec (cluster.Cluster clusterSpec)))) in
  GetEksaCluster providerKubectlClient cluster
    (cluster_Name (cluster.Cluster clusterSpec)) (kube w) = Ok prevSpec →
  ref_Name (cp_MachineGroupRef (ControlPlaneConfiguration_ (cluster_Spec prevSpec)))
    ≠ cpMachineConfigName →
  SearchVsphereMachineConfig cpMachineConfigName (types.KubeconfigFile cluster)
    (cluster_Namespace (cluster.Cluster clusterSpec)) (kube w) = Ok em →
  em ≠ [] →
  validateMachineConfigsNameUniqueness p cluster clusterSpec w
    = (Err ("control plane VSphereMachineConfig " +:+ cpMachineConfigName
            +:+ " already exists"), w).
Proof.
  intros name Hc Hcp Hsearch Hem. unfold validateMachineConfigsNameUniqueness.
  unfold bind at 1, kubectlGet at 1. rewrite Hc.
  fold name. rewrite (neq_true_2 _ _ Hcp).
  unfold bind at 1. unfold bind at 1, kubectlGet at 1. rewrite Hsearch.
  rewrite bool_decide_eq_true_2; [done|]. destruct em; [done|simpl; lia].
Qed.

(** X24.  The name of the external etcd machine config is searched with the
    kubeconfig of the management cluster of the spec, not with that of the
    cluster at hand: when the control plane check passes, both the cluster
    and the new spec have external etcd, the names differ and that search
    finds a machine config, the error names it. *)
Theorem validateMachineConfigsNameUniqueness_etcd_name_taken
    p cluster clusterSpec w prevSpec newEtcd prevEtcd em :
  let cpMachineConfigName :=
    ref_Name (cp_MachineGroupRef
      (ControlPlaneConfiguration_ (cluster_Spec (cluster.Cluster clusterSpec)))) in
  GetEksaCluster providerKubectlClient cluster
    (cluster_Name (cluster.Cluster clusterSpec)) (kube w) = Ok prevSpec →
  (ref_Name (cp_MachineGroupRef (ControlPlaneConfiguration_ (cluster_Spec prevSpec)))
     = cpMachineConfigName ∨
   SearchVsphereMachineConfig cpMachineConfigName (types.KubeconfigFile cluster)
     (cluster_Namespace (cluster.Cluster clusterSpec)) (kube w) = Ok []) →
  ExternalEtcdConfiguration_ (cluster_Spec (cluster.Cluster clusterSpec)) = Some newEtcd →
  ExternalEtcdConfiguration_ (cluster_Spec prevSpec) = Some prevEtcd →
  ref_Name (etcd_MachineGroupRef prevEtcd) ≠ ref_Name (etcd_MachineGroupRef newEtcd) →
  SearchVsphereMachineConfig (ref_Name (etcd_MachineGroupRef newEtcd))
    (types.KubeconfigFile (cluster.ManagementCluster clusterSpec))
    (cluster_Namespace (cluster.Cluster clusterSpec)) (kube w) = Ok em →
  em ≠ [] →
  validateMachineConfigsNameUniqueness p cluster clusterSpec w
    = (Err ("external etcd machineconfig " +:+ ref_Name (etcd_MachineGroupRef newEtcd)
            +:+ " already exists"), w).
Proof.
  intros name Hc Hcp Hnew Hprev Hetcd Hsearch Hem.
  unfold validateMachineConfigsNameUniqueness.
  unfold bind at 1, kubectlGet at 1. rewrite Hc. fold name.
  assert (Hfirst :
    (if neq (ref_Name (cp_MachineGroupRef
               (ControlPlaneConfiguration_ (cluster_Spec prevSpec)))) name
     then
       em0 <- kubectlGet (SearchVsphereMachineConfig name
                (types.KubeconfigFile cluster)
                (cluster_Namespace (cluster.Cluster clusterSpec))) ;;
       if bool_decide (0 < length em0)%nat then
         fail ("control plane VSphereMachineConfig " +:+ name +:+ " already exists")
       else ret tt
     else ret tt) w = (Ok tt, w)).
  { destruct (neq _ name) eqn:Hneq; [|done].
    destruct Hcp as [Hcp|Hcp]; [by apply neq_true in Hneq|].
    unfold bind, kubectlGet. by rewrite Hcp. }
  unfold bind at 1. rewrite Hfirst, Hnew, Hprev, (neq_true_2 _ _ Hetcd).
  unfold bind, kubectlGet. rewrite Hsearch.
  rewrite bool_decide_eq_true_2; [done|]. destruct em; [done|simpl; lia].
Qed.

(** *** The machine configs of a spec *)

Ltac solve_sublist :=
  let x := fresh in let Hx := fresh in
  intros x Hx;
  repeat (rewrite elem_of_cons in Hx || rewrite elem_of_app in Hx);
  repeat (rewrite elem_of_cons || rewrite elem_of_app);
  pose proof (not_elem_of_nil x); unfold not in *; simpl in *; intuition auto.

Lemma keptBut_refl names spec : keptBut names spec spec.
Proof. by repeat split. Qed.

Lemma keptBut_trans names spec1 spec2 spec3 :
  keptBut names spec1 spec2 → keptBut names spec2 spec3 → keptBut names spec1 spec3.
Proof.
  intros (Hc1 & Hd1 & Hk1) (Hc2 & Hd2 & Hk2). split; [congruence|].
  split; [congruence|]. intros name Hname. by rewrite Hk2, Hk1.
Qed.

Lemma keptBut_weaken names names' spec spec' :
  names ⊆ names' → keptBut names spec spec' → keptBut names' spec spec'.
Proof.
  intros Hsub (Hc & Hd & Hk). do 2 (split; [done|]).
  intros name Hname. apply Hk. intros Hin. by apply Hname, Hsub.
Qed.

Lemma keptBut_insert spec name mc :
  is_Some (cluster.VSphereMachineConfigs spec !! name) →
  keptBut [name] spec
    (withVSphereMachineConfigs spec (<[name := mc]> (cluster.VSphereMachineConfigs spec))).
Proof.
  intros Hin. split; [done|]. split; simpl.
  - by apply dom_insert_lookup_L.
  - intros k Hk. rewrite lookup_insert_ne; [done|]. intros ->. apply Hk. by left.
Qed.

Lemma keptBut_is_Some names spec spec' name :
  keptBut names spec spec' →
  is_Some (cluster.VSphereMachineConfigs spec' !! name)
  ↔ is_Some (cluster.VSphereMachineConfigs spec !! name).
Proof. intros (_ & Hd & _). by rewrite <- !elem_of_dom, Hd. Qed.

Lemma setMachineConfigManagedBy_spec spec name :
  match setMachineConfigManagedBy spec name with
  | Some spec' =>
      is_Some (cluster.VSphereMachineConfigs spec !! name) ∧ keptBut [name] spec spec'
  | None => cluster.VSphereMachineConfigs spec !! name = None
  end.
Proof.
  unfold setMachineConfigManagedBy.
  destruct (cluster.VSphereMachineConfigs spec !! name) as [mc|] eqn:Hmc; simpl; [|done].
  split; [done|]. apply keptBut_insert. by rewrite Hmc.
Qed.

Lemma annotateMachineConfig_spec spec name key value :
  match annotateMachineConfig spec name key value with
  | Some spec' =>
      is_Some (cluster.VSphereMachineConfigs spec !! name) ∧ keptBut [name] spec spec'
  | None => cluster.VSphereMachineConfigs spec !! name = None
  end.
Proof.
  unfold annotateMachineConfig.
  destruct (cluster.VSphereMachineConfigs spec !! name) as [mc|] eqn:Hmc; simpl; [|done].
  match goal with
  | |- context [setMachineConfigManagedBy ?s name] =>
      pose proof (setMachineConfigManagedBy_spec s name) as H;
      destruct (setMachineConfigManagedBy s name) as [spec'|]
  end.
  - destruct H as [_ H]. split; [done|].
    eapply keptBut_trans; [|exact H]. apply keptBut_insert. by rewrite Hmc.
  - simpl in H. by rewrite lookup_insert_eq in H.
Qed.

Lemma setMachineConfigManagedBy_foldl groups :
  ∀ spec,
    match foldl (λ acc (g : WorkerNodeGroupConfiguration),
                   spec' ← acc;
                   setMachineConfigManagedBy spec' (ref_Name (wng_MachineGroupRef g)))
                (Some spec) groups with
    | Some spec' =>
        Forall (λ g, is_Some (cluster.VSphereMachineConfigs spec
                                !! ref_Name (wng_MachineGroupRef g))) groups ∧
        keptBut ((λ g, ref_Name (wng_MachineGroupRef g)) <$> groups) spec spec'
    | None =>
        ¬ Forall (λ g, is_Some (cluster.VSphereMachineConfigs spec
                                  !! ref_Name (wng_MachineGroupRef g))) groups
    end.
Proof.
  induction groups as [|g groups IH]; intros spec; simpl.
  - split; [constructor|apply keptBut_refl].
  - pose proof (setMachineConfigManagedBy_spec spec (ref_Name (wng_MachineGroupRef g))) as H.
    destruct (setMachineConfigManagedBy spec (ref_Name (wng_MachineGroupRef g)))
      as [spec1|].
    + destruct H as [Hin Hk]. specialize (IH spec1).
      assert (Hall : Forall (λ g, is_Some (cluster.VSphereMachineConfigs spec1
                                !! ref_Name (wng_MachineGroupRef g))) groups
                     ↔ Forall (λ g, is_Some (cluster.VSphereMachineConfigs spec
                                !! ref_Name (wng_MachineGroupRef g))) groups).
      { apply Forall_iff. intros g'. apply (keptBut_is_Some _ _ _ _ Hk). }
      destruct (foldl _ (Some spec1) groups) as [spec'|].
      * destruct IH as [Hrest Hk']. split; [constructor; [done|by apply Hall]|].
        eapply keptBut_trans.
        -- eapply keptBut_weaken; [|exact Hk]. solve_sublist.
        -- eapply keptBut_weaken; [|exact Hk']. solve_sublist.
      * intros [_ Hrest]%Forall_cons. by apply IH, Hall.
    + assert (Hnone : foldl (λ acc (g : WorkerNodeGroupConfiguration),
                   spec' ← acc;
                   setMachineConfigManagedBy spec' (ref_Name (wng_MachineGroupRef g)))
                None groups = None) by (clear; by induction groups).
      rewrite Hnone. intros [Hin _]%Forall_cons. rewrite H in Hin. by destruct Hin.
Qed.

(** X25.  [MachineConfigs] returns, rather than panics, exactly when the spec
    has the machine configs that it touches: that of the control plane, that
    of external etcd if the spec has one, and those of the worker node
    groups, which are taken from the cluster config of the provider and not
    from the spec. *)
Theorem MachineConfigs_returns_iff (p : vsphereProvider) (order : list string)
    (spec : cluster.Spec) :
  is_Some (MachineConfigs p order spec) ↔
  Forall (λ name, is_Some (cluster.VSphereMachineConfigs spec !! name))
    (touchedMachineConfigNames p spec).
Proof.
  unfold MachineConfigs, touchedMachineConfigNames.
  rewrite Forall_cons, Forall_app, Forall_fmap.
  match goal with
  | |- context [annotateMachineConfig spec ?n ?k ?v] =>
      pose proof (annotateMachineConfig_spec spec n k v) as H1;
      destruct (annotateMachineConfig spec n k v) as [spec1|]
  end; simpl.
  2:{ rewrite H1. split; [by intros []|]. intros [[] _]. done. }
  destruct H1 as [Hcp Hk1].
  assert (H2 : match
      match ExternalEtcdConfiguration_ (cluster_Spec (cluster.Cluster spec)) with
      | Some etcd =>
          annotateMachineConfig spec1 (ref_Name (etcd_MachineGroupRef etcd))
            (EtcdAnnotation (cluster.Cluster spec)) "true"
      | None => Some spec1
      end with
    | Some spec2 =>
        Forall (λ name, is_Some (cluster.VSphereMachineConfigs spec !! name))
          match ExternalEtcdConfiguration_ (cluster_Spec (cluster.Cluster spec)) with
          | Some etcd => [ref_Name (etcd_MachineGroupRef etcd)]
          | None => []
          end ∧
        cluster.Cluster spec2 = cluster.Cluster spec ∧
        dom (cluster.VSphereMachineConfigs spec2) = dom (cluster.VSphereMachineConfigs spec)
    | None =>
        ¬ Forall (λ name, is_Some (cluster.VSphereMachineConfigs spec !! name))
          match ExternalEtcdConfiguration_ (cluster_Spec (cluster.Cluster spec)) with
          | Some etcd => [ref_Name (etcd_MachineGroupRef etcd)]
          | None => []
          end
    end).
  { destruct (ExternalEtcdConfiguration_ (cluster_Spec (cluster.Cluster spec))) as [etcd|].
    - match goal with
      | |- context [annotateMachineConfig spec1 ?n ?k ?v] =>
          pose proof (annotateMachineConfig_spec spec1 n k v) as H2;
          destruct (annotateMachineConfig spec1 n k v) as [spec2|]
      end.
      + destruct H2 as [Hin Hk2]. split.
        * constructor; [|constructor]. by apply (proj1 (keptBut_is_Some _ _ _ _ Hk1)).
        * destruct Hk1 as (? & ? & _), Hk2 as (? & ? & _). split; congruence.
      + intros [Hin _]%Forall_cons.
        apply (proj2 (keptBut_is_Some _ _ _ _ Hk1)) in Hin. rewrite H2 in Hin.
        by destruct Hin.
    - split; [constructor|]. by destruct Hk1 as (? & ? & _). }
  destruct (match ExternalEtcdConfiguration_ _ with Some _ => _ | None => _ end)
    as [spec2|]; simpl.
  2:{ split; [by intros []|]. tauto. }
  destruct H2 as (Hetcd & Hc2 & Hd2).
  pose proof (setMachineConfigManagedBy_foldl
                (WorkerNodeGroupConfigurations (cluster_Spec (clusterConfig p))) spec2) as H3.
  assert (Hall : Forall (λ g, is_Some (cluster.VSphereMachineConfigs spec2
                            !! ref_Name (wng_MachineGroupRef g)))
                   (WorkerNodeGroupConfigurations (cluster_Spec (clusterConfig p)))
                 ↔ Forall (λ g, is_Some (cluster.VSphereMachineConfigs spec
                            !! ref_Name (wng_MachineGroupRef g)))
                   (WorkerNodeGroupConfigurations (cluster_Spec (clusterConfig p)))).
  { apply Forall_iff. intros g. by rewrite <- !elem_of_dom, Hd2. }
  destruct (foldl _ (Some spec2) _) as [spec3|]; simpl.
  - destruct H3 as [H3 _]. split; [intros _|by eexists].
    do 2 (split; [done|]). by apply Hall.
  - split; [by intros []|]. intros (_ & _ & Hw). exfalso. by apply H3, Hall.
Qed.

(** X26.  What [MachineConfigs] returns, and what it leaves: the cluster of
    the spec and the names of its machine configs are as before, a machine
    config that is not touched is as before, and the machine configs
    returned are those of the spec as it is left, in the order of the
    range. *)
Theorem MachineConfigs_keeps (p : vsphereProvider) (order : list string)
    (spec spec' : cluster.Spec) machineConfigs :
  MachineConfigs p order spec = Some (machineConfigs, spec') →
  keptBut (touchedMachineConfigNames p spec) spec spec' ∧
  machineConfigs = omap (λ name, cluster.VSphereMachineConfigs spec' !! name) order.
Proof.
  unfold MachineConfigs, touchedMachineConfigNames. intros H.
  match type of H with
  | context [annotateMachineConfig spec ?n ?k ?v] =>
      pose proof (annotateMachineConfig_spec spec n k v) as H1;
      destruct (annotateMachineConfig spec n k v) as [spec1|]
  end; simpl in H; [|done].
  destruct H1 as [_ Hk1].
  destruct (match ExternalEtcdConfiguration_ _ with Some _ => _ | None => _ end)
    as [spec2|] eqn:H2; simpl in H; [|done].
  pose proof (setMachineConfigManagedBy_foldl
                (WorkerNodeGroupConfigurations (cluster_Spec (clusterConfig p))) spec2) as H3.
  destruct (foldl _ (Some spec2) _) as [spec3|]; simpl in H; [|done].
  injection H as <- <-. split; [|done]. destruct H3 as [_ Hk3].
  eapply keptBut_trans; [eapply keptBut_weaken; [|exact Hk1]; solve_sublist|].
  eapply keptBut_trans; [|eapply keptBut_weaken; [|exact Hk3]; solve_sublist].
  destruct (ExternalEtcdConfiguration_ (cluster_Spec (cluster.Cluster spec))) as [etcd|].
  - pose proof (annotateMachineConfig_spec spec1 (ref_Name (etcd_MachineGroupRef etcd))
                  (EtcdAnnotation (cluster.Cluster spec)) "true") as H4.
    rewrite H2 in H4. destruct H4 as [_ H4].
    eapply keptBut_weaken; [|exact H4]. solve_sublist.
  - injection H2 as <-. apply keptBut_refl.
Qed.

Lemma makeAnnotations_idemp mc : makeAnnotations (makeAnnotations mc) = makeAnnotations mc.
Proof. unfold makeAnnotations. by destruct (vmc_Annotations mc) eqn:H; simpl; rewrite ?H. Qed.

Lemma makeAnnotations_setAnnotation key value mc :
  makeAnnotations (setAnnotation key value mc) = setAnnotation key value mc.
Proof. done. Qed.

Lemma makeAnnotations_fields mc :
  vmc_Name (makeAnnotations mc) = vmc_Name mc ∧
  vmc_Namespace (makeAnnotations mc) = vmc_Namespace mc ∧
  vmc_Spec (makeAnnotations mc) = vmc_Spec mc ∧
  vmc_Annotations (makeAnnotations mc) = Some (default ∅ (vmc_Annotations mc)).
Proof. unfold makeAnnotations. by destruct (vmc_Annotations mc) eqn:H; simpl; rewrite ?H. Qed.

Lemma annotatedTrue_setAnnotation key mc : annotatedTrue key (setAnnotation key "true" mc).
Proof. eexists. split; [done|]. by rewrite lookup_insert_eq. Qed.

Lemma annotatedTrue_setAnnotation_other key key' mc :
  annotatedTrue key mc → annotatedTrue key (setAnnotation key' "true" mc).
Proof.
  intros (ann & Hann & Hkey). eexists. split; [done|].
  unfold makeAnnotations. rewrite Hann. simpl. rewrite Hann. simpl.
  destruct (decide (key' = key)) as [->|Hne];
    [by rewrite lookup_insert_eq|by rewrite lookup_insert_ne].
Qed.

Lemma annotatedTrue_makeAnnotations key mc :
  annotatedTrue key mc → annotatedTrue key (makeAnnotations mc).
Proof. intros (ann & Hann & Hkey). exists ann. unfold makeAnnotations. by rewrite Hann. Qed.

Lemma setMachineConfigManagedBy_unmanaged spec name spec' :
  IsManaged (cluster.Cluster spec) = false →
  setMachineConfigManagedBy spec name = Some spec' →
  ∃ mc, cluster.VSphereMachineConfigs spec !! name = Some mc ∧
    spec' = withVSphereMachineConfigs spec
              (<[name := makeAnnotations mc]> (cluster.VSphereMachineConfigs spec)).
Proof.
  intros Hm. unfold setMachineConfigManagedBy. rewrite Hm.
  destruct (cluster.VSphereMachineConfigs spec !! name) as [mc|]; simpl; [|done].
  intros [= <-]. by exists mc.
Qed.

Lemma annotateMachineConfig_unmanaged spec name key value spec' :
  IsManaged (cluster.Cluster spec) = false →
  annotateMachineConfig spec name key value = Some spec' →
  ∃ mc, cluster.VSphereMachineConfigs spec !! name = Some mc ∧
    cluster.Cluster spec' = cluster.Cluster spec ∧
    ∀ name', cluster.VSphereMachineConfigs spec' !! name' =
             if decide (name' = name) then Some (setAnnotation key value mc)
             else cluster.VSphereMachineConfigs spec !! name'.
Proof.
  intros Hm. unfold annotateMachineConfig.
  destruct (cluster.VSphereMachineConfigs spec !! name) as [mc|]; simpl; [|done].
  intros H. apply setMachineConfigManagedBy_unmanaged in H as (mc' & Hmc' & ->); [|done].
  simpl in Hmc'. rewrite lookup_insert_eq in Hmc'. injection Hmc' as <-.
  exists mc. do 2 (split; [done|]). intros name'. simpl.
  destruct (decide (name' = name)) as [->|Hne].
  - by rewrite lookup_insert_eq.
  - by rewrite !lookup_insert_ne.
Qed.

Lemma setMachineConfigManagedBy_foldl_unmanaged groups :
  ∀ spec spec',
  IsManaged (cluster.Cluster spec) = false →
  foldl (λ acc (g : WorkerNodeGroupConfiguration),
           spec' ← acc;
           setMachineConfigManagedBy spec' (ref_Name (wng_MachineGroupRef g)))
        (Some spec) groups = Some spec' →
  ∀ name, cluster.VSphereMachineConfigs spec' !! name =
          if decide (name ∈ (λ g, ref_Name (wng_MachineGroupRef g)) <$> groups)
          then makeAnnotations <$> cluster.VSphereMachineConfigs spec !! name
          else cluster.VSphereMachineConfigs spec !! name.
Proof.
  induction groups as [|g groups IH]; intros spec spec' Hm; simpl.
  - intros [= <-] name. by destruct (decide (name ∈ [])) as [?%elem_of_nil|].
  - destruct (setMachineConfigManagedBy spec (ref_Name (wng_MachineGroupRef g)))
      as [spec1|] eqn:H1.
    2:{ intros H. exfalso. revert H. clear. by induction groups. }
    apply setMachineConfigManagedBy_unmanaged in H1 as (mc & Hmc & ->); [|done].
    intros H name. rewrite (IH _ _ (Hm : IsManaged (cluster.Cluster
      (withVSphereMachineConfigs spec _)) = false) H name). simpl.
    destruct (decide (name = ref_Name (wng_MachineGroupRef g))) as [->|Hne].
    + rewrite lookup_insert_eq, Hmc. simpl. rewrite makeAnnotations_idemp.
      rewrite (decide_True (P := _ ∈ _ :: _)) by (by left). by destruct (decide _).
    + rewrite lookup_insert_ne by done.
      destruct (decide (name ∈ _ <$> groups)) as [Hin|Hnin].
      * by rewrite (decide_True (P := _ ∈ _ :: _)) by (by right).
      * rewrite (decide_False (P := _ ∈ _ :: _)); [done|].
        intros [?|?]%elem_of_cons; done.
Qed.

(** X27.  For a cluster that is not managed, [MachineConfigs] leaves the
    machine config of the control plane with the control plane annotation
    set to true and that of external etcd with the etcd annotation set to
    true.  Every other machine config keeps its name, its namespace and its
    spec; its annotations are as before, except that those of a machine
    config of a worker node group of the provider, when nil, are now an
    empty map. *)
Theorem MachineConfigs_unmanaged (p : vsphereProvider) (order : list string)
    (spec spec' : cluster.Spec) machineConfigs :
  let c := cluster_Spec (cluster.Cluster spec) in
  let cpName := ref_Name (cp_MachineGroupRef (ControlPlaneConfiguration_ c)) in
  IsManaged (cluster.Cluster spec) = false →
  MachineConfigs p order spec = Some (machineConfigs, spec') →
  (∃ mc, cluster.VSphereMachineConfigs spec' !! cpName = Some mc ∧
         annotatedTrue (ControlPlaneAnnotation (cluster.Cluster spec)) mc) ∧
  (∀ etcd, ExternalEtcdConfiguration_ c = Some etcd →
     ∃ mc, cluster.VSphereMachineConfigs spec' !! ref_Name (etcd_MachineGroupRef etcd)
             = Some mc ∧
           annotatedTrue (EtcdAnnotation (cluster.Cluster spec)) mc) ∧
  (∀ name mc, name ≠ cpName →
     (∀ etcd, ExternalEtcdConfiguration_ c = Some etcd →
        name ≠ ref_Name (etcd_MachineGroupRef etcd)) →
     cluster.VSphereMachineConfigs spec !! name = Some mc →
     ∃ mc', cluster.VSphereMachineConfigs spec' !! name = Some mc' ∧
       vmc_Name mc' = vmc_Name mc ∧ vmc_Namespace mc' = vmc_Namespace mc ∧
       vmc_Spec mc' = vmc_Spec mc ∧
       vmc_Annotations mc' =
         if decide (name ∈ workerMachineConfigNames p)
         then Some (default ∅ (vmc_Annotations mc))
         else vmc_Annotations mc).
Proof.
  intros c cpName Hm. unfold MachineConfigs. fold c. fold cpName. intros H.
  destruct (annotateMachineConfig spec cpName _ _) as [spec1|] eqn:H1; simpl in H; [|done].
  apply annotateMachineConfig_unmanaged in H1 as (mc0 & Hmc0 & Hc1 & Hl1); [|done].
  destruct (match ExternalEtcdConfiguration_ c with Some _ => _ | None => _ end)
    as [spec2|] eqn:H2; simpl in H; [|done].
  destruct (foldl _ (Some spec2) _) as [spec3|] eqn:H3; simpl in H; [|done].
  injection H as _ <-.
  assert (Hm1 : IsManaged (cluster.Cluster spec1) = false) by by rewrite Hc1.
  (* after the control plane and etcd *)
  assert (H12 : cluster.Cluster spec2 = cluster.Cluster spec ∧
    (∃ mc, cluster.VSphereMachineConfigs spec2 !! cpName = Some mc ∧
           annotatedTrue (ControlPlaneAnnotation (cluster.Cluster spec)) mc) ∧
    (∀ etcd, ExternalEtcdConfiguration_ c = Some etcd →
       ∃ mc, cluster.VSphereMachineConfigs spec2 !! ref_Name (etcd_MachineGroupRef etcd)
               = Some mc ∧
             annotatedTrue (EtcdAnnotation (cluster.Cluster spec)) mc) ∧
    (∀ name, name ≠ cpName →
       (∀ etcd, ExternalEtcdConfiguration_ c = Some etcd →
          name ≠ ref_Name (etcd_MachineGroupRef etcd)) →
       cluster.VSphereMachineConfigs spec2 !! name
       = cluster.VSphereMachineConfigs spec !! name)).
  { destruct (ExternalEtcdConfiguration_ c) as [etcd|].
    - apply annotateMachineConfig_unmanaged in H2 as (mc1 & Hmc1 & Hc2 & Hl2); [|done].
      split; [congruence|]. split; [|split].
      + rewrite Hl2. destruct (decide (cpName = _)) as [Heq|Hne].
        * eexists. split; [done|]. apply annotatedTrue_setAnnotation_other.
          rewrite <- Heq, Hl1, decide_True in Hmc1 by done. injection Hmc1 as <-.
          apply annotatedTrue_setAnnotation.
        * rewrite Hl1, decide_True by done. eexists. split; [done|].
          apply annotatedTrue_setAnnotation.
      + intros ? [= <-]. rewrite Hl2, decide_True by done.
        eexists. split; [done|]. apply annotatedTrue_setAnnotation.
      + intros name Hcp Hetcd. specialize (Hetcd _ eq_refl).
        by rewrite Hl2, decide_False, Hl1, decide_False.
    - injection H2 as <-. split; [done|]. split; [|split].
      + rewrite Hl1, decide_True by done. eexists. split; [done|].
        apply annotatedTrue_setAnnotation.
      + done.
      + intros name Hcp _. by rewrite Hl1, decide_False. }
  destruct H12 as (Hc2 & Hcp & Hetcd & Hrest).
  assert (Hm2 : IsManaged (cluster.Cluster spec2) = false) by by rewrite Hc2.
  pose proof (setMachineConfigManagedBy_foldl_unmanaged _ _ _ Hm2 H3) as Hl3.
  assert (Hkeep : ∀ key name mc,
            cluster.VSphereMachineConfigs spec2 !! name = Some mc → annotatedTrue key mc →
            ∃ mc', cluster.VSphereMachineConfigs spec3 !! name = Some mc' ∧
                   annotatedTrue key mc').
  { intros key name mc Hmc Hann. rewrite Hl3, Hmc. destruct (decide _); simpl.
    - eexists. split; [done|]. by apply annotatedTrue_makeAnnotations.
    - by exists mc. }
  split; [|split].
  - destruct Hcp as (mc & Hmc & Hann). by eapply Hkeep.
  - intros etcd He. destruct (Hetcd etcd He) as (mc & Hmc & Hann). by eapply Hkeep.
  - intros name mc Hncp Hnetcd Hmc.
    rewrite Hl3, (Hrest name Hncp Hnetcd), Hmc. unfold workerMachineConfigNames.
    destruct (makeAnnotations_fields mc) as (? & ? & ? & ?).
    destruct (decide _); simpl; eexists; (split; [done|]); done.
Qed.

End MoreProviderFacts.

(** ** More runs on the sample cluster *)

Section MoreRuns.

#[local] Existing Instance Fake.collaborators.
#[local] Existing Instance FakeMore.moreCollaborators.

Lemma Fake_digests_unchanged version host datacenter mcs groups version' host' :
  ¬ digestChanged (Sample.specWith version host datacenter mcs groups)
      (Sample.spec version' host' "vc.example").
Proof. unfold digestChanged. simpl. intuition congruence. Qed.

Lemma ValidateNewSpec_accepts_witness :
  let datacenter :=
    mkVdc "test" "default"
      (mkVdcSpec "SDDC-Datacenter" false "/SDDC-Datacenter/network/sddc-cgw-network-1"
         "vc.example" "ANOTHER-THUMBPRINT") in
  let clusterSpec :=
    Sample.specWith "1.23" "192.168.1.71" datacenter
      (Sample.machineConfigs 25 "ssh-rsa AAAA") [Sample.workers] in
  let w := Fake.world (Fake.running "vc.example" true) "A" "pw" in
  ValidateNewSpec Fake.provider Fake.workloadCluster clusterSpec w = (Ok tt, w).
Proof.
  intros datacenter clusterSpec w.
  apply (ValidateNewSpec_accepts Fake.provider Fake.workloadCluster clusterSpec w
           (Sample.eksaCluster "1.23" "192.168.1.71") (Sample.vdc "vc.example")
           (mkSecret (<["username" := list_byte_of_string "A"]>
                        {[ "password" := list_byte_of_string "pw" ]}))).
  - by vm_compute.
  - by vm_compute.
  - apply Fake_machineConfigChecksPass.
  - reflexivity.
  - reflexivity.
  - reflexivity.
  - by vm_compute.
  - by vm_compute.
  - by vm_compute.
Defined.

Lemma ValidateNewSpec_missing_machine_config_witness :
  let clusterSpec :=
    Sample.specWith "1.23" "192.168.1.71" (Sample.vdc "vc.example")
      (delete "test-wn" (Sample.machineConfigs 25 "ssh-rsa AAAA")) [Sample.workers] in
  let w := Fake.world (Fake.running "vc.example" true) "A" "pw" in
  ValidateNewSpec Fake.provider Fake.workloadCluster clusterSpec w =
    (Err "cannot find machine config test-wn in vsphere provider machine configs", w).
Proof.
  intros clusterSpec w.
  apply (ValidateNewSpec_missing_machine_config Fake.provider Fake.workloadCluster
           clusterSpec w (Sample.eksaCluster "1.23" "192.168.1.71") (Sample.vdc "vc.example")
           [Sample.cpRef] Sample.workerRef [Sample.etcdRef]).
  - by vm_compute.
  - by vm_compute.
  - apply Fake_MachineConfigRefs.
  - intros ref [->|Hin%elem_of_nil]%elem_of_cons; [|done].
    eexists; split; [vm_compute; reflexivity|].
    intros _; (eexists; split; [vm_compute; reflexivity|]); by split.
  - by vm_compute.
Defined.

Lemma ValidateNewSpec_machine_config_immutable_witness :
  let clusterSpec :=
    Sample.specWith "1.23" "192.168.1.71" (Sample.vdc "vc.example")
      (<["test-cp" := FakeMore.vmcWithStoragePolicy "test-cp" "gold"]>
         (Sample.machineConfigs 25 "ssh-rsa AAAA")) [Sample.workers] in
  let w := Fake.world (Fake.running "vc.example" true) "A" "pw" in
  ValidateNewSpec Fake.provider Fake.workloadCluster clusterSpec w =
    (Err "spec.storagePolicyName is immutable. Previous value , new value gold", w).
Proof.
  intros clusterSpec w.
  apply (ValidateNewSpec_machine_config_immutable Fake.provider Fake.workloadCluster
           clusterSpec w (Sample.eksaCluster "1.23" "192.168.1.71") (Sample.vdc "vc.example")
           [] Sample.cpRef [Sample.workerRef; Sample.etcdRef]
           (FakeMore.vmcWithStoragePolicy "test-cp" "gold")
           (Sample.vmc "test-cp" 25 "ssh-rsa AAAA")).
  - by vm_compute.
  - by vm_compute.
  - apply Fake_MachineConfigRefs.
  - by intros ref Hin%elem_of_nil.
  - by vm_compute.
  - vm_compute. by eexists.
  - by vm_compute.
  - by vm_compute.
Defined.

Lemma UpgradeNeeded_first_deciding_machine_config_witness :
  let currentSpec := Sample.spec "1.23" "192.168.1.71" "vc.example" in
  let newSpec :=
    Sample.specWith "1.23" "192.168.1.71" (Sample.vdc "vc.example")
      (<["test-wn" := Sample.vmc "test-wn" 50 "ssh-rsa AAAA"]>
         (Sample.machineConfigs 25 "ssh-rsa AAAA")) [Sample.workers] in
  let w := Fake.world (Fake.running "vc.example" true) "A" "pw" in
  UpgradeNeeded Fake.provider newSpec currentSpec Fake.workloadCluster w = (Ok true, w).
Proof.
  intros currentSpec newSpec w.
  apply (UpgradeNeeded_first_deciding_machine_config Fake.provider newSpec currentSpec
           Fake.workloadCluster w (Sample.vdc "vc.example")
           (λ ref, Sample.vmc (ref_Name ref) 25 "ssh-rsa AAAA")
           [Sample.cpRef] Sample.workerRef [Sample.etcdRef])
    with (existingVmc := Sample.vmc "test-wn" 25 "ssh-rsa AAAA").
  - apply Fake_digests_unchanged.
  - by vm_compute.
  - reflexivity.
  - apply Fake_MachineConfigRefs.
  - intros ref [->|Hin%elem_of_nil]%elem_of_cons; [|done].
    split; [by vm_compute|]. intros Hd. apply Hd. by vm_compute.
  - by vm_compute.
  - intros Heq. by vm_compute in Heq.
Defined.

Lemma UpgradeNeeded_ignores_unreferenced_machine_configs_witness :
  let currentSpec := Sample.spec "1.23" "192.168.1.71" "vc.example" in
  let newSpec := Sample.spec "1.24" "192.168.1.71" "vc.example" in
  let w := Fake.world (Fake.running "vc.example" true) "A" "pw" in
  UpgradeNeeded Fake.provider
    (withVSphereMachineConfigs newSpec
       (<["test-more" := Sample.vmc "test-more" 50 "ssh-rsa AAAA"]>
          (cluster.VSphereMachineConfigs newSpec)))
    currentSpec Fake.workloadCluster w
  = UpgradeNeeded Fake.provider newSpec currentSpec Fake.workloadCluster w.
Proof.
  intros currentSpec newSpec w.
  apply (UpgradeNeeded_ignores_unreferenced_machine_configs Fake.provider newSpec
           currentSpec Fake.workloadCluster w).
  apply (bool_decide_unpack _). by vm_compute.
Defined.

(** With the sample cluster and a new spec that is the current one, no new
    etcd template is required. *)
Lemma Fake_no_etcd_template_required :
  let spec := Sample.spec "1.23" "192.168.1.71" "vc.example" in
  ¬ etcdTemplateRequired Fake.workloadCluster spec spec (Fake.running "vc.example" true).
Proof.
  intros spec (c & vdc & Hc & Hvdc & newEtcd & prevEtcd & vmc & Hnew & Hprev & Hvmc & Hneeds).
  vm_compute in Hc. injection Hc as <-.
  vm_compute in Hvdc. injection Hvdc as <-.
  vm_compute in Hnew. injection Hnew as <-.
  vm_compute in Hprev. injection Hprev as <-.
  vm_compute in Hvmc. injection Hvmc as <-.
  by vm_compute in Hneeds.
Qed.

Lemma GenerateCAPISpecForUpgrade_writes_only_for_new_etcd_template_witness :
  let spec := Sample.spec "1.23" "192.168.1.71" "vc.example" in
  let w := Fake.world (Fake.running "vc.example" true) "A" "pw" in
  let run := GenerateCAPISpecForUpgrade Fake.provider Fake.bootstrapCluster
               Fake.workloadCluster spec spec w in
  kube run.2 = kube w ∧
  ∃ evs, log run.2 = log w ++ evs ∧
    ∀ e, e ∈ evs →
      (∀ resourceType objectName annotations opts a,
         e ≠ EvUpdateAnnotation resourceType objectName annotations opts a) ∧
      (∀ name, e ≠ EvMintTemplateName EtcdMachineTemplate name).
Proof.
  intros spec w run.
  apply (GenerateCAPISpecForUpgrade_writes_only_for_new_etcd_template Fake.provider
           Fake.bootstrapCluster Fake.workloadCluster spec spec w run.1 run.2).
  - apply Fake_no_etcd_template_required.
  - apply surjective_pairing.
Defined.

Lemma GenerateCAPISpecForUpgrade_new_external_etcd_witness :
  let spec := Sample.spec "1.23" "192.168.1.71" "vc.example" in
  let w := Fake.world FakeMore.runningWithoutEtcd "A" "pw" in
  let run := GenerateCAPISpecForUpgrade Fake.provider Fake.bootstrapCluster
               Fake.workloadCluster spec spec w in
  is_Some (ExternalEtcdConfiguration_ (cluster_Spec (cluster.Cluster spec))) ∧
  ∀ specs, run.1 ≠ Ok specs.
Proof.
  intros spec w run. split; [by eexists|].
  apply (GenerateCAPISpecForUpgrade_new_external_etcd Fake.provider Fake.bootstrapCluster
           Fake.workloadCluster spec spec w run.1 run.2
           (FakeMore.clusterWithRefs Sample.cpRef None) (mkEtcdConf 3 Sample.etcdRef)).
  - by vm_compute.
  - reflexivity.
  - reflexivity.
  - apply surjective_pairing.
Defined.

Lemma GenerateCAPISpecForUpgrade_missing_control_plane_machine_config_witness :
  let currentSpec := Sample.spec "1.23" "192.168.1.71" "vc.example" in
  let newClusterSpec :=
    Sample.specWith "1.23" "192.168.1.71" (Sample.vdc "vc.example")
      (delete "test-cp" (Sample.machineConfigs 25 "ssh-rsa AAAA")) [Sample.workers] in
  let w := Fake.world (Fake.running "vc.example" true) "A" "pw" in
  GenerateCAPISpecForUpgrade Fake.provider Fake.bootstrapCluster Fake.workloadCluster
    currentSpec newClusterSpec w = (Panic, w).
Proof.
  intros currentSpec newClusterSpec w.
  apply (GenerateCAPISpecForUpgrade_missing_control_plane_machine_config Fake.provider
           Fake.bootstrapCluster Fake.workloadCluster currentSpec newClusterSpec w
           (Sample.eksaCluster "1.23" "192.168.1.71") (Sample.vdc "vc.example")
           (Sample.vmc "test-cp" 25 "ssh-rsa AAAA")).
  - by vm_compute.
  - by vm_compute.
  - by vm_compute.
  - by vm_compute.
  - reflexivity.
  - reflexivity.
  - reflexivity.
Defined.

Lemma GenerateCAPISpecForUpgrade_names_every_worker_node_group_witness :
  let currentSpec := Sample.spec "1.23" "192.168.1.71" "vc.example" in
  let newClusterSpec :=
    Sample.specWith "1.24" "192.168.1.71" (Sample.vdc "vc.example")
      (Sample.machineConfigs 25 "ssh-rsa AAAA") [Sample.workers; Sample.moreWorkers] in
  let w := Fake.world (Fake.running "vc.example" true) "A" "pw" in
  let run := GenerateCAPISpecForUpgrade Fake.provider Fake.bootstrapCluster
               Fake.workloadCluster currentSpec newClusterSpec w in
  ∃ controlPlaneSpec workersSpec (workloadTemplateNames kubeadmconfigTemplateNames
                                     : gmap string string),
    run.1 = Ok (controlPlaneSpec, workersSpec) ∧
    GenerateCAPISpecWorkers newClusterSpec workloadTemplateNames kubeadmconfigTemplateNames
      = Ok workersSpec ∧
    dom workloadTemplateNames = list_to_set ["md-0"; "md-1"] ∧
    dom kubeadmconfigTemplateNames = list_to_set ["md-0"; "md-1"].
Proof.
  intros currentSpec newClusterSpec w run.
  destruct run.1 as [[cp ws]|e|] eqn:Hok; [|by vm_compute in Hok..].
  destruct (GenerateCAPISpecForUpgrade_names_every_worker_node_group Fake.provider
              Fake.bootstrapCluster Fake.workloadCluster currentSpec newClusterSpec
              w run.2 cp ws) as (m1 & m2 & H).
  - by rewrite <- Hok, <- surjective_pairing.
  - by exists cp, ws, m1, m2.
Defined.

Lemma GenerateCAPISpecForUpgrade_reuses_template_names_witness :
  let spec := Sample.spec "1.23" "192.168.1.71" "vc.example" in
  let w := Fake.world (Fake.running "vc.example" true) "A" "pw" in
  let run := GenerateCAPISpecForUpgrade Fake.provider Fake.bootstrapCluster
               Fake.workloadCluster spec spec w in
  ∃ controlPlaneSpec workersSpec,
    run.1 = Ok (controlPlaneSpec, workersSpec) ∧
    (∃ etcdTemplateName,
       GenerateCAPISpecControlPlane spec "test-control-plane-template-1" etcdTemplateName
         = Ok controlPlaneSpec) ∧
    (∃ controlPlaneTemplateName,
       GenerateCAPISpecControlPlane spec controlPlaneTemplateName "test-etcd-template-1"
         = Ok controlPlaneSpec).
Proof.
  intros spec w run.
  destruct run.1 as [[cp ws]|e|] eqn:Hok; [|by vm_compute in Hok..].
  destruct (GenerateCAPISpecForUpgrade_reuses_template_names Fake.provider
              Fake.bootstrapCluster Fake.workloadCluster spec spec w run.2 cp ws
              (Sample.eksaCluster "1.23" "192.168.1.71") (Sample.vdc "vc.example"))
    as [Hcp Hetcd].
  - by rewrite <- Hok, <- surjective_pairing.
  - by vm_compute.
  - by vm_compute.
  - exists cp, ws. split; [done|]. split.
    + apply (Hcp (Sample.vmc "test-cp" 25 "ssh-rsa AAAA")
               (mkKubeadmControlPlane "test-control-plane-template-1")); by vm_compute.
    + apply (Hetcd (mkEtcdConf 3 Sample.etcdRef) (mkEtcdConf 3 Sample.etcdRef)
               (Sample.vmc "test-etcd" 25 "ssh-rsa AAAA")
               (mkEtcdadmCluster "test-etcd-template-1")); by vm_compute.
Defined.

Lemma GenerateCAPISpecForCreate_names_witness :
  let clusterSpec :=
    Sample.specWith "1.23" "192.168.1.71" (Sample.vdc "vc.example")
      (Sample.machineConfigs 25 "ssh-rsa AAAA") [Sample.workers; Sample.moreWorkers] in
  let w := Fake.world (Fake.running "vc.example" false) "A" "pw" in
  let run := GenerateCAPISpecForCreate Fake.provider clusterSpec w in
  ∃ controlPlaneSpec workersSpec,
    run.1 = Ok (controlPlaneSpec, workersSpec) ∧
    ticks run.2 = 6%nat ∧
    GenerateCAPISpecControlPlane clusterSpec
      "test-control-plane-template-0" "test-etcd-template-1" = Ok controlPlaneSpec ∧
    ∃ workloadTemplateNames kubeadmconfigTemplateNames : gmap string string,
      GenerateCAPISpecWorkers clusterSpec workloadTemplateNames kubeadmconfigTemplateNames
        = Ok workersSpec ∧
      dom workloadTemplateNames = list_to_set ["md-0"; "md-1"] ∧
      dom kubeadmconfigTemplateNames = list_to_set ["md-0"; "md-1"].
Proof.
  intros clusterSpec w run.
  destruct run.1 as [[cp ws]|e|] eqn:Hok; [|by vm_compute in Hok..].
  destruct (GenerateCAPISpecForCreate_names Fake.provider clusterSpec w run.2 cp ws)
    as (Hticks & Hcp & Hws).
  - by rewrite <- Hok, <- surjective_pairing.
  - exists cp, ws. split; [done|]. split; [exact Hticks|]. split; [exact Hcp|exact Hws].
Defined.

Lemma EnvMap_first_unset_witness :
  let w := Fake.world (Fake.running "vc.example" true) "A" "pw" in
  (EnvMap Fake.provider w).2
    = Err "warning required env not set EXP_CLUSTER_RESOURCE_SET" ∧
  ∀ k, (EnvMap Fake.provider w).1 !! k
       = if decide (k ∈ ["VSPHERE_USERNAME"; "VSPHERE_PASSWORD"])
         then environ w !! k else None.
Proof.
  intros w.
  apply (EnvMap_first_unset Fake.provider w
           ["VSPHERE_USERNAME"; "VSPHERE_PASSWORD"] "EXP_CLUSTER_RESOURCE_SET" []).
  - reflexivity.
  - repeat constructor; eexists; (split; [vm_compute; reflexivity|simpl; lia]).
  - intros (value & Hvalue & _). by vm_compute in Hvalue.
Defined.

Lemma validateMachineConfigsNameUniqueness_unchanged_names_witness :
  let clusterSpec := Sample.spec "1.24" "192.168.1.71" "vc.example" in
  let w := Fake.world (Fake.running "vc.example" true) "A" "pw" in
  validateMachineConfigsNameUniqueness Fake.provider Fake.workloadCluster clusterSpec w
    = (Ok tt, w).
Proof.
  intros clusterSpec w.
  apply (validateMachineConfigsNameUniqueness_unchanged_names Fake.provider
           Fake.workloadCluster clusterSpec w (Sample.eksaCluster "1.23" "192.168.1.71")).
  - by vm_compute.
  - reflexivity.
  - by intros newEtcd prevEtcd [= <-] [= <-].
Defined.

Lemma validateMachineConfigsNameUniqueness_control_plane_name_taken_witness :
  let clusterSpec :=
    FakeMore.specWithRefs Sample.workerRef (Some Sample.etcdRef)
      (Sample.machineConfigs 25 "ssh-rsa AAAA") in
  let w := Fake.world (Fake.running "vc.example" true) "A" "pw" in
  validateMachineConfigsNameUniqueness Fake.provider Fake.workloadCluster clusterSpec w
    = (Err "control plane VSphereMachineConfig test-wn already exists", w).
Proof.
  intros clusterSpec w.
  apply (validateMachineConfigsNameUniqueness_control_plane_name_taken Fake.provider
           Fake.workloadCluster clusterSpec w (Sample.eksaCluster "1.23" "192.168.1.71")
           [Sample.vmc "test-wn" 25 "ssh-rsa AAAA"]).
  - by vm_compute.
  - by vm_compute.
  - by vm_compute.
  - done.
Defined.

Lemma validateMachineConfigsNameUniqueness_etcd_name_taken_witness :
  let clusterSpec :=
    FakeMore.specWithRefs Sample.cpRef (Some Sample.workerRef)
      (Sample.machineConfigs 25 "ssh-rsa AAAA") in
  let w := Fake.world (Fake.running "vc.example" true) "A" "pw" in
  validateMachineConfigsNameUniqueness Fake.provider Fake.workloadCluster clusterSpec w
    = (Err "external etcd machineconfig test-wn already exists", w).
Proof.
  intros clusterSpec w.
  apply (validateMachineConfigsNameUniqueness_etcd_name_taken Fake.provider
           Fake.workloadCluster clusterSpec w (Sample.eksaCluster "1.23" "192.168.1.71")
           (mkEtcdConf 3 Sample.workerRef) (mkEtcdConf 3 Sample.etcdRef)
           [Sample.vmc "test-wn" 25 "ssh-rsa AAAA"]).
  - by vm_compute.
  - by left.
  - reflexivity.
  - reflexivity.
  - by vm_compute.
  - by vm_compute.
  - done.
Defined.

Lemma MachineConfigs_keeps_witness :
  let spec :=
    Sample.specWith "1.23" "192.168.1.71" (Sample.vdc "vc.example")
      (<["test-more" := Sample.vmc "test-more" 50 "ssh-rsa AAAA"]>
         (Sample.machineConfigs 25 "ssh-rsa AAAA")) [Sample.workers] in
  let order := ["test-wn"; "test-more"; "test-cp"; "test-etcd"] in
  ∃ machineConfigs spec',
    MachineConfigs Fake.provider order spec = Some (machineConfigs, spec') ∧
    keptBut (touchedMachineConfigNames Fake.provider spec) spec spec' ∧
    machineConfigs = omap (λ name, cluster.VSphereMachineConfigs spec' !! name) order.
Proof.
  intros spec order.
  destruct (MachineConfigs Fake.provider order spec) as [[mcs spec']|] eqn:Hrun;
    [|by vm_compute in Hrun].
  exists mcs, spec'. split; [done|].
  by apply (MachineConfigs_keeps Fake.provider order spec spec' mcs).
Defined.

Lemma MachineConfigs_unmanaged_witness :
  let spec := Sample.spec "1.23" "192.168.1.71" "vc.example" in
  let order := ["test-wn"; "test-cp"; "test-etcd"] in
  ∃ machineConfigs spec',
    MachineConfigs Fake.provider order spec = Some (machineConfigs, spec') ∧
    (∃ mc, cluster.VSphereMachineConfigs spec' !! "test-cp" = Some mc ∧
           annotatedTrue "cluster.anywhere.eks.amazonaws.com/control-plane" mc) ∧
    ∃ mc', cluster.VSphereMachineConfigs spec' !! "test-wn" = Some mc' ∧
      vmc_Spec mc' = Sample.vmcSpec 25 "ssh-rsa AAAA" ∧
      vmc_Annotations mc' = Some ∅.
Proof.
  intros spec order.
  destruct (MachineConfigs Fake.provider order spec) as [[mcs spec']|] eqn:Hrun;
    [|by vm_compute in Hrun].
  exists mcs, spec'. split; [done|].
  assert (Hm : IsManaged (cluster.Cluster spec) = false) by reflexivity.
  destruct (MachineConfigs_unmanaged Fake.provider order spec spec' mcs Hm Hrun)
    as (Hcp & _ & Hrest).
  split; [exact Hcp|].
  destruct (Hrest "test-wn" (Sample.vmc "test-wn" 25 "ssh-rsa AAAA"))
    as (mc' & Hmc' & _ & _ & Hspec & Hann);
    [done|by intros etcd [= <-]|by vm_compute|].
  exists mc'. split; [done|]. split; [done|]. rewrite Hann. by vm_compute.
Defined.

(** C8, as stated, fails for the images that the versions bundle pins
    besides the four of the vSphere bundle: with another digest of the
    Cilium image and nothing else changed, [UpgradeNeeded] returns false. *)
Lemma UpgradeNeeded_cilium_digest_counterexample :
  let currentSpec := Sample.spec "1.23" "192.168.1.71" "vc.example" in
  let newSpec :=
    cluster.mkSpec (cluster.Cluster currentSpec) (cluster.Bundles currentSpec)
      (Sample.bundleWith "sha256:c1-new") (cluster.VSphereDatacenter currentSpec)
      (cluster.VSphereMachineConfigs currentSpec) (cluster.ManagementCluster currentSpec) in
  let w := Fake.world (Fake.running "vc.example" true) "A" "pw" in
  pinnedDigestChanged newSpec currentSpec ∧
  (UpgradeNeeded Fake.provider newSpec currentSpec Fake.workloadCluster w).1 = Ok false.
Proof.
  intros currentSpec newSpec w. split; [|by vm_compute].
  intros Heq. by vm_compute in Heq.
Qed.


End MoreRuns.
